(** * Smart Budget Tracker: backup, restore and shared-wallet logic

    A shallow embedding of the sync logic of the application context
    (the [AppProvider] component) and of the [cloudDrive] service, with the
    properties of the specification stated and settled against it.

    Conventions of the embedding
    - the amount of a transaction is a JavaScript [number] as it is: an
      IEEE 754 double (Rocq's primitive binary64 floats), [NaN] and the
      infinities included, added and subtracted with the double's rounding;
    - the other numbers the code handles (the budget figures, counts, sizes
      and clock readings in milliseconds since the epoch) are kept as
      integers ([Z]): they are finite, and only compared, copied,
      subtracted and tested for zero;
    - a value that may be [null], [undefined] or absent is an [option];
    - whatever crosses a JSON boundary (the blob of a remote row, an item of
      the local store) comes back as [JSON.parse(JSON.stringify(v))], which
      is not [v] when [v] holds a number that JSON cannot carry
      ([JSON_number] below);
    - every answer of the outside world (the row store, the clock, the
      identifier generator) is an explicit argument of the function that
      consumes it;
    - a thrown [Error] is the [Threw] outcome. *)

From Stdlib Require Import ZArith String List Bool Floats.
From stdpp Require Import base option list strings gmap pretty.

Local Open Scope string_scope.
Local Open Scope list_scope.
Local Open Scope Z_scope.

(** ** types.ts *)

Inductive TransactionType := income | expense | transfer.
Inductive AccountKey := cash | bank | wallet.

Record Account := mkAccount {
  a_id : string;
  a_key : AccountKey;
  a_name : string
}.

Inductive CategoryType := cat_income | cat_expense.

Record Category := mkCategory {
  c_id : string;
  c_name : string;
  c_type : CategoryType;
  c_subCategories : list string
}.

(** [amount: number] is a double; [None] is the [null] that the field
    holds after a JSON round trip of a [NaN] or infinite amount. *)
Record Transaction := mkTransaction {
  t_id : string;
  t_type : TransactionType;
  t_amount : option float;
  t_date : string;
  t_note : string;
  t_accountId : option string;
  t_categoryId : option string;
  t_subCategory : option string;
  t_fromAccountId : option string;
  t_toAccountId : option string;
  t_receiptUrl : option string;
  t_merchantName : option string;
  t_isFlagged : option bool;
  t_user_id : option string;
  t_isPendingSync : option bool
}.

Inductive Theme := light | dark | auto_theme.
Inductive FontSize := small | medium | large.
Inductive DashboardView := today | week | month.
Inductive ReportView := rv_daily | rv_weekly | rv_monthly | rv_custom | rv_all.
Inductive ExportView := ev_monthly | ev_custom.
Inductive ChartType := bar | pie | line.
Inductive AutoBackup := off | daily | weekly.

Record AppSettings := mkSettings {
  currency : string;
  currencies : list string;
  deletedCurrencies : list string;
  theme : Theme;
  fontSize : FontSize;
  language : string;
  deletedLanguages : list string;
  archivedCustomLanguages : gmap string (gmap string string);
  defaultDashboardView : DashboardView;
  defaultReportView : ReportView;
  defaultExportView : ExportView;
  showBudgetOnDashboard : bool;
  showCategoryBudgetsOnDashboard : bool;
  hiddenCategoryBudgets : list string;
  showFinancialOverviewChart : bool;
  showAccountsOnDashboard : bool;
  showQuickActionsOnDashboard : bool;
  showAIInsightsOnDashboard : bool;
  showFinancialHealthScore : bool;
  reportChartType : ChartType;
  automationThreshold : Z;
  autoBackup : AutoBackup;
  enableRealtime : bool
}.

(** [Partial<AppSettings>]: every key may be missing. *)
Record PartialSettings := mkPartial {
  p_currency : option string;
  p_currencies : option (list string);
  p_deletedCurrencies : option (list string);
  p_theme : option Theme;
  p_fontSize : option FontSize;
  p_language : option string;
  p_deletedLanguages : option (list string);
  p_archivedCustomLanguages : option (gmap string (gmap string string));
  p_defaultDashboardView : option DashboardView;
  p_defaultReportView : option ReportView;
  p_defaultExportView : option ExportView;
  p_showBudgetOnDashboard : option bool;
  p_showCategoryBudgetsOnDashboard : option bool;
  p_hiddenCategoryBudgets : option (list string);
  p_showFinancialOverviewChart : option bool;
  p_showAccountsOnDashboard : option bool;
  p_showQuickActionsOnDashboard : option bool;
  p_showAIInsightsOnDashboard : option bool;
  p_showFinancialHealthScore : option bool;
  p_reportChartType : option ChartType;
  p_automationThreshold : option Z;
  p_autoBackup : option AutoBackup;
  p_enableRealtime : option bool
}.

Definition no_change : PartialSettings :=
  mkPartial None None None None None None None None None None None None
            None None None None None None None None None None None.

(** [{ ...prev, ...s }] *)
Definition spread_settings (prev : AppSettings) (s : PartialSettings) : AppSettings :=
  {| currency := default (currency prev) (p_currency s);
     currencies := default (currencies prev) (p_currencies s);
     deletedCurrencies := default (deletedCurrencies prev) (p_deletedCurrencies s);
     theme := default (theme prev) (p_theme s);
     fontSize := default (fontSize prev) (p_fontSize s);
     language := default (language prev) (p_language s);
     deletedLanguages := default (deletedLanguages prev) (p_deletedLanguages s);
     archivedCustomLanguages :=
       default (archivedCustomLanguages prev) (p_archivedCustomLanguages s);
     defaultDashboardView := default (defaultDashboardView prev) (p_defaultDashboardView s);
     defaultReportView := default (defaultReportView prev) (p_defaultReportView s);
     defaultExportView := default (defaultExportView prev) (p_defaultExportView s);
     showBudgetOnDashboard := default (showBudgetOnDashboard prev) (p_showBudgetOnDashboard s);
     showCategoryBudgetsOnDashboard :=
       default (showCategoryBudgetsOnDashboard prev) (p_showCategoryBudgetsOnDashboard s);
     hiddenCategoryBudgets := default (hiddenCategoryBudgets prev) (p_hiddenCategoryBudgets s);
     showFinancialOverviewChart :=
       default (showFinancialOverviewChart prev) (p_showFinancialOverviewChart s);
     showAccountsOnDashboard :=
       default (showAccountsOnDashboard prev) (p_showAccountsOnDashboard s);
     showQuickActionsOnDashboard :=
       default (showQuickActionsOnDashboard prev) (p_showQuickActionsOnDashboard s);
     showAIInsightsOnDashboard :=
       default (showAIInsightsOnDashboard prev) (p_showAIInsightsOnDashboard s);
     showFinancialHealthScore :=
       default (showFinancialHealthScore prev) (p_showFinancialHealthScore s);
     reportChartType := default (reportChartType prev) (p_reportChartType s);
     automationThreshold := default (automationThreshold prev) (p_automationThreshold s);
     autoBackup := default (autoBackup prev) (p_autoBackup s);
     enableRealtime := default (enableRealtime prev) (p_enableRealtime s) |}.

Record CategoryBudget := mkCategoryBudget {
  cb_categoryId : string;
  cb_amount : Z
}.

Record UserProfile := mkUserProfile {
  u_id : string;
  u_email : option string;
  u_name : string;
  u_address : option string;
  u_photoURL : option string;
  u_createdAt : string;
  u_lastSignIn : option string;
  u_emailVerified : bool
}.

Inductive Role := owner | editor | viewer.

Record Wallet := mkWallet {
  w_id : string;
  w_name : string;
  w_currency : string;
  w_role : Role;
  w_created_at : option string;
  w_is_shared : bool
}.

Record SyncState := mkSyncState {
  isLoggedIn : bool;
  user : option UserProfile;
  lastSync : option string;
  backupSize : option string;
  pendingRestoreAvailable : bool;
  isOnline : bool;
  pendingActionsCount : Z;
  isRealtimeConnected : bool;
  unsyncedChanges : bool;
  activeWalletId : option string;
  isPasswordRecovery : option bool
}.

Inductive NotificationType := success | error | info.

Record Notification := mkNotification {
  n_id : Z;
  n_message : string;
  n_type : NotificationType
}.

(** ** Equality on the data of the model *)

#[export] Instance TransactionType_eq_dec : EqDecision TransactionType.
Proof. solve_decision. Defined.
#[export] Instance AccountKey_eq_dec : EqDecision AccountKey.
Proof. solve_decision. Defined.
#[export] Instance CategoryType_eq_dec : EqDecision CategoryType.
Proof. solve_decision. Defined.
#[export] Instance AutoBackup_eq_dec : EqDecision AutoBackup.
Proof. solve_decision. Defined.
#[export] Instance Role_eq_dec : EqDecision Role.
Proof. solve_decision. Defined.

(** ** JavaScript truthiness of the values the code tests *)

(** A string is truthy unless it is empty; a missing one is falsy. *)
Definition truthy_string (o : option string) : bool :=
  match o with
  | Some s => negb (bool_decide (s = EmptyString))
  | None => false
  end.

(** A number is truthy unless it is zero; a missing one is falsy. *)
Definition truthy_number (o : option Z) : bool :=
  match o with
  | Some n => negb (Z.eqb n 0)
  | None => false
  end.

(** An array or an object is truthy whenever it is there, empty or not. *)
Definition truthy_object {A} (o : option A) : bool :=
  match o with
  | Some _ => true
  | None => false
  end.

(** [String.prototype.includes] *)
Definition includes (s sub : string) : bool :=
  match String.index 0 sub s with
  | Some _ => true
  | None => false
  end.

(** ** Amounts and JSON *)

(** The value an amount has in arithmetic: [null] counts as 0. *)
Definition Number (x : option float) : float := default 0%float x.

(** A whole amount between 0 and 2^53, for the examples. *)
Definition whole (n : Z) : option float := Some (PrimFloat.of_uint63 (Uint63.of_Z n)).

(** [JSON.parse(JSON.stringify(x))] on a number: [NaN] and the infinities
    are written as [null], negative zero is written as [0], and every
    other double is written with digits that read back as the same
    double. *)
Definition JSON_number (x : option float) : option float :=
  match x with
  | Some f =>
      match classify f with
      | NaN | PInf | NInf => None
      | NZero => Some 0%float
      | _ => Some f
      end
  | None => None
  end.

(** The same on a transaction: the amount is its only number; strings,
    booleans and missing keys come back as they were. *)
Definition JSON_transaction (t : Transaction) : Transaction :=
  mkTransaction (t_id t) (t_type t) (JSON_number (t_amount t)) (t_date t) (t_note t)
    (t_accountId t) (t_categoryId t) (t_subCategory t) (t_fromAccountId t)
    (t_toAccountId t) (t_receiptUrl t) (t_merchantName t) (t_isFlagged t)
    (t_user_id t) (t_isPendingSync t).

(** An amount that JSON carries unchanged: a finite double other than
    negative zero (or [null]). *)
Definition JSON_safe (x : option float) : bool :=
  match x with
  | Some f =>
      match classify f with
      | NaN | PInf | NInf | NZero => false
      | _ => true
      end
  | None => true
  end.

(** ** Outcomes of calls that may throw *)

Inductive Error :=
  | ErrMsg (message : string)
  | ErrTooLarge (sizeBytes : Z).
    (* "Data size (..MB) exceeds max limit of 6MB.": the size is kept,
       not its decimal rendering *)

Inductive Outcome (A : Type) :=
  | Returned (a : A)
  | Threw (e : Error).
Arguments Returned {A} a.
Arguments Threw {A} e.

Definition returned {A} (o : Outcome A) : bool :=
  match o with Returned _ => true | Threw _ => false end.

(** ** The local persistent store (storage.ts over [localStorage])

    One field per key of [STORAGE_KEYS] that the context reads or writes;
    [None] is a key that is not there. A field holds what [storage.get]
    parses out of the text stored under the key; the writers below
    ([persist]) put there what [JSON.stringify] carries of the value. *)

Record Storage := mkStorage {
  TRANSACTIONS : option (list Transaction);
  ACCOUNTS : option (list Account);
  CATEGORIES : option (list Category);
  SETTINGS : option AppSettings;
  BUDGET : option Z;
  CATEGORY_BUDGETS : option (list CategoryBudget);
  WALLETS_LIST : option (list Wallet);
  ACTIVE_WALLET_ID : option string;
  LAST_SYNC : option string;
  UNSYNCED_CHANGES : option bool;
  CUSTOM_TRANSLATIONS : option (gmap string (gmap string string))
}.

(** [localStorage.clear()] *)
Definition localStorage_clear : Storage :=
  mkStorage None None None None None None None None None None None.

(** [storage.get(key, fallback)]: the fallback when the key is missing. *)
Definition storage_get {A} (item : option A) (fallback : A) : A :=
  default fallback item.

(** ** The remote row store *)

(** The blob written under [data]: typed [any] in the source, so every
    field may be missing when it is read back. *)
Record BackupData := mkBackupData {
  d_transactions : option (list Transaction);
  d_accounts : option (list Account);
  d_categories : option (list Category);
  d_settings : option AppSettings;
  d_budget : option Z;
  d_categoryBudgets : option (list CategoryBudget)
}.

(** [JSON.parse(JSON.stringify(d))] on a blob. *)
Definition JSON_roundtrip (d : BackupData) : BackupData :=
  mkBackupData (fmap (M := list) JSON_transaction <$> d_transactions d) (d_accounts d)
    (d_categories d) (d_settings d) (d_budget d) (d_categoryBudgets d).

Record Metadata := mkMetadata {
  m_source : string;
  m_version : string;
  m_timestamp : string;
  m_items_count : Z
}.

(** A row of the [backups] table, keyed by [user_id]. *)
Record BackupRow := mkBackupRow {
  row_data : option BackupData;
  row_metadata : option Metadata;
  row_updated_at : option string
}.

Record WalletRow := mkWalletRow {
  wr_name : string;
  wr_currency : string;
  wr_created_by : string;
  wr_created_at : option string
}.

Record MemberRow := mkMemberRow {
  mr_wallet_id : string;
  mr_user_id : string;
  mr_role : Role
}.

(** The tables. A blob is kept as the value that was handed to the
    insert; it travels as JSON text, so what a select hands back to the
    program is its image under [JSON_roundtrip]. *)
Record Cloud := mkCloud {
  backups : gmap string BackupRow;          (* one row per user_id *)
  wallets_table : gmap string WalletRow;    (* keyed by wallet id *)
  wallet_members : list MemberRow;
  wallet_data : gmap string BackupData      (* one row per wallet_id *)
}.

Definition set_backups (f : gmap string BackupRow → gmap string BackupRow)
    (c : Cloud) : Cloud :=
  mkCloud (f (backups c)) (wallets_table c) (wallet_members c) (wallet_data c).

Definition set_wallets_table (f : gmap string WalletRow → gmap string WalletRow)
    (c : Cloud) : Cloud :=
  mkCloud (backups c) (f (wallets_table c)) (wallet_members c) (wallet_data c).

Definition set_wallet_members (f : list MemberRow → list MemberRow)
    (c : Cloud) : Cloud :=
  mkCloud (backups c) (wallets_table c) (f (wallet_members c)) (wallet_data c).

Definition set_wallet_data (f : gmap string BackupData → gmap string BackupData)
    (c : Cloud) : Cloud :=
  mkCloud (backups c) (wallets_table c) (wallet_members c) (f (wallet_data c)).

(** The requests a call sends to the row store, in order. *)
Inductive Request :=
  | UpsertBackup (user_id : string)
  | SelectBackup (user_id : string)
  | InsertWallet
  | InsertMember (wallet_id : string)
  | DeleteWallet (wallet_id : string)
  | DeleteMembers (wallet_id : string)
  | DeleteWalletData (wallet_id : string)
  | SelectWalletData (wallet_id : string).

(** The error object of a rejected request. *)
Record PgError := mkPgError {
  pg_message : string;
  pg_code : string
}.

(** *** A small monad for calls on the row store: store in, outcome, store
    and log of requests out; a throw keeps the store and the log. *)

Definition Remote (A : Type) : Type := Cloud → Outcome A * Cloud * list Request.

Definition ret {A} (a : A) : Remote A := λ c, (Returned a, c, []).
Definition throw {A} (e : Error) : Remote A := λ c, (Threw e, c, []).
Definition bind {A B} (m : Remote A) (k : A → Remote B) : Remote B :=
  λ c, match m c with
       | (Returned a, c1, log1) =>
           match k a c1 with (o, c2, log2) => (o, c2, log1 ++ log2) end
       | (Threw e, c1, log1) => (Threw e, c1, log1)
       end.
Definition send (r : Request) : Remote unit := λ c, (Returned tt, c, [r]).
Definition store (f : Cloud → Cloud) : Remote unit := λ c, (Returned tt, f c, []).
Definition look {A} (f : Cloud → A) : Remote A := λ c, (Returned (f c), c, []).

Notation "'let*' x ':=' m 'in' k" := (bind m (λ x, k))
  (at level 10, x name, m at level 100, k at level 200, only parsing).
Notation "m ';;;' k" := (bind m (λ _, k))
  (at level 100, k at level 200, right associativity, only parsing).

Definition outcome_of {A} (r : Outcome A * Cloud * list Request) : Outcome A := r.1.1.
Definition cloud_of {A} (r : Outcome A * Cloud * list Request) : Cloud := r.1.2.
Definition log_of {A} (r : Outcome A * Cloud * list Request) : list Request := r.2.

(** *** Answers of the row store *)

(** Answer to the upsert of a backup row. [UpsertOk u]: the row is stored
    and [u] is the [updated_at] it now carries, as selected back ([None]:
    the answer has no such value). [UpsertTimedOut]: the 30 s timer won the
    race; whether the row was written is not known to the client. *)
Inductive UpsertReply :=
  | UpsertOk (updated_at : option string)
  | UpsertRejected (e : PgError)
  | UpsertTimedOut (written : bool).

(** Answer to a select: served from the table, or failed (an error object
    or an exception, both of which the callers turn into [null]). *)
Inductive SelectReply := Served | SelectFailed.

Inductive InsertWalletReply :=
  | WalletInserted (id : string) (created_at : option string)
  | WalletRejected (e : PgError).

Inductive InsertMemberReply :=
  | MemberInserted
  | MemberRejected (e : PgError).

(** Answer to a delete: carried out, or failed with the rows left. *)
Inductive DeleteReply :=
  | Deleted
  | DeleteFailed (e : PgError).

Definition deleted (r : DeleteReply) : bool :=
  match r with Deleted => true | DeleteFailed _ => false end.

(** ** cloudDrive.ts *)

Definition MAX_PAYLOAD_SIZE_BYTES : Z := 6 * 1024 * 1024.

Record BackupResult := mkBackupResult {
  timestamp : string;
  skipped : bool
}.

(** What [cloudDrive.restoreBackup] hands back: the blob and the metadata
    of the row, with [timestamp] overridden by the [updated_at] column. *)
Record Backup := mkBackup {
  data : BackupData;
  metadata_rest : option Metadata;
  metadata_timestamp : option string
}.

(** [x || fallback] on strings *)
Definition or_string (x : option string) (fallback : string) : string :=
  match x with
  | Some s => if truthy_string x then s else fallback
  | None => fallback
  end.

Definition recursion_hint : string :=
  "Database Error: Infinite Recursion. Please run 'supabase_setup.sql' in SQL Editor.".

Definition is_recursion (e : PgError) : bool :=
  includes (pg_message e) "recursion" || bool_decide (pg_code e = "42P17").

Section CloudDrive.

(** [new Blob([JSON.stringify(appData)]).size] *)
Variable payload_bytes : BackupData → Z.

(** [backupUserData(userId, appData)]; [online] is [navigator.onLine],
    [clientTime] is [new Date().toISOString()] at the call. *)
Definition cloudDrive_backupUserData (online : bool) (clientTime : string)
    (reply : UpsertReply) (userId : string) (appData : BackupData)
    : Remote BackupResult :=
  if negb online then throw (ErrMsg "Device is offline.")
  else
    let sizeBytes := payload_bytes appData in
    if sizeBytes >? MAX_PAYLOAD_SIZE_BYTES then throw (ErrTooLarge sizeBytes)
    else
      let metadata :=
        {| m_source := "smart-budget-tracker";
           m_version := "1.0";
           m_timestamp := clientTime;
           m_items_count :=
             match d_transactions appData with
             | Some txs => Z.of_nat (length txs)
             | None => 0
             end |} in
      let row u := mkBackupRow (Some appData) (Some metadata) u in
      send (UpsertBackup userId) ;;;
      match reply with
      | UpsertOk updated_at =>
          store (set_backups (insert userId (row updated_at))) ;;;
          (* server timestamp if available, otherwise client time *)
          ret {| timestamp := or_string updated_at clientTime;
                 skipped := false |}
      | UpsertRejected e =>
          throw (ErrMsg (or_string (Some (pg_message e)) "Backup failed."))
      | UpsertTimedOut written =>
          (if written
           then store (set_backups (insert userId (row (Some clientTime))))
           else ret tt) ;;;
          throw (ErrMsg "Backup request timed out (30s). Check your connection.")
      end.

End CloudDrive.

(** [restoreBackup(userId)] *)
Definition cloudDrive_restoreBackup (online : bool) (reply : SelectReply)
    (userId : string) : Remote (option Backup) :=
  if negb online then ret None
  else
    send (SelectBackup userId) ;;;
    match reply with
    | SelectFailed => ret None
    | Served =>
        let* found := look (λ c, backups c !! userId) in
        match found with
        | None => ret None
        | Some r =>
            match row_data r with
            | None => ret None
            | Some d =>
                ret (Some {| data := JSON_roundtrip d;
                             metadata_rest := row_metadata r;
                             metadata_timestamp := row_updated_at r |})
            end
        end
    end.

(** [createWallet(userId, name, currency)] *)
Definition cloudDrive_createWallet (online : bool)
    (walletReply : InsertWalletReply) (memberReply : InsertMemberReply)
    (rollbackReply : DeleteReply)
    (userId name currency : string) : Remote Wallet :=
  if negb online then throw (ErrMsg "Offline")
  else
    (* 1. create the wallet *)
    send InsertWallet ;;;
    match walletReply with
    | WalletRejected walletError =>
        if is_recursion walletError then throw (ErrMsg recursion_hint)
        else throw (ErrMsg (pg_message walletError))
    | WalletInserted id created_at =>
        store (set_wallets_table
                 (insert id (mkWalletRow name currency userId created_at))) ;;;
        (* 2. add the creator as owner *)
        send (InsertMember id) ;;;
        match memberReply with
        | MemberRejected memberError =>
            (* rollback: delete the wallet; the answer is not looked at *)
            send (DeleteWallet id) ;;;
            (if deleted rollbackReply
             then store (set_wallets_table (delete id))
             else ret tt) ;;;
            if is_recursion memberError then throw (ErrMsg recursion_hint)
            else throw (ErrMsg ("Failed to assign owner: " +:+ pg_message memberError))
        | MemberInserted =>
            store (set_wallet_members (λ ms, ms ++ [mkMemberRow id userId owner])) ;;;
            ret {| w_id := id; w_name := name; w_currency := currency;
                   w_role := owner; w_created_at := created_at;
                   w_is_shared := true |}
        end
    end.

(** [getWalletData(walletId)] *)
Definition cloudDrive_getWalletData (online : bool) (reply : SelectReply)
    (walletId : string) : Remote (option BackupData) :=
  if negb online then ret None
  else
    send (SelectWalletData walletId) ;;;
    match reply with
    | SelectFailed => ret None
    | Served => look (λ c, JSON_roundtrip <$> wallet_data c !! walletId)
    end.

(** [deleteWallet(walletId)]: members, then data, then the wallet row; only
    the answer to the last delete is looked at. *)
Definition cloudDrive_deleteWallet (online : bool)
    (membersReply dataReply walletReply : DeleteReply)
    (walletId : string) : Remote unit :=
  if negb online then throw (ErrMsg "Offline")
  else
    send (DeleteMembers walletId) ;;;
    (if deleted membersReply
     then store (set_wallet_members
                   (filter (λ m, mr_wallet_id m ≠ walletId)))
     else ret tt) ;;;
    send (DeleteWalletData walletId) ;;;
    (if deleted dataReply
     then store (set_wallet_data (delete walletId))
     else ret tt) ;;;
    send (DeleteWallet walletId) ;;;
    match walletReply with
    | Deleted => store (set_wallets_table (delete walletId))
    | DeleteFailed e =>
        throw (ErrMsg ("Failed to delete wallet: " +:+ pg_message e))
    end.

(** ** The application context ([AppProvider])

    A call runs to its end before the next one starts. A callback closes
    over the values of the render that created it; the operations below
    are calls through the callback of the current render, so that these
    values are those of the current state. For [restoreBackup], which
    reads a captured list and updates the live one, the render is made
    explicit ([restoreBackup_from]). *)

Record AppState := mkApp {
  transactions : list Transaction;
  accounts : list Account;
  categories : list Category;
  settings : AppSettings;
  budget : Z;
  categoryBudgets : list CategoryBudget;
  wallets : list Wallet;
  syncState : SyncState;
  notification : option Notification;
  isActionSheetOpen : bool;
  aiInsight : option string;
  isAIAnalysing : bool;
  isDirty : bool
}.

(** The state of the provider together with what lives outside it: the
    browser's storage and connectivity flag, the module-level
    [TRANSLATIONS] object, and the remote store. *)
Record World := mkWorld {
  app : AppState;
  localStorage : Storage;
  navigator_onLine : bool;
  translations : gmap string (gmap string string);
  cloud : Cloud
}.

(** *** State setters *)

Definition setTransactions (f : list Transaction → list Transaction) (s : AppState) :=
  mkApp (f (transactions s)) (accounts s) (categories s) (settings s) (budget s)
        (categoryBudgets s) (wallets s) (syncState s) (notification s)
        (isActionSheetOpen s) (aiInsight s) (isAIAnalysing s) (isDirty s).
Definition setAccounts (f : list Account → list Account) (s : AppState) :=
  mkApp (transactions s) (f (accounts s)) (categories s) (settings s) (budget s)
        (categoryBudgets s) (wallets s) (syncState s) (notification s)
        (isActionSheetOpen s) (aiInsight s) (isAIAnalysing s) (isDirty s).
Definition setCategories (f : list Category → list Category) (s : AppState) :=
  mkApp (transactions s) (accounts s) (f (categories s)) (settings s) (budget s)
        (categoryBudgets s) (wallets s) (syncState s) (notification s)
        (isActionSheetOpen s) (aiInsight s) (isAIAnalysing s) (isDirty s).
Definition setSettings (f : AppSettings → AppSettings) (s : AppState) :=
  mkApp (transactions s) (accounts s) (categories s) (f (settings s)) (budget s)
        (categoryBudgets s) (wallets s) (syncState s) (notification s)
        (isActionSheetOpen s) (aiInsight s) (isAIAnalysing s) (isDirty s).
Definition setBudgetState (b : Z) (s : AppState) :=
  mkApp (transactions s) (accounts s) (categories s) (settings s) b
        (categoryBudgets s) (wallets s) (syncState s) (notification s)
        (isActionSheetOpen s) (aiInsight s) (isAIAnalysing s) (isDirty s).
Definition setCategoryBudgets (f : list CategoryBudget → list CategoryBudget)
    (s : AppState) :=
  mkApp (transactions s) (accounts s) (categories s) (settings s) (budget s)
        (f (categoryBudgets s)) (wallets s) (syncState s) (notification s)
        (isActionSheetOpen s) (aiInsight s) (isAIAnalysing s) (isDirty s).
Definition setWallets (f : list Wallet → list Wallet) (s : AppState) :=
  mkApp (transactions s) (accounts s) (categories s) (settings s) (budget s)
        (categoryBudgets s) (f (wallets s)) (syncState s) (notification s)
        (isActionSheetOpen s) (aiInsight s) (isAIAnalysing s) (isDirty s).
Definition setSyncState (f : SyncState → SyncState) (s : AppState) :=
  mkApp (transactions s) (accounts s) (categories s) (settings s) (budget s)
        (categoryBudgets s) (wallets s) (f (syncState s)) (notification s)
        (isActionSheetOpen s) (aiInsight s) (isAIAnalysing s) (isDirty s).
Definition setNotification (n : option Notification) (s : AppState) :=
  mkApp (transactions s) (accounts s) (categories s) (settings s) (budget s)
        (categoryBudgets s) (wallets s) (syncState s) n
        (isActionSheetOpen s) (aiInsight s) (isAIAnalysing s) (isDirty s).
Definition setIsActionSheetOpen (v : bool) (s : AppState) :=
  mkApp (transactions s) (accounts s) (categories s) (settings s) (budget s)
        (categoryBudgets s) (wallets s) (syncState s) (notification s)
        v (aiInsight s) (isAIAnalysing s) (isDirty s).
Definition setAiInsight (v : option string) (s : AppState) :=
  mkApp (transactions s) (accounts s) (categories s) (settings s) (budget s)
        (categoryBudgets s) (wallets s) (syncState s) (notification s)
        (isActionSheetOpen s) v (isAIAnalysing s) (isDirty s).
Definition setIsAIAnalysing (v : bool) (s : AppState) :=
  mkApp (transactions s) (accounts s) (categories s) (settings s) (budget s)
        (categoryBudgets s) (wallets s) (syncState s) (notification s)
        (isActionSheetOpen s) (aiInsight s) v (isDirty s).
Definition setIsDirty (v : bool) (s : AppState) :=
  mkApp (transactions s) (accounts s) (categories s) (settings s) (budget s)
        (categoryBudgets s) (wallets s) (syncState s) (notification s)
        (isActionSheetOpen s) (aiInsight s) (isAIAnalysing s) v.

(** The object spreads [{ ...prev, field: v }] on the sync state. *)
Definition with_login (l : bool) (u : option UserProfile) (p : SyncState) :=
  mkSyncState l u (lastSync p) (backupSize p) (pendingRestoreAvailable p)
    (isOnline p) (pendingActionsCount p) (isRealtimeConnected p)
    (unsyncedChanges p) (activeWalletId p) (isPasswordRecovery p).
Definition with_user (u : option UserProfile) (p : SyncState) :=
  with_login (isLoggedIn p) u p.
Definition with_lastSync (v : option string) (p : SyncState) :=
  mkSyncState (isLoggedIn p) (user p) v (backupSize p) (pendingRestoreAvailable p)
    (isOnline p) (pendingActionsCount p) (isRealtimeConnected p)
    (unsyncedChanges p) (activeWalletId p) (isPasswordRecovery p).
Definition with_pendingRestoreAvailable (v : bool) (p : SyncState) :=
  mkSyncState (isLoggedIn p) (user p) (lastSync p) (backupSize p) v
    (isOnline p) (pendingActionsCount p) (isRealtimeConnected p)
    (unsyncedChanges p) (activeWalletId p) (isPasswordRecovery p).
Definition with_isOnline (v : bool) (p : SyncState) :=
  mkSyncState (isLoggedIn p) (user p) (lastSync p) (backupSize p)
    (pendingRestoreAvailable p) v (pendingActionsCount p) (isRealtimeConnected p)
    (unsyncedChanges p) (activeWalletId p) (isPasswordRecovery p).
Definition with_unsyncedChanges (v : bool) (p : SyncState) :=
  mkSyncState (isLoggedIn p) (user p) (lastSync p) (backupSize p)
    (pendingRestoreAvailable p) (isOnline p) (pendingActionsCount p)
    (isRealtimeConnected p) v (activeWalletId p) (isPasswordRecovery p).
Definition with_activeWalletId (v : option string) (p : SyncState) :=
  mkSyncState (isLoggedIn p) (user p) (lastSync p) (backupSize p)
    (pendingRestoreAvailable p) (isOnline p) (pendingActionsCount p)
    (isRealtimeConnected p) (unsyncedChanges p) v (isPasswordRecovery p).
Definition with_isPasswordRecovery (v : option bool) (p : SyncState) :=
  mkSyncState (isLoggedIn p) (user p) (lastSync p) (backupSize p)
    (pendingRestoreAvailable p) (isOnline p) (pendingActionsCount p)
    (isRealtimeConnected p) (unsyncedChanges p) (activeWalletId p) v.

Definition on_app (f : AppState → AppState) (w : World) : World :=
  mkWorld (f (app w)) (localStorage w) (navigator_onLine w) (translations w) (cloud w).
Definition on_storage (f : Storage → Storage) (w : World) : World :=
  mkWorld (app w) (f (localStorage w)) (navigator_onLine w) (translations w) (cloud w).
Definition on_translations
    (f : gmap string (gmap string string) → gmap string (gmap string string))
    (w : World) : World :=
  mkWorld (app w) (localStorage w) (navigator_onLine w) (f (translations w)) (cloud w).
Definition with_cloud (c : Cloud) (w : World) : World :=
  mkWorld (app w) (localStorage w) (navigator_onLine w) (translations w) c.
Definition with_onLine (b : bool) (w : World) : World :=
  mkWorld (app w) (localStorage w) b (translations w) (cloud w).

(** *** Writes to the local store *)

Definition set_UNSYNCED_CHANGES (v : bool) (s : Storage) : Storage :=
  mkStorage (TRANSACTIONS s) (ACCOUNTS s) (CATEGORIES s) (SETTINGS s) (BUDGET s)
    (CATEGORY_BUDGETS s) (WALLETS_LIST s) (ACTIVE_WALLET_ID s) (LAST_SYNC s)
    (Some v) (CUSTOM_TRANSLATIONS s).
Definition set_CUSTOM_TRANSLATIONS (v : gmap string (gmap string string))
    (s : Storage) : Storage :=
  mkStorage (TRANSACTIONS s) (ACCOUNTS s) (CATEGORIES s) (SETTINGS s) (BUDGET s)
    (CATEGORY_BUDGETS s) (WALLETS_LIST s) (ACTIVE_WALLET_ID s) (LAST_SYNC s)
    (UNSYNCED_CHANGES s) (Some v).

(** The nine persistence effects
    [useEffect(() => { storage.set(KEY, value); }, [value])]: after a
    render every one of these keys holds the JSON text of the value of the
    state ([null] removes the key). They do not look at [activeWalletId]. *)
Definition persist (a : AppState) (s : Storage) : Storage :=
  {| TRANSACTIONS := Some (JSON_transaction <$> transactions a);
     ACCOUNTS := Some (accounts a);
     CATEGORIES := Some (categories a);
     SETTINGS := Some (settings a);
     BUDGET := Some (budget a);
     CATEGORY_BUDGETS := Some (categoryBudgets a);
     WALLETS_LIST := Some (wallets a);
     ACTIVE_WALLET_ID := activeWalletId (syncState a);
     LAST_SYNC := lastSync (syncState a);
     UNSYNCED_CHANGES := UNSYNCED_CHANGES s;
     CUSTOM_TRANSLATIONS := CUSTOM_TRANSLATIONS s |}.

(** A render followed by its effects. *)
Definition commit (w : World) : World := on_storage (persist (app w)) w.

Definition markAsDirty (w : World) : World :=
  on_storage (set_UNSYNCED_CHANGES true)
    (on_app (λ a, setSyncState (with_unsyncedChanges true) (setIsDirty true a)) w).

(** *** Local edits *)

(** [{ ...t, id, isPendingSync: true }] *)
Definition tx_pending (t : Transaction) (id : string) : Transaction :=
  mkTransaction id (t_type t) (t_amount t) (t_date t) (t_note t) (t_accountId t)
    (t_categoryId t) (t_subCategory t) (t_fromAccountId t) (t_toAccountId t)
    (t_receiptUrl t) (t_merchantName t) (t_isFlagged t) (t_user_id t) (Some true).

(** [{ ...t, categoryId: undefined, subCategory: undefined, note }] *)
Definition tx_uncategorized (t : Transaction) : Transaction :=
  mkTransaction (t_id t) (t_type t) (t_amount t) (t_date t)
    (if bool_decide (t_note t = EmptyString) then "(Uncategorized)"
     else t_note t +:+ " (Uncategorized)")
    (t_accountId t) None None (t_fromAccountId t) (t_toAccountId t)
    (t_receiptUrl t) (t_merchantName t) (t_isFlagged t) (t_user_id t)
    (t_isPendingSync t).

(** [showNotification(message, type)]; [now] is [Date.now()]. The timer that
    clears the notification three seconds later is [notificationTimeout]. *)
Definition showNotification (message : string) (type : NotificationType)
    (now : Z) (w : World) : World :=
  on_app (setNotification (Some (mkNotification now message type))) w.

Definition notificationTimeout (w : World) : World :=
  on_app (setNotification None) w.

(** [tData] stands for the [Omit<Transaction, 'id'>] argument: its [t_id]
    is not read. [uuid] is [crypto.randomUUID()]. *)
Definition addTransaction (tData : Transaction) (uuid : string) (w : World) : World :=
  markAsDirty (on_app (setTransactions (λ prev, tx_pending tData uuid :: prev)) w).

Definition updateTransaction (d : Transaction) (w : World) : World :=
  markAsDirty
    (on_app (setTransactions
               (map (λ t, if bool_decide (t_id t = t_id d)
                          then tx_pending d (t_id d) else t))) w).

Definition deleteTransaction (id : string) (w : World) : Outcome bool * World :=
  let newTxs := filter (λ t, t_id t ≠ id) (transactions (app w)) in
  (Returned true, markAsDirty (on_app (setTransactions (λ _, newTxs)) w)).

Definition importTransactions (txs : list Transaction) (now : Z) (w : World) : World :=
  showNotification (pretty (length txs) +:+ " transactions imported!") success now
    (markAsDirty (on_app (setTransactions (λ prev, prev ++ txs)) w)).

(** [a] stands for the [Omit<Account, 'id'>] argument; [now] is [Date.now()]. *)
Definition addAccount (a : Account) (now : Z) (w : World) : World :=
  markAsDirty
    (on_app (setAccounts
               (λ prev, prev ++ [mkAccount ("acc_" +:+ pretty now) (a_key a) (a_name a)]))
            w).

Definition updateAccountName (id name : string) (w : World) : World :=
  markAsDirty
    (on_app (setAccounts
               (map (λ a, if bool_decide (a_id a = id)
                          then mkAccount (a_id a) (a_key a) name else a))) w).

Definition deleteAccount (id : string) (w : World) : World :=
  markAsDirty (on_app (setAccounts (filter (λ a, a_id a ≠ id))) w).

Definition addCategory (c : Category) (now : Z) (w : World) : World :=
  markAsDirty
    (on_app (setCategories
               (λ prev, prev ++ [mkCategory ("cat_" +:+ pretty now) (c_name c)
                                            (c_type c) (c_subCategories c)])) w).

Definition updateCategory (c : Category) (w : World) : World :=
  markAsDirty
    (on_app (setCategories
               (map (λ cat, if bool_decide (c_id cat = c_id c) then c else cat))) w).

Definition deleteCategory (id : string) (w : World) : World :=
  markAsDirty
    (on_app (λ a,
       setTransactions
         (map (λ t, if bool_decide (t_categoryId t = Some id)
                    then tx_uncategorized t else t))
         (setCategories (filter (λ c, c_id c ≠ id)) a)) w).

Definition updateBudget (amount : Z) (w : World) : World :=
  markAsDirty (on_app (setBudgetState amount) w).

Definition updateCategoryBudget (catId : string) (amount : Z) (w : World) : World :=
  markAsDirty
    (on_app (setCategoryBudgets
       (λ prev,
          match find (λ b, bool_decide (cb_categoryId b = catId)) prev with
          | Some _ =>
              map (λ b, if bool_decide (cb_categoryId b = catId)
                        then mkCategoryBudget (cb_categoryId b) amount else b) prev
          | None => prev ++ [mkCategoryBudget catId amount]
          end)) w).

Definition updateSettings (s : PartialSettings) (w : World) : World :=
  markAsDirty (on_app (setSettings (λ prev, spread_settings prev s)) w).

Definition only_language (code : string) : PartialSettings :=
  mkPartial None None None None None (Some code) None None None None None None
            None None None None None None None None None None None.

Definition only_currencies (cs : list string) (c : option string) : PartialSettings :=
  mkPartial c (Some cs) None None None None None None None None None None
            None None None None None None None None None None None.

Definition installLanguage (code : string) (dict : gmap string string)
    (w : World) : World :=
  let stored := storage_get (CUSTOM_TRANSLATIONS (localStorage w)) ∅ in
  updateSettings (only_language code)
    (on_storage (set_CUSTOM_TRANSLATIONS (<[code := dict]> stored))
       (on_translations (insert code dict) w)).

Definition uninstallLanguage (code : string) (w : World) : World :=
  if bool_decide (code = "en") then w
  else
    let stored := storage_get (CUSTOM_TRANSLATIONS (localStorage w)) ∅ in
    let w1 := on_storage (set_CUSTOM_TRANSLATIONS (delete code stored))
                (on_translations (delete code) w) in
    if bool_decide (language (settings (app w)) = code)
    then updateSettings (only_language "en") w1
    else w1.

Definition installCurrency (code : string) (w : World) : World :=
  let cs := currencies (settings (app w)) in
  if bool_decide (code ∈ cs) then w
  else updateSettings (only_currencies (cs ++ [code]) None) w.

Definition uninstallCurrency (code : string) (w : World) : World :=
  if bool_decide (code = "USD") then w
  else
    let st := settings (app w) in
    updateSettings
      (only_currencies (filter (λ c, c ≠ code) (currencies st))
         (Some (if bool_decide (currency st = code) then "USD" else currency st)))
      w.

Definition logout (w : World) : World :=
  on_app (setSyncState (with_login false None)) w.

Definition updateUserProfilePhoto (url : string) (w : World) : World :=
  on_app (setSyncState
    (λ prev,
       match user prev with
       | Some u =>
           with_user (Some (mkUserProfile (u_id u) (u_email u) (u_name u)
                              (u_address u) (Some url) (u_createdAt u)
                              (u_lastSignIn u) (u_emailVerified u))) prev
       | None => prev
       end)) w.

Definition handleOnline (w : World) : World :=
  on_app (setSyncState (with_isOnline true)) (with_onLine true w).
Definition handleOffline (w : World) : World :=
  on_app (setSyncState (with_isOnline false)) (with_onLine false w).

(** [a > b] on numbers that may be [NaN] ([None]): false when either is. *)
Definition js_gt (a b : option Z) : bool :=
  match a, b with
  | Some x, Some y => x >? y
  | _, _ => false
  end.

Inductive Strategy := Merge | Replace | Skip.

#[export] Instance Strategy_eq_dec : EqDecision Strategy.
Proof. solve_decision. Defined.

Inductive AuthEvent := SIGNED_IN | SIGNED_OUT | PASSWORD_RECOVERY | OTHER_EVENT.

(** Answer of the text-generation service to [generateContent]. *)
Inductive AiReply :=
  | AiText (text : option string)
  | AiQuotaError
  | AiOtherError.

(** The snapshot that [backupUserData] sends. *)
Definition snapshot (a : AppState) : BackupData :=
  {| d_transactions := Some (transactions a);
     d_accounts := Some (accounts a);
     d_categories := Some (categories a);
     d_settings := Some (settings a);
     d_budget := Some (budget a);
     d_categoryBudgets := Some (categoryBudgets a) |}.

(** The six guarded assignments of the 'replace' strategy. *)
Definition replace_fields (remoteData : BackupData) (a : AppState) : AppState :=
  let a1 := match d_transactions remoteData with
            | Some v => setTransactions (λ _, v) a | None => a end in
  let a2 := match d_accounts remoteData with
            | Some v => setAccounts (λ _, v) a1 | None => a1 end in
  let a3 := match d_categories remoteData with
            | Some v => setCategories (λ _, v) a2 | None => a2 end in
  let a4 := match d_settings remoteData with
            | Some v => setSettings (λ _, v) a3 | None => a3 end in
  let a5 := match d_budget remoteData with
            | Some v => if truthy_number (Some v) then setBudgetState v a4 else a4
            | None => a4 end in
  match d_categoryBudgets remoteData with
  | Some v => setCategoryBudgets (λ _, v) a5 | None => a5 end.

(** The transactions of the remote blob whose id is not in the local set. *)
Definition merge_new (local remote : list Transaction) : list Transaction :=
  let localIds : gset string := list_to_set (t_id <$> local) in
  filter (λ t, t_id t ∉ localIds) remote.

(** ** storage.ts on the raw key/value store

    [localStorage] as the browser has it: keys and items are strings.
    [JSON_parse] is [JSON.parse] at the type read ([None]: it throws),
    [JSON_stringify] is [JSON.stringify]. Writes are taken to succeed. *)

Module storage.

Definition get {A} (JSON_parse : string → option A) (ls : gmap string string)
    (key : string) (fallback : A) : A :=
  match ls !! key with
  | None => fallback
  | Some item =>
      if bool_decide (item = "undefined") || bool_decide (item = "null")
      then fallback
      else match JSON_parse item with
           | Some v => v
           | None => fallback   (* the catch branch *)
           end
  end.

Definition set {A} (JSON_stringify : A → string) (key : string) (value : option A)
    (ls : gmap string string) : gmap string string :=
  match value with
  | None => delete key ls
  | Some v => <[key := JSON_stringify v]> ls
  end.

Definition remove (key : string) (ls : gmap string string) : gmap string string :=
  delete key ls.

Definition removeAll (keys : list string) (ls : gmap string string)
    : gmap string string :=
  fold_left (λ m k, delete k m) keys ls.

Definition dynamicKeys : list string :=
  ["sb_active_wallet"; "sb_wallet_roles"; "sb_shared_wallets"; "sb_ai_insight"].

(** The test of the third pass of [clearAll]. *)
Definition swept (key : string) : bool :=
  negb (bool_decide (key = EmptyString))
  && (String.prefix "sb_" key || String.prefix "sb-" key
      || includes key "supabase.auth.token").

(** [clearAll()]; [STORAGE_KEYS] stands for [Object.values(STORAGE_KEYS)]. *)
Definition clearAll (STORAGE_KEYS : list string) (ls : gmap string string)
    : gmap string string :=
  let ls1 := removeAll STORAGE_KEYS ls in
  let ls2 := removeAll dynamicKeys ls1 in
  let keysToRemove := filter (λ k, swept k = true) (map_to_list ls2).*1 in
  removeAll keysToRemove ls2.

End storage.

(** ** More of cloudDrive.ts *)

(** The metadata and the fields of a user of the authentication provider
    that [ensureUserProfile] reads. *)
Record UserMetadata := mkUserMetadata {
  um_full_name : option string;
  um_name : option string;
  um_address : option string;
  um_photo_url : option string;
  um_avatar_url : option string
}.

Record AuthUser := mkAuthUser {
  au_id : string;
  au_email : option string;
  au_created_at : string;
  au_email_confirmed_at : option string;
  au_user_metadata : option UserMetadata
}.

(** [a || b] where a missing or empty [a] gives way to [b]. *)
Definition or_else (a b : option string) : option string :=
  if truthy_string a then a else b.

(** The profile that [ensureUserProfile(user)] returns (the upsert of the
    public profile it also attempts is best effort and does not change
    the result). *)
Definition ensureUserProfile (user : AuthUser) : UserProfile :=
  let meta := default (mkUserMetadata None None None None None)
                (au_user_metadata user) in
  {| u_id := au_id user;
     u_name := or_string (or_else (um_full_name meta) (um_name meta)) "User";
     u_email := or_else (au_email user) None;
     u_address := Some (or_string (um_address meta) EmptyString);
     u_photoURL := or_else (or_else (um_photo_url meta) (um_avatar_url meta)) None;
     u_createdAt := au_created_at user;
     u_lastSignIn := None;
     u_emailVerified := truthy_string (au_email_confirmed_at user) |}.

(** [new Map(members.map(m => [m.wallet_id, m.role]))]: a later row
    replaces an earlier one with the same wallet id. *)
Definition roleMap (members : list MemberRow) : gmap string Role :=
  fold_left (λ m r, <[mr_wallet_id r := mr_role r]> m) members ∅.

(** [getMyWallets(userId)], read off the two tables; the order of the rows
    of the second select is that of the table. *)
Definition cloudDrive_getMyWallets (online : bool)
    (membersReply walletsReply : SelectReply) (userId : string) (c : Cloud)
    : list Wallet :=
  if negb online then []
  else
    match membersReply with
    | SelectFailed => []
    | Served =>
        let members := filter (λ m, mr_user_id m = userId) (wallet_members c) in
        match members with
        | [] => []
        | _ :: _ =>
            let walletIds := mr_wallet_id <$> members in
            let roles := roleMap members in
            match walletsReply with
            | SelectFailed => []
            | Served =>
                let rows := map_to_list
                              (filter (λ kv, kv.1 ∈ walletIds) (wallets_table c)) in
                (λ kv, mkWallet kv.1 (wr_name kv.2) (wr_currency kv.2)
                         (default viewer (roles !! kv.1))
                         (wr_created_at kv.2) true) <$> rows
            end
        end
    end.

(** ** More of the application context and of the dashboard *)

(** One step of the [reduce] of [getAccountBalance]. *)
Definition balance_step (id : string) (acc : float) (t : Transaction) : float :=
  if bool_decide (t_accountId t = Some id) && bool_decide (t_type t = income)
  then (acc + Number (t_amount t))%float
  else if bool_decide (t_accountId t = Some id) && bool_decide (t_type t = expense)
  then (acc - Number (t_amount t))%float
  else if bool_decide (t_fromAccountId t = Some id)
  then (acc - Number (t_amount t))%float
  else if bool_decide (t_toAccountId t = Some id)
  then (acc + Number (t_amount t))%float
  else acc.

(** [getAccountBalance(id)]: the doubles are added in the order of the
    list. *)
Definition getAccountBalance (id : string) (a : AppState) : float :=
  fold_left (balance_step id) (transactions a) 0%float.

(** [stats.combinedTotal] of the dashboard *)
Definition combinedTotal (a : AppState) : float :=
  fold_left (λ acc tx,
               if bool_decide (t_type tx = income)
               then (acc + Number (t_amount tx))%float
               else if bool_decide (t_type tx = expense)
               then (acc - Number (t_amount tx))%float
               else acc)
    (transactions a) 0%float.


Section Provider.

(** [new Date(s).getTime()]; [None] is [NaN]. *)
Variable Date_getTime : string → option Z.
(** [new Blob([JSON.stringify(appData)]).size] *)
Variable payload_bytes : BackupData → Z.
(** The constants of [constants.ts], kept abstract. *)
Variable INITIAL_ACCOUNTS : list Account.
Variable INITIAL_CATEGORIES : list Category.
Variable DEFAULT_SETTINGS : AppSettings.
Variable TRANSLATIONS : gmap string (gmap string string).

(** The [useState] initialisers of the provider. *)
Definition initial_state (s : Storage) (onLine : bool) : AppState :=
  {| transactions := storage_get (TRANSACTIONS s) [];
     accounts := storage_get (ACCOUNTS s) INITIAL_ACCOUNTS;
     categories := storage_get (CATEGORIES s) INITIAL_CATEGORIES;
     settings := storage_get (SETTINGS s) DEFAULT_SETTINGS;
     budget := storage_get (BUDGET s) 0;
     categoryBudgets := storage_get (CATEGORY_BUDGETS s) [];
     wallets := storage_get (WALLETS_LIST s) [];
     syncState :=
       {| isLoggedIn := false;
          user := None;
          lastSync := LAST_SYNC s;
          backupSize := None;
          pendingRestoreAvailable := false;
          isOnline := onLine;
          pendingActionsCount := 0;
          isRealtimeConnected := false;
          unsyncedChanges := false;
          activeWalletId := ACTIVE_WALLET_ID s;
          isPasswordRecovery := None |};
     notification := None;
     isActionSheetOpen := false;
     aiInsight := None;
     isAIAnalysing := false;
     isDirty := false |}.

(** A page load: the module-level objects are fresh, the provider mounts
    with its initial state, and the mount effects run (stored custom
    translations are added where the code is not taken, the
    persistence effects write the state back). *)
Definition mount (s : Storage) (onLine : bool) (c : Cloud) : World :=
  commit {| app := initial_state s onLine;
            localStorage := s;
            navigator_onLine := onLine;
            translations := TRANSLATIONS ∪ storage_get (CUSTOM_TRANSLATIONS s) ∅;
            cloud := c |}.

(** [window.location.reload()], and any other load of the page: the
    state of the provider is gone, the local store and the remote store
    are what they were. *)
Definition pageLoad (w : World) : World :=
  mount (localStorage w) (navigator_onLine w) (cloud w).

(** [resetPreferences]: clear the storage, sign out, reload the page. *)
Definition resetPreferences (w : World) : World :=
  mount localStorage_clear (navigator_onLine w) (cloud w).

(** [checkCloudBackup(userId)] *)
Definition checkCloudBackup (reply : SelectReply) (userId : string)
    (w : World) : World :=
  let r := cloudDrive_restoreBackup (navigator_onLine w) reply userId (cloud w) in
  match outcome_of r with
  | Returned (Some backup) =>
      match metadata_timestamp backup with
      | Some ts =>
          if truthy_string (Some ts) then
            let localLastSync := LAST_SYNC (localStorage w) in
            let cloudTime := Date_getTime ts in
            let localTime :=
              match localLastSync with
              | Some l => if truthy_string (Some l) then Date_getTime l else Some 0
              | None => Some 0
              end in
            if js_gt cloudTime localTime
            then on_app (setSyncState (with_pendingRestoreAvailable true)) w
            else w
          else w
      | None => w
      end
  | _ => w
  end.

(** The handler of [onAuthStateChange]; [session] is the profile that
    [ensureUserProfile] builds for [session.user], if there is one. *)
Definition onAuthStateChange (event : AuthEvent) (session : option UserProfile)
    (reply : SelectReply) (w : World) : World :=
  match session with
  | Some profile =>
      let w1 := on_app (setSyncState (with_login true (Some profile))) w in
      match event with
      | SIGNED_IN => checkCloudBackup reply (u_id profile) w1
      | PASSWORD_RECOVERY =>
          on_app (setSyncState (with_isPasswordRecovery (Some true))) w1
      | _ => w1
      end
  | None => on_app (setSyncState (with_login false None)) w
  end.

(** The [getSession] effect run at mount. *)
Definition onSession (session : option UserProfile) (reply : SelectReply)
    (w : World) : World :=
  match session with
  | Some profile =>
      checkCloudBackup reply (u_id profile)
        (on_app (setSyncState (with_login true (Some profile))) w)
  | None => w
  end.

(** [backupUserData()] of the context *)
Definition backupUserData (clientTime : string) (reply : UpsertReply)
    (w : World) : Outcome unit * World :=
  match user (syncState (app w)) with
  | None => (Returned tt, w)
  | Some u =>
      let r := cloudDrive_backupUserData payload_bytes (navigator_onLine w)
                 clientTime reply (u_id u) (snapshot (app w)) (cloud w) in
      match outcome_of r with
      | Returned result =>
          (Returned tt,
           on_app (λ a,
             setIsDirty false
               (setSyncState
                  (λ prev, with_unsyncedChanges false
                             (with_lastSync (Some (timestamp result)) prev)) a))
             (with_cloud (cloud_of r) w))
      | Threw e => (Threw e, with_cloud (cloud_of r) w)
      end
  end.

(** [restoreBackup(strategy)] of the context, as [useCallback] hands it
    out in a render that shows the state [seen]: [syncState.user] and
    [transactions] (the dependency list) are read from that render, the
    functional updaters [prev => ...] act on the state at the time of the
    call. *)
Definition restoreBackup_from (seen : AppState) (strategy : Strategy)
    (reply : SelectReply) (w : World) : Outcome bool * World :=
  match strategy with
  | Skip =>
      (Returned true, on_app (setSyncState (with_pendingRestoreAvailable false)) w)
  | _ =>
      match user (syncState seen) with
      | None => (Returned false, w)
      | Some u =>
          let r := cloudDrive_restoreBackup (navigator_onLine w) reply (u_id u)
                     (cloud w) in
          match outcome_of r with
          | Threw e => (Threw e, w)
          | Returned None => (Returned false, w)
          | Returned (Some backup) =>
              let remoteData := data backup in
              let synced prev :=
                with_unsyncedChanges false
                  (with_pendingRestoreAvailable false
                     (with_lastSync (metadata_timestamp backup) prev)) in
              match strategy with
              | Replace =>
                  (Returned true,
                   on_app (λ a, setSyncState synced (replace_fields remoteData a)) w)
              | _ =>
                  match d_transactions remoteData with
                  | None =>
                      (* remoteData.transactions.filter on undefined *)
                      (Threw (ErrMsg "TypeError: Cannot read properties of undefined"), w)
                  | Some remoteTxs =>
                      let newTxs := merge_new (transactions seen) remoteTxs in
                      (Returned true,
                       on_app (λ a, setSyncState synced
                                      (setTransactions (λ prev, prev ++ newTxs) a)) w)
                  end
              end
          end
      end
  end.

(** A call of [restoreBackup] through the callback of the current render. *)
Definition restoreBackup (strategy : Strategy) (reply : SelectReply)
    (w : World) : Outcome bool * World :=
  restoreBackup_from (app w) strategy reply w.

(** The auto-backup effect is installed only when this holds; otherwise
    the effect returns before it defines or schedules [checkBackup]. *)
Definition autoBackup_armed (a : AppState) : bool :=
  negb (negb (isLoggedIn (syncState a))
        || negb (isOnline (syncState a))
        || bool_decide (autoBackup (settings a) = off)
        || negb (truthy_string (lastSync (syncState a)))).

(** The test of [checkBackup]; [now] is [Date.now()]. *)
Definition autoBackup_due (now : Z) (a : AppState) : bool :=
  let last := from_option Date_getTime None (lastSync (syncState a)) in
  let intervalHours := if bool_decide (autoBackup (settings a) = daily) then 24 else 168 in
  let intervalMs := intervalHours * 60 * 60 * 1000 in
  js_gt (option_map (λ l, now - l) last) (Some intervalMs).

(** Does one run of the effect's [checkBackup] (at install time or on a
    tick of the one-minute timer) call [backupUserData]? *)
Definition autoBackup_calls_backup (now : Z) (a : AppState) : bool :=
  autoBackup_armed a && autoBackup_due now a.

(** One run of [checkBackup]; a failure of the backup is logged only. *)
Definition autoBackup_tick (now : Z) (clientTime : string) (reply : UpsertReply)
    (w : World) : World :=
  if autoBackup_calls_backup now (app w)
  then (backupUserData clientTime reply w).2
  else w.

(** [createWallet(name, currency)] of the context *)
Definition createWallet (name currency : string)
    (walletReply : InsertWalletReply) (memberReply : InsertMemberReply)
    (rollbackReply : DeleteReply) (w : World) : Outcome unit * World :=
  match user (syncState (app w)) with
  | None => (Returned tt, w)
  | Some u =>
      let r := cloudDrive_createWallet (navigator_onLine w) walletReply memberReply
                 rollbackReply (u_id u) name currency (cloud w) in
      match outcome_of r with
      | Returned wl =>
          (Returned tt,
           on_app (setWallets (λ prev, prev ++ [wl])) (with_cloud (cloud_of r) w))
      | Threw e => (Threw e, with_cloud (cloud_of r) w)
      end
  end.

(** [refreshWallets()]; [list] is the answer of [cloudDrive.getMyWallets]. *)
Definition refreshWallets (list : list Wallet) (w : World) : World :=
  match user (syncState (app w)) with
  | None => w
  | Some _ => on_app (setWallets (λ _, list)) w
  end.

(** The branch of [switchWallet] taken for [null] (and for the empty
    string): read three keys of the local store. *)
Definition switch_to_personal (w : World) : World :=
  let s := localStorage w in
  on_app (λ a,
    setCategories (λ _, storage_get (CATEGORIES s) INITIAL_CATEGORIES)
      (setAccounts (λ _, storage_get (ACCOUNTS s) INITIAL_ACCOUNTS)
         (setTransactions (λ _, storage_get (TRANSACTIONS s) []) a))) w.

(** [switchWallet(id)] *)
Definition switchWallet (id : option string) (reply : SelectReply)
    (w : World) : World :=
  let w1 := on_app (setSyncState (with_activeWalletId id)) w in
  match id with
  | Some i =>
      if truthy_string (Some i) then
        let r := cloudDrive_getWalletData (navigator_onLine w) reply i (cloud w) in
        match outcome_of r with
        | Returned (Some wData) =>
            on_app (λ a,
              setBudgetState (default 0 (d_budget wData))
                (setCategories (λ _, default [] (d_categories wData))
                   (setAccounts (λ _, default [] (d_accounts wData))
                      (setTransactions (λ _, default [] (d_transactions wData)) a))))
              w1
        | _ => w1
        end
      else switch_to_personal w1
  | None => switch_to_personal w1
  end.

(** [deleteWallet(id)] of the context *)
Definition deleteWallet (id : string)
    (membersReply dataReply walletReply : DeleteReply) (w : World)
    : Outcome unit * World :=
  let r := cloudDrive_deleteWallet (navigator_onLine w) membersReply dataReply
             walletReply id (cloud w) in
  match outcome_of r with
  | Threw e => (Threw e, with_cloud (cloud_of r) w)
  | Returned _ =>
      let w1 := on_app (setWallets (filter (λ x, w_id x ≠ id)))
                  (with_cloud (cloud_of r) w) in
      (Returned tt,
       if bool_decide (activeWalletId (syncState (app w)) = Some id)
       then switchWallet None Served w1
       else w1)
  end.

(** [refreshAIInsights(force, txsOverride)] *)
Definition refreshAIInsights (force : bool) (txsOverride : option (list Transaction))
    (reply : AiReply) (w : World) : World :=
  let a := app w in
  if negb (showAIInsightsOnDashboard (settings a)) then w
  else if negb force && truthy_string (aiInsight a) then w
  else
    let txsToAnalyze := default (transactions a) txsOverride in
    let insight : AppState → AppState :=
      match txsToAnalyze with
      | [] => setAiInsight (Some "Start adding transactions to get AI insights.")
      | _ :: _ =>
          match reply with
          | AiText text => setAiInsight (Some (or_string text "No insights available."))
          | AiQuotaError =>
              if force || negb (truthy_string (aiInsight a))
              then setAiInsight (Some "Daily AI limit reached. Try again later.")
              else λ x, x
          | AiOtherError => λ x, x
          end
      end in
    on_app (λ x, setIsAIAnalysing false (insight x)) w.

(** *** The operations of a mounted provider

    The operations the context exposes and the handlers it registers,
    each with the answers of the outside world it consumes. *)
Inductive Op :=
  | OpAddTransaction (tData : Transaction) (uuid : string)
  | OpUpdateTransaction (d : Transaction)
  | OpDeleteTransaction (id : string)
  | OpImportTransactions (txs : list Transaction) (now : Z)
  | OpAddAccount (a : Account) (now : Z)
  | OpUpdateAccountName (id name : string)
  | OpDeleteAccount (id : string)
  | OpAddCategory (c : Category) (now : Z)
  | OpUpdateCategory (c : Category)
  | OpDeleteCategory (id : string)
  | OpUpdateBudget (amount : Z)
  | OpUpdateCategoryBudget (catId : string) (amount : Z)
  | OpUpdateSettings (s : PartialSettings)
  | OpResetPreferences
  | OpInstallLanguage (code : string) (dict : gmap string string)
  | OpUninstallLanguage (code : string)
  | OpInstallCurrency (code : string)
  | OpUninstallCurrency (code : string)
    (* login, signup, resetPassword, updatePassword: calls to the
       authentication provider that may throw and touch no state *)
  | OpAuthCall (failure : option string)
  | OpLogout
  | OpUpdateUserProfilePhoto (url : string)
  | OpBackupUserData (clientTime : string) (reply : UpsertReply)
  | OpRestoreBackup (strategy : Strategy) (reply : SelectReply)
  | OpCreateWallet (name currency : string) (walletReply : InsertWalletReply)
      (memberReply : InsertMemberReply) (rollbackReply : DeleteReply)
  | OpSwitchWallet (id : option string) (reply : SelectReply)
  | OpRefreshWallets (list : list Wallet)
  | OpDeleteWallet (id : string) (membersReply dataReply walletReply : DeleteReply)
  | OpRefreshAIInsights (force : bool) (txsOverride : option (list Transaction))
      (reply : AiReply)
  | OpShowNotification (message : string) (type : NotificationType) (now : Z)
  | OpSetIsActionSheetOpen (v : bool)
    (* handlers and timers *)
  | EvNotificationTimeout
  | EvOnline
  | EvOffline
  | EvSession (session : option UserProfile) (reply : SelectReply)
  | EvAuthStateChange (event : AuthEvent) (session : option UserProfile)
      (reply : SelectReply)
  | EvAutoBackupTick (now : Z) (clientTime : string) (reply : UpsertReply).

Definition run (op : Op) (w : World) : Outcome unit * World :=
  match op with
  | OpAddTransaction tData uuid => (Returned tt, addTransaction tData uuid w)
  | OpUpdateTransaction d => (Returned tt, updateTransaction d w)
  | OpDeleteTransaction id => (Returned tt, (deleteTransaction id w).2)
  | OpImportTransactions txs now => (Returned tt, importTransactions txs now w)
  | OpAddAccount a now => (Returned tt, addAccount a now w)
  | OpUpdateAccountName id name => (Returned tt, updateAccountName id name w)
  | OpDeleteAccount id => (Returned tt, deleteAccount id w)
  | OpAddCategory c now => (Returned tt, addCategory c now w)
  | OpUpdateCategory c => (Returned tt, updateCategory c w)
  | OpDeleteCategory id => (Returned tt, deleteCategory id w)
  | OpUpdateBudget amount => (Returned tt, updateBudget amount w)
  | OpUpdateCategoryBudget catId amount =>
      (Returned tt, updateCategoryBudget catId amount w)
  | OpUpdateSettings s => (Returned tt, updateSettings s w)
  | OpResetPreferences => (Returned tt, resetPreferences w)
  | OpInstallLanguage code dict => (Returned tt, installLanguage code dict w)
  | OpUninstallLanguage code => (Returned tt, uninstallLanguage code w)
  | OpInstallCurrency code => (Returned tt, installCurrency code w)
  | OpUninstallCurrency code => (Returned tt, uninstallCurrency code w)
  | OpAuthCall failure =>
      (match failure with Some m => Threw (ErrMsg m) | None => Returned tt end, w)
  | OpLogout => (Returned tt, logout w)
  | OpUpdateUserProfilePhoto url => (Returned tt, updateUserProfilePhoto url w)
  | OpBackupUserData clientTime reply => backupUserData clientTime reply w
  | OpRestoreBackup strategy reply =>
      let r := restoreBackup strategy reply w in
      (match r.1 with Returned _ => Returned tt | Threw e => Threw e end, r.2)
  | OpCreateWallet name currency r1 r2 r3 => createWallet name currency r1 r2 r3 w
  | OpSwitchWallet id reply => (Returned tt, switchWallet id reply w)
  | OpRefreshWallets list => (Returned tt, refreshWallets list w)
  | OpDeleteWallet id r1 r2 r3 => deleteWallet id r1 r2 r3 w
  | OpRefreshAIInsights force txs reply =>
      (Returned tt, refreshAIInsights force txs reply w)
  | OpShowNotification message type now =>
      (Returned tt, showNotification message type now w)
  | OpSetIsActionSheetOpen v => (Returned tt, on_app (setIsActionSheetOpen v) w)
  | EvNotificationTimeout => (Returned tt, notificationTimeout w)
  | EvOnline => (Returned tt, handleOnline w)
  | EvOffline => (Returned tt, handleOffline w)
  | EvSession session reply => (Returned tt, onSession session reply w)
  | EvAuthStateChange event session reply =>
      (Returned tt, onAuthStateChange event session reply w)
  | EvAutoBackupTick now clientTime reply =>
      (Returned tt, autoBackup_tick now clientTime reply w)
  end.

(** An operation followed by the render and the effects it causes. *)
Definition step (op : Op) (w : World) : World := commit (run op w).2.

Definition steps (ops : list Op) (w : World) : World :=
  fold_left (λ acc op, step op acc) ops w.

(** Everything that can happen to the application in its browser tab: an
    operation or a handler of the mounted provider, or a load of the page,
    which mounts a new provider. The page is loaded when the user opens or
    reloads it, by the Account page one second after a password recovery
    ([handleChangePassword]), and by the button of the error boundary,
    which clears the local store first. *)
Inductive Event :=
  | Mounted (op : Op)
  | PageLoad
  | ClearDataAndReload.

Definition occur (e : Event) (w : World) : World :=
  match e with
  | Mounted op => step op w
  | PageLoad => pageLoad w
  | ClearDataAndReload => mount localStorage_clear (navigator_onLine w) (cloud w)
  end.

(** The edits that the specification calls local mutations. *)
Definition is_local_mutation (op : Op) : bool :=
  match op with
  | OpAddTransaction _ _ | OpUpdateTransaction _ | OpDeleteTransaction _
  | OpImportTransactions _ _
  | OpAddAccount _ _ | OpUpdateAccountName _ _ | OpDeleteAccount _
  | OpAddCategory _ _ | OpUpdateCategory _ | OpDeleteCategory _
  | OpUpdateBudget _ | OpUpdateCategoryBudget _ _ | OpUpdateSettings _ => true
  | _ => false
  end.

(** The call is a backup of a signed-in user that the service completed:
    asked for through the context, or started by the auto-backup timer. *)
Definition backup_succeeded (op : Op) (w : World) : Prop :=
  ∃ clientTime reply u,
    (op = OpBackupUserData clientTime reply
     ∨ ∃ now, op = EvAutoBackupTick now clientTime reply
              ∧ autoBackup_calls_backup now (app w) = true)
    ∧ user (syncState (app w)) = Some u
    ∧ (backupUserData clientTime reply w).1 = Returned tt.

(** The call is a restore by 'replace' or 'merge' that returned [true]. *)
Definition restore_succeeded (op : Op) (w : World) : Prop :=
  ∃ strategy reply,
    op = OpRestoreBackup strategy reply
    ∧ strategy ≠ Skip
    ∧ (restoreBackup strategy reply w).1 = Returned true.


(** *** Sample data for the worked examples *)

Definition sample_tx (id : string) (amount : Z) : Transaction :=
  mkTransaction id expense (whole amount) "2024-01-01T10:00:00.000Z" "groceries"
    (Some "acc_cash") None None None None None None None None None.

Definition sample_account : Account := mkAccount "acc_cash" cash "Cash".

Definition sample_category : Category :=
  mkCategory "cat_food" "Food" cat_expense ["Groceries"].

Definition sample_settings : AppSettings :=
  mkSettings "USD" ["USD"] [] light medium "en" [] ∅ month rv_monthly ev_monthly
    true true [] true true true false true bar 0 daily false.

Definition sample_user : UserProfile :=
  mkUserProfile "u1" (Some "user@example.com") "User" None None
    "2024-01-01T00:00:00.000Z" None true.

Definition sample_sync (u : option UserProfile) (last : option string)
    (dirty : bool) : SyncState :=
  mkSyncState (bool_decide (u ≠ None)) u last None false true 0 false dirty None None.

Definition sample_app (txs : list Transaction) (b : Z) (u : option UserProfile)
    (last : option string) (dirty : bool) : AppState :=
  mkApp txs [sample_account] [sample_category] sample_settings b [] []
    (sample_sync u last dirty) None false None false dirty.

Definition empty_cloud : Cloud := mkCloud ∅ ∅ [] ∅.

(** A world at rest: the local store mirrors the state. *)
Definition sample_world (a : AppState) (c : Cloud) : World :=
  commit (mkWorld a localStorage_clear true ∅ c).

(** A stand-in for the size of the serialised payload in the examples:
    two bytes of brackets and 180 bytes per transaction. *)
Definition sample_bytes (d : BackupData) : Z :=
  2 + 180 * Z.of_nat (length (default [] (d_transactions d))).

(** Readings of [Date] for the few strings the examples use. *)
Definition sample_clock (s : string) : option Z :=
  if bool_decide (s = "1970-01-01T00:00:00.000Z") then Some 0
  else if bool_decide (s = "2024-01-01T00:00:00.000Z") then Some 1704067200000
  else if bool_decide (s = "2024-01-02T00:00:00.000Z") then Some 1704153600000
  else None.

(** *** Notions used in the statements *)

(** The local field [result] is the remote value exactly when the remote
    field is there and truthy, and the former local value otherwise. *)
Definition overwritten_iff_truthy {A} (truthy : bool) (remote : option A)
    (local result : A) : Prop :=
  (truthy = true → remote = Some result) ∧ (truthy = false → result = local).

(** The row that a backup writes. *)
Definition backup_row (clientTime : string) (appData : BackupData)
    (updated_at : option string) : BackupRow :=
  mkBackupRow (Some appData)
    (Some (mkMetadata "smart-budget-tracker" "1.0" clientTime
             (match d_transactions appData with
              | Some txs => Z.of_nat (length txs)
              | None => 0
              end)))
    updated_at.

(** Every amount of the list is a number that JSON carries unchanged. *)
Definition amounts_survive_JSON (txs : list Transaction) : Prop :=
  Forall (λ t, JSON_safe (t_amount t) = true) txs.

(** Each field of the snapshot that is truthy is the value of the state. *)
Definition agrees_where_truthy (S : BackupData) (a : AppState) : Prop :=
  (truthy_object (d_transactions S) = true → d_transactions S = Some (transactions a))
  ∧ (truthy_object (d_accounts S) = true → d_accounts S = Some (accounts a))
  ∧ (truthy_object (d_categories S) = true → d_categories S = Some (categories a))
  ∧ (truthy_object (d_settings S) = true → d_settings S = Some (settings a))
  ∧ (truthy_number (d_budget S) = true → d_budget S = Some (budget a))
  ∧ (truthy_object (d_categoryBudgets S) = true
     → d_categoryBudgets S = Some (categoryBudgets a)).

(** The time the check gives to the local marker: 0 when the key is
    missing or empty. *)
Definition local_time (w : World) : option Z :=
  match LAST_SYNC (localStorage w) with
  | Some l => if truthy_string (Some l) then Date_getTime l else Some 0
  | None => Some 0
  end.

(** The fetched record carries a timestamp that reads strictly later
    than the local marker. *)
Definition remote_is_newer (w : World) (fetched : Outcome (option Backup)) : bool :=
  match fetched with
  | Returned (Some backup) =>
      truthy_string (metadata_timestamp backup)
      && js_gt (from_option Date_getTime None (metadata_timestamp backup))
               (local_time w)
  | _ => false
  end.

Definition shared_wallet_blob : BackupData :=
  mkBackupData (Some [sample_tx "shared-1" 7]) (Some []) (Some []) None None None.

Definition cloud_with_wallet : Cloud :=
  mkCloud ∅ ∅ [] {[ "w1" := shared_wallet_blob ]}.

(** The personal state of the example: one transaction and a budget of
    500, mirrored in the local store. *)
Definition personal_world : World :=
  sample_world (sample_app [sample_tx "mine-1" 25] 500 (Some sample_user) None false)
    cloud_with_wallet.

(** ** Properties *)

(** *** What the service calls do to the store *)

Lemma restoreBackup_cloud_unchanged online reply userId c :
  cloud_of (cloudDrive_restoreBackup online reply userId c) = c.
Proof.
  unfold cloudDrive_restoreBackup, cloud_of, bind, send, look, ret.
  destruct online, reply; simpl; try reflexivity.
  destruct (backups c !! userId) as [r|]; simpl; [|reflexivity].
  destruct (row_data r); reflexivity.
Qed.

Lemma restoreBackup_never_throws online reply userId c e :
  outcome_of (cloudDrive_restoreBackup online reply userId c) ≠ Threw e.
Proof.
  unfold cloudDrive_restoreBackup, outcome_of, bind, send, look, ret.
  destruct online, reply; simpl; try discriminate.
  destruct (backups c !! userId) as [r|]; simpl; [|discriminate].
  destruct (row_data r); discriminate.
Qed.

(** A served select of a row with a blob hands back what JSON carries of
    that blob and the [updated_at] column as the timestamp. *)
Lemma restoreBackup_served userId c r d :
  backups c !! userId = Some r →
  row_data r = Some d →
  outcome_of (cloudDrive_restoreBackup true Served userId c)
  = Returned (Some (mkBackup (JSON_roundtrip d) (row_metadata r) (row_updated_at r))).
Proof.
  intros Hrow Hd.
  unfold cloudDrive_restoreBackup, outcome_of, bind, send, look, ret; simpl.
  rewrite Hrow; simpl. rewrite Hd. reflexivity.
Qed.

(** Whatever [cloudDrive.restoreBackup] hands back is in the table. *)
Lemma restoreBackup_found online reply userId c b :
  outcome_of (cloudDrive_restoreBackup online reply userId c) = Returned (Some b) →
  online = true ∧ reply = Served
  ∧ ∃ r d, backups c !! userId = Some r
           ∧ row_data r = Some d
           ∧ data b = JSON_roundtrip d
           ∧ metadata_timestamp b = row_updated_at r.
Proof.
  unfold cloudDrive_restoreBackup, outcome_of, bind, send, look, ret.
  destruct online, reply; simpl; try discriminate.
  destruct (backups c !! userId) as [r|] eqn:Hrow; simpl; [|discriminate].
  destruct (row_data r) as [d|] eqn:Hd; [|discriminate].
  intros [= <-]. split; [reflexivity|]. split; [reflexivity|].
  exists r, d. repeat split; assumption.
Qed.

(** *** The 'replace' strategy, field by field *)

Lemma replace_fields_transactions r a :
  transactions (replace_fields r a) = default (transactions a) (d_transactions r).
Proof.
  unfold replace_fields.
  destruct (d_transactions r), (d_accounts r), (d_categories r), (d_settings r),
    (d_budget r) as [b|], (d_categoryBudgets r);
    simpl; try destruct (Z.eqb b 0); reflexivity.
Qed.

Lemma replace_fields_accounts r a :
  accounts (replace_fields r a) = default (accounts a) (d_accounts r).
Proof.
  unfold replace_fields.
  destruct (d_transactions r), (d_accounts r), (d_categories r), (d_settings r),
    (d_budget r) as [b|], (d_categoryBudgets r);
    simpl; try destruct (Z.eqb b 0); reflexivity.
Qed.

Lemma replace_fields_categories r a :
  categories (replace_fields r a) = default (categories a) (d_categories r).
Proof.
  unfold replace_fields.
  destruct (d_transactions r), (d_accounts r), (d_categories r), (d_settings r),
    (d_budget r) as [b|], (d_categoryBudgets r);
    simpl; try destruct (Z.eqb b 0); reflexivity.
Qed.

Lemma replace_fields_settings r a :
  settings (replace_fields r a) = default (settings a) (d_settings r).
Proof.
  unfold replace_fields.
  destruct (d_transactions r), (d_accounts r), (d_categories r), (d_settings r),
    (d_budget r) as [b|], (d_categoryBudgets r);
    simpl; try destruct (Z.eqb b 0); reflexivity.
Qed.

Lemma replace_fields_budget r a :
  budget (replace_fields r a)
  = if truthy_number (d_budget r) then default (budget a) (d_budget r) else budget a.
Proof.
  unfold replace_fields.
  destruct (d_transactions r), (d_accounts r), (d_categories r), (d_settings r),
    (d_budget r) as [b|], (d_categoryBudgets r);
    simpl; try destruct (Z.eqb b 0); reflexivity.
Qed.

Lemma replace_fields_categoryBudgets r a :
  categoryBudgets (replace_fields r a)
  = default (categoryBudgets a) (d_categoryBudgets r).
Proof.
  unfold replace_fields.
  destruct (d_transactions r), (d_accounts r), (d_categories r), (d_settings r),
    (d_budget r) as [b|], (d_categoryBudgets r);
    simpl; try destruct (Z.eqb b 0); reflexivity.
Qed.

(** A successful 'replace' is [replace_fields] on the six fields. *)
Lemma restore_replace_app reply w u b :
  user (syncState (app w)) = Some u →
  outcome_of (cloudDrive_restoreBackup (navigator_onLine w) reply (u_id u) (cloud w))
  = Returned (Some b) →
  restoreBackup Replace reply w
  = (Returned true,
     on_app (λ a, setSyncState
                    (λ prev, with_unsyncedChanges false
                               (with_pendingRestoreAvailable false
                                  (with_lastSync (metadata_timestamp b) prev)))
                    (replace_fields (data b) a)) w).
Proof.
  intros Hu Hb. unfold restoreBackup, restoreBackup_from. rewrite Hu, Hb. reflexivity.
Qed.

(** C2. A restore by 'replace' that finds a remote record overwrites each
    of the six snapshot fields with the remote value if and only if that
    remote field is present and truthy, each field on its own; in
    particular a record without [accounts] leaves the local accounts as
    they were. *)
Theorem restore_replace_fieldwise (reply : SelectReply) (w : World)
    (u : UserProfile) (b : Backup) :
  user (syncState (app w)) = Some u →
  outcome_of (cloudDrive_restoreBackup (navigator_onLine w) reply (u_id u) (cloud w))
  = Returned (Some b) →
  let a := app w in
  let a' := app (restoreBackup Replace reply w).2 in
  let r := data b in
  (restoreBackup Replace reply w).1 = Returned true
  ∧ (d_accounts r = None → accounts a' = accounts a)
  ∧ overwritten_iff_truthy (truthy_object (d_transactions r)) (d_transactions r)
      (transactions a) (transactions a')
  ∧ overwritten_iff_truthy (truthy_object (d_accounts r)) (d_accounts r)
      (accounts a) (accounts a')
  ∧ overwritten_iff_truthy (truthy_object (d_categories r)) (d_categories r)
      (categories a) (categories a')
  ∧ overwritten_iff_truthy (truthy_object (d_settings r)) (d_settings r)
      (settings a) (settings a')
  ∧ overwritten_iff_truthy (truthy_number (d_budget r)) (d_budget r)
      (budget a) (budget a')
  ∧ overwritten_iff_truthy (truthy_object (d_categoryBudgets r)) (d_categoryBudgets r)
      (categoryBudgets a) (categoryBudgets a').
Proof.
  intros Hu Hb a a' r. subst a a' r.
  rewrite (restore_replace_app _ _ _ _ Hu Hb). cbn [fst snd app on_app].
  split; [reflexivity|].
  unfold overwritten_iff_truthy.
  repeat split.
  - intros Hnone. cbn [accounts setSyncState].
    rewrite replace_fields_accounts, Hnone. reflexivity.
  - cbn [transactions setSyncState]. rewrite replace_fields_transactions.
    destruct (d_transactions (data b)); [reflexivity|discriminate].
  - cbn [transactions setSyncState]. rewrite replace_fields_transactions.
    destruct (d_transactions (data b)); [discriminate|reflexivity].
  - cbn [accounts setSyncState]. rewrite replace_fields_accounts.
    destruct (d_accounts (data b)); [reflexivity|discriminate].
  - cbn [accounts setSyncState]. rewrite replace_fields_accounts.
    destruct (d_accounts (data b)); [discriminate|reflexivity].
  - cbn [categories setSyncState]. rewrite replace_fields_categories.
    destruct (d_categories (data b)); [reflexivity|discriminate].
  - cbn [categories setSyncState]. rewrite replace_fields_categories.
    destruct (d_categories (data b)); [discriminate|reflexivity].
  - cbn [settings setSyncState]. rewrite replace_fields_settings.
    destruct (d_settings (data b)); [reflexivity|discriminate].
  - cbn [settings setSyncState]. rewrite replace_fields_settings.
    destruct (d_settings (data b)); [discriminate|reflexivity].
  - cbn [budget setSyncState]. rewrite replace_fields_budget.
    intros Ht. rewrite Ht. destruct (d_budget (data b)); [reflexivity|discriminate].
  - cbn [budget setSyncState]. rewrite replace_fields_budget.
    intros Ht. rewrite Ht. reflexivity.
  - cbn [categoryBudgets setSyncState]. rewrite replace_fields_categoryBudgets.
    destruct (d_categoryBudgets (data b)); [reflexivity|discriminate].
  - cbn [categoryBudgets setSyncState]. rewrite replace_fields_categoryBudgets.
    destruct (d_categoryBudgets (data b)); [discriminate|reflexivity].
Qed.

(** *** Backup *)

(** A backup call returns only when the device is on line, the payload
    is within the ceiling and the store accepted the upsert; the row is
    then in the table and the result carries the timestamp. *)
Lemma cloud_backup_returned online clientTime reply userId appData c res :
  outcome_of (cloudDrive_backupUserData payload_bytes online clientTime reply
                userId appData c) = Returned res →
  online = true
  ∧ payload_bytes appData ≤ MAX_PAYLOAD_SIZE_BYTES
  ∧ ∃ updated_at,
      reply = UpsertOk updated_at
      ∧ res = mkBackupResult (or_string updated_at clientTime) false
      ∧ cloud_of (cloudDrive_backupUserData payload_bytes online clientTime reply
                    userId appData c)
        = set_backups (insert userId (backup_row clientTime appData updated_at)) c.
Proof.
  unfold cloudDrive_backupUserData, outcome_of, cloud_of, bind, send, store, ret, throw.
  destruct online; simpl; [|discriminate].
  destruct (Z.gtb_spec (payload_bytes appData) MAX_PAYLOAD_SIZE_BYTES) as [Hgt|Hle];
    simpl; [discriminate|].
  destruct reply as [updated_at|e|[|]]; simpl; try discriminate.
  intros [= <-]. repeat split; eauto.
Qed.

(** What the context does after a backup of a signed-in user returned. *)
Lemma backupUserData_returned clientTime reply w u :
  user (syncState (app w)) = Some u →
  (backupUserData clientTime reply w).1 = Returned tt →
  ∃ updated_at,
    reply = UpsertOk updated_at
    ∧ navigator_onLine w = true
    ∧ (backupUserData clientTime reply w).2
      = on_app (λ a,
          setIsDirty false
            (setSyncState
               (λ prev, with_unsyncedChanges false
                          (with_lastSync (Some (or_string updated_at clientTime)) prev))
               a))
          (with_cloud
             (set_backups
                (insert (u_id u)
                   (backup_row clientTime (snapshot (app w)) updated_at))
                (cloud w)) w).
Proof.
  intros Hu. unfold backupUserData. rewrite Hu.
  destruct (outcome_of (cloudDrive_backupUserData payload_bytes (navigator_onLine w)
              clientTime reply (u_id u) (snapshot (app w)) (cloud w)))
    as [res|e] eqn:Hres; [|discriminate].
  intros _.
  destruct (cloud_backup_returned _ _ _ _ _ _ _ Hres)
    as (Hon & _ & updated_at & -> & -> & Hcloud).
  exists updated_at. split; [reflexivity|]. split; [exact Hon|].
  cbn [snd]. rewrite Hcloud. reflexivity.
Qed.

(** *** What JSON carries *)

Lemma JSON_number_safe x : JSON_safe x = true → JSON_number x = x.
Proof.
  destruct x as [f|]; [|reflexivity]. unfold JSON_safe, JSON_number.
  destruct (classify f); first [discriminate | reflexivity].
Qed.

(** The condition is exact: any other amount comes back changed. *)
Lemma JSON_number_changed x : JSON_safe x = false → JSON_number x ≠ x.
Proof.
  destruct x as [f|]; [|discriminate]. unfold JSON_safe, JSON_number.
  destruct (classify f) eqn:Hf; try discriminate. intros _ [= <-].
  vm_compute in Hf. discriminate Hf.
Qed.

Lemma JSON_number_idemp x : JSON_number (JSON_number x) = JSON_number x.
Proof.
  destruct x as [f|]; [|reflexivity]. unfold JSON_number at 2.
  destruct (classify f) eqn:Hf; try reflexivity;
    unfold JSON_number; rewrite Hf; reflexivity.
Qed.

Lemma JSON_transaction_safe t :
  JSON_safe (t_amount t) = true → JSON_transaction t = t.
Proof.
  intros H. destruct t. unfold JSON_transaction. cbn in *.
  rewrite (JSON_number_safe _ H). reflexivity.
Qed.

Lemma JSON_transactions_safe txs :
  amounts_survive_JSON txs → JSON_transaction <$> txs = txs.
Proof.
  induction 1 as [|t txs Ht _ IH]; [reflexivity|].
  rewrite fmap_cons, IH, (JSON_transaction_safe _ Ht). reflexivity.
Qed.

Lemma JSON_transactions_idemp (txs : list Transaction) :
  JSON_transaction <$> (JSON_transaction <$> txs) = JSON_transaction <$> txs.
Proof.
  induction txs as [|t txs IH]; [reflexivity|].
  rewrite !fmap_cons, IH. f_equal.
  destruct t. unfold JSON_transaction. cbn. rewrite JSON_number_idemp. reflexivity.
Qed.

Lemma JSON_roundtrip_snapshot a :
  amounts_survive_JSON (transactions a) → JSON_roundtrip (snapshot a) = snapshot a.
Proof.
  intros H. unfold JSON_roundtrip, snapshot. cbn.
  rewrite (JSON_transactions_safe _ H). reflexivity.
Qed.

(** *** Backup, then restore by 'replace' *)

(** What a served restore by 'replace' finds after a backup of [w], on
    any device signed in as the same user whose store is the one the
    backup wrote to. *)
Lemma restore_after_backup clientTime upsert w u w2 u2 :
  user (syncState (app w)) = Some u →
  (backupUserData clientTime upsert w).1 = Returned tt →
  user (syncState (app w2)) = Some u2 →
  u_id u2 = u_id u →
  navigator_onLine w2 = true →
  cloud w2 = cloud (backupUserData clientTime upsert w).2 →
  ∃ b, data b = JSON_roundtrip (snapshot (app w))
       ∧ restoreBackup Replace Served w2
         = (Returned true,
            on_app (λ a, setSyncState
                           (λ prev, with_unsyncedChanges false
                                      (with_pendingRestoreAvailable false
                                         (with_lastSync (metadata_timestamp b) prev)))
                           (replace_fields (data b) a)) w2).
Proof.
  intros Hu Hok Hu2 Hid Hon2 Hcloud.
  destruct (backupUserData_returned _ _ _ _ Hu Hok) as (updated_at & -> & Hon & Hw1).
  rewrite Hw1 in Hcloud. cbn [cloud on_app with_cloud] in Hcloud.
  set (S := snapshot (app w)) in *.
  exists (mkBackup (JSON_roundtrip S)
            (row_metadata (backup_row clientTime S updated_at)) updated_at).
  split; [reflexivity|].
  apply (restore_replace_app _ _ u2); [exact Hu2|].
  rewrite Hon2, Hid, Hcloud.
  apply (restoreBackup_served _ _ (backup_row clientTime S updated_at));
    [|reflexivity].
  cbn [backups set_backups]. apply lookup_insert_eq.
Qed.

(** C1, as the code has it. Let a backup of the local snapshot S return,
    and let every amount in S be a number that JSON carries (finite and
    not negative zero). A restore with the 'replace' strategy that is
    served by the store then succeeds and brings back S: on the state the
    backup left, with no local edit in between, all six fields are those
    of S; and on any local state whatever (the same user on another
    device, or after local edits) every field that was truthy in S is
    overwritten with its value in S, a budget of 0 alone leaving the local
    budget as it is. *)
Theorem backup_then_replace_restores (clientTime : string) (upsert : UpsertReply)
    (w : World) (u : UserProfile) :
  user (syncState (app w)) = Some u →
  (backupUserData clientTime upsert w).1 = Returned tt →
  amounts_survive_JSON (transactions (app w)) →
  let S := snapshot (app w) in
  let w1 := (backupUserData clientTime upsert w).2 in
  ((restoreBackup Replace Served w1).1 = Returned true
   ∧ snapshot (app (restoreBackup Replace Served w1).2) = S)
  ∧ ∀ (w2 : World) (u2 : UserProfile),
      user (syncState (app w2)) = Some u2 →
      u_id u2 = u_id u →
      navigator_onLine w2 = true →
      cloud w2 = cloud w1 →
      let r := restoreBackup Replace Served w2 in
      r.1 = Returned true
      ∧ agrees_where_truthy S (app r.2)
      ∧ transactions (app r.2) = transactions (app w)
      ∧ accounts (app r.2) = accounts (app w)
      ∧ categories (app r.2) = categories (app w)
      ∧ settings (app r.2) = settings (app w)
      ∧ categoryBudgets (app r.2) = categoryBudgets (app w)
      ∧ budget (app r.2)
        = (if Z.eqb (budget (app w)) 0 then budget (app w2) else budget (app w)).
Proof.
  intros Hu Hok Hsafe S w1.
  assert (Hall : ∀ (w2 : World) (u2 : UserProfile),
      user (syncState (app w2)) = Some u2 →
      u_id u2 = u_id u →
      navigator_onLine w2 = true →
      cloud w2 = cloud w1 →
      let r := restoreBackup Replace Served w2 in
      r.1 = Returned true
      ∧ agrees_where_truthy S (app r.2)
      ∧ transactions (app r.2) = transactions (app w)
      ∧ accounts (app r.2) = accounts (app w)
      ∧ categories (app r.2) = categories (app w)
      ∧ settings (app r.2) = settings (app w)
      ∧ categoryBudgets (app r.2) = categoryBudgets (app w)
      ∧ budget (app r.2)
        = (if Z.eqb (budget (app w)) 0 then budget (app w2) else budget (app w))).
  { intros w2 u2 Hu2 Hid Hon2 Hcloud r.
    destruct (restore_after_backup _ _ _ _ _ _ Hu Hok Hu2 Hid Hon2 Hcloud)
      as (b & Hdata & Hr).
    rewrite (JSON_roundtrip_snapshot _ Hsafe) in Hdata.
    subst r. rewrite Hr, Hdata. cbn [fst snd app on_app].
    assert (Hb : budget (replace_fields (snapshot (app w)) (app w2))
                 = if Z.eqb (budget (app w)) 0 then budget (app w2) else budget (app w)).
    { rewrite replace_fields_budget. cbn [snapshot d_budget truthy_number default].
      destruct (Z.eqb (budget (app w)) 0); reflexivity. }
    split; [reflexivity|].
    split.
    - unfold agrees_where_truthy. subst S.
      cbn [transactions accounts categories settings budget categoryBudgets
           setSyncState].
      rewrite replace_fields_transactions, replace_fields_accounts,
        replace_fields_categories, replace_fields_settings,
        replace_fields_categoryBudgets, Hb.
      cbn [snapshot d_transactions d_accounts d_categories d_settings d_budget
           d_categoryBudgets default truthy_number].
      repeat split; try reflexivity.
      destruct (Z.eqb (budget (app w)) 0); [discriminate|reflexivity].
    - cbn [transactions accounts categories settings budget categoryBudgets
           setSyncState].
      rewrite replace_fields_transactions, replace_fields_accounts,
        replace_fields_categories, replace_fields_settings,
        replace_fields_categoryBudgets, Hb.
      repeat split. }
  split; [|exact Hall].
  destruct (backupUserData_returned _ _ _ _ Hu Hok) as (updated_at & _ & Hon & Hw1).
  assert (Hu1 : user (syncState (app w1)) = Some u)
    by (subst w1; rewrite Hw1; exact Hu).
  assert (Hon1 : navigator_onLine w1 = true)
    by (subst w1; rewrite Hw1; exact Hon).
  destruct (Hall w1 u Hu1 eq_refl Hon1 eq_refl)
    as (Hret & _ & Ht & Ha & Hc & Hs & Hcb & Hb).
  split; [exact Hret|].
  unfold snapshot at 1. rewrite Ht, Ha, Hc, Hs, Hcb, Hb.
  assert (Hb1 : budget (app w1) = budget (app w))
    by (subst w1; rewrite Hw1; reflexivity).
  rewrite Hb1. subst S. unfold snapshot.
  destruct (Z.eqb (budget (app w)) 0); reflexivity.
Qed.

(** *** The 'merge' strategy *)


(** Every transaction that 'merge' keeps has an id unknown locally. *)
Lemma elem_of_merge_new local remote t :
  t ∈ merge_new local remote ↔ (t_id t ∉ (t_id <$> local)) ∧ t ∈ remote.
Proof.
  unfold merge_new. rewrite list_elem_of_filter, elem_of_list_to_set. reflexivity.
Qed.

(** The new transactions of 'merge' are those of the remote list, in its
    order, whose id no local transaction has. *)
Lemma merge_new_filter local remote :
  merge_new local remote = filter (λ t, t_id t ∉ (t_id <$> local)) remote.
Proof.
  unfold merge_new. apply list_filter_iff. intros t.
  rewrite elem_of_list_to_set. reflexivity.
Qed.


(** A 'merge' that returned [true] found a record with transactions and
    appended those with an unknown id. *)
Lemma restore_merge_returned reply w :
  (restoreBackup Merge reply w).1 = Returned true →
  ∃ u b remoteTxs,
    user (syncState (app w)) = Some u
    ∧ outcome_of (cloudDrive_restoreBackup (navigator_onLine w) reply (u_id u) (cloud w))
      = Returned (Some b)
    ∧ d_transactions (data b) = Some remoteTxs
    ∧ (restoreBackup Merge reply w).2
      = on_app (λ a,
          setSyncState
            (λ prev, with_unsyncedChanges false
                       (with_pendingRestoreAvailable false
                          (with_lastSync (metadata_timestamp b) prev)))
            (setTransactions
               (λ prev, prev ++ merge_new (transactions (app w)) remoteTxs) a)) w.
Proof.
  unfold restoreBackup, restoreBackup_from.
  destruct (user (syncState (app w))) as [u|] eqn:Hu; [|discriminate].
  destruct (outcome_of (cloudDrive_restoreBackup (navigator_onLine w) reply (u_id u)
              (cloud w))) as [[b|]|e] eqn:Hb; try discriminate.
  destruct (d_transactions (data b)) as [remoteTxs|] eqn:Htx; [|discriminate].
  intros _. exists u, b, remoteTxs. repeat split; assumption.
Qed.



(** *** The size ceiling of a backup *)

(** C6. A payload of exactly 6 MiB passes the size check: the upsert is
    sent, and the call returns when the store accepts it. A payload one
    byte larger is refused with the size error before anything is sent,
    and the store is left as it was. *)
Theorem backup_size_ceiling (clientTime : string) (reply : UpsertReply)
    (userId : string) (exact over : BackupData) (c : Cloud) :
  payload_bytes exact = 6 * 1024 * 1024 →
  payload_bytes over = 6 * 1024 * 1024 + 1 →
  let send_exact :=
    cloudDrive_backupUserData payload_bytes true clientTime reply userId exact c in
  let send_over :=
    cloudDrive_backupUserData payload_bytes true clientTime reply userId over c in
  (log_of send_exact = [UpsertBackup userId]
   ∧ ∀ updated_at, reply = UpsertOk updated_at →
       outcome_of send_exact
       = Returned (mkBackupResult (or_string updated_at clientTime) false))
  ∧ (outcome_of send_over = Threw (ErrTooLarge (6 * 1024 * 1024 + 1))
     ∧ log_of send_over = []
     ∧ cloud_of send_over = c).
Proof.
  intros Hexact Hover send_exact send_over. subst send_exact send_over.
  unfold cloudDrive_backupUserData, outcome_of, cloud_of, log_of,
    bind, send, store, ret, throw.
  rewrite Hexact, Hover. cbn [negb].
  change (6 * 1024 * 1024 >? MAX_PAYLOAD_SIZE_BYTES) with false.
  change (6 * 1024 * 1024 + 1 >? MAX_PAYLOAD_SIZE_BYTES) with true.
  cbv iota. split; [|repeat split].
  destruct reply as [updated_at|e|[|]]; simpl; (split; [reflexivity|]);
    intros u' [=]; subst; reflexivity.
Qed.

(** *** The timestamp of a backup *)

(** C4, as the code has it. After a successful backup the local
    [lastSync] is the [updated_at] that the store returned for the row
    when the answer carries a non-empty one, and otherwise the client's
    clock reading taken at the start of the call. *)
Theorem backup_sets_lastSync (clientTime : string) (reply : UpsertReply)
    (w : World) (u : UserProfile) :
  user (syncState (app w)) = Some u →
  (backupUserData clientTime reply w).1 = Returned tt →
  let last := lastSync (syncState (app (backupUserData clientTime reply w).2)) in
  ∃ updated_at,
    reply = UpsertOk updated_at
    ∧ (truthy_string updated_at = true → last = updated_at)
    ∧ (truthy_string updated_at = false → last = Some clientTime).
Proof.
  intros Hu Hok last.
  destruct (backupUserData_returned _ _ _ _ Hu Hok) as (updated_at & -> & _ & Hw1).
  exists updated_at. split; [reflexivity|].
  subst last. rewrite Hw1. cbn.
  destruct updated_at as [s|]; cbn.
  - destruct (bool_decide (s = EmptyString)); cbn; split; congruence.
  - split; congruence.
Qed.

(** *** The check for a newer backup at sign-in *)

(** After a render the key [LAST_SYNC] holds the [lastSync] of the state. *)
Lemma LAST_SYNC_after_render w :
  LAST_SYNC (localStorage (commit w)) = lastSync (syncState (app w)).
Proof. reflexivity. Qed.

Lemma checkCloudBackup_spec reply userId w :
  checkCloudBackup reply userId w
  = if remote_is_newer w
         (outcome_of (cloudDrive_restoreBackup (navigator_onLine w) reply userId
                        (cloud w)))
    then on_app (setSyncState (with_pendingRestoreAvailable true)) w
    else w.
Proof.
  unfold checkCloudBackup, remote_is_newer, local_time.
  destruct (outcome_of _) as [[b|]|e]; try reflexivity.
  destruct (metadata_timestamp b) as [ts|]; [|reflexivity].
  cbn [from_option].
  destruct (truthy_string (Some ts)); [|reflexivity].
  cbn [andb]. reflexivity.
Qed.

(** C5, as the code has it. The check raises [pendingRestoreAvailable]
    exactly when the fetched record carries an [updated_at] that reads
    strictly later than the local marker (a missing or empty marker
    counting as time 0, an unreadable date never as later), and changes
    nothing else; with no local marker it is raised for every stored
    record with a blob whose [updated_at] reads later than the epoch; a
    failed fetch leaves the world as it was. *)
Theorem checkCloudBackup_flag (reply : SelectReply) (userId : string) (w : World) :
  let fetched :=
    outcome_of (cloudDrive_restoreBackup (navigator_onLine w) reply userId (cloud w)) in
  let w' := checkCloudBackup reply userId w in
  (pendingRestoreAvailable (syncState (app w'))
   = pendingRestoreAvailable (syncState (app w)) || remote_is_newer w fetched)
  ∧ (remote_is_newer w fetched = true
     → w' = on_app (setSyncState (with_pendingRestoreAvailable true)) w)
  ∧ (remote_is_newer w fetched = false → w' = w)
  ∧ (∀ r d ts t,
       LAST_SYNC (localStorage w) = None →
       navigator_onLine w = true → reply = Served →
       backups (cloud w) !! userId = Some r →
       row_data r = Some d →
       row_updated_at r = Some ts → ts ≠ EmptyString →
       Date_getTime ts = Some t → 0 < t →
       pendingRestoreAvailable (syncState (app w')) = true)
  ∧ (reply = SelectFailed → w' = w).
Proof.
  intros fetched w'. subst w'. rewrite checkCloudBackup_spec. fold fetched.
  split; [|split; [|split; [|split]]].
  - destruct (remote_is_newer w fetched); cbn.
    + rewrite orb_true_r. reflexivity.
    + rewrite orb_false_r. reflexivity.
  - intros ->. reflexivity.
  - intros ->. reflexivity.
  - intros r d ts t Hlocal Hon -> Hrow Hd Hts Hne Ht Hpos.
    subst fetched. rewrite Hon, (restoreBackup_served _ _ _ _ Hrow Hd).
    unfold remote_is_newer, local_time. rewrite Hlocal, Hts.
    cbn [metadata_timestamp truthy_string from_option].
    rewrite bool_decide_eq_false_2 by exact Hne. rewrite Ht. cbn.
    replace (t >? 0) with true by (symmetry; apply Z.gtb_lt; exact Hpos).
    reflexivity.
  - intros ->. subst fetched.
    unfold cloudDrive_restoreBackup, outcome_of, bind, send, ret.
    destruct (navigator_onLine w); reflexivity.
Qed.

(** *** Creating a wallet *)

(** C9, as the code has it. When the wallet row is inserted and the
    insert of the owner's membership fails, [createWallet] sends an
    explicit compensating delete for the wallet row and throws; it does
    not look at the answer to that delete, so the row is gone when the
    store carried the delete out and is still there when it did not.
    No other row is touched. *)
Theorem createWallet_member_failure (memberError : PgError)
    (rollbackReply : DeleteReply) (userId name currency id : string)
    (created_at : option string) (c : Cloud) :
  let r := cloudDrive_createWallet true (WalletInserted id created_at)
             (MemberRejected memberError) rollbackReply userId name currency c in
  outcome_of r
  = Threw (ErrMsg (if is_recursion memberError then recursion_hint
                   else "Failed to assign owner: " +:+ pg_message memberError))
  ∧ log_of r = [InsertWallet; InsertMember id; DeleteWallet id]
  ∧ wallets_table (cloud_of r) !! id
    = (if deleted rollbackReply then None
       else Some (mkWalletRow name currency userId created_at))
  ∧ (∀ j, j ≠ id → wallets_table (cloud_of r) !! j = wallets_table c !! j)
  ∧ wallet_members (cloud_of r) = wallet_members c
  ∧ backups (cloud_of r) = backups c
  ∧ wallet_data (cloud_of r) = wallet_data c.
Proof.
  intros r. subst r.
  unfold cloudDrive_createWallet, outcome_of, cloud_of, log_of,
    bind, send, store, ret, throw.
  cbn [negb].
  destruct rollbackReply as [|e]; cbn [deleted];
    destruct (is_recursion memberError); cbn;
    repeat split;
    try (apply lookup_delete_eq); try (apply lookup_insert_eq);
    intros j Hj;
    try (rewrite lookup_delete_ne by congruence);
    rewrite lookup_insert_ne by congruence; reflexivity.
Qed.

(** *** The auto-backup timer *)

Lemma app_commit w : app (commit w) = app w.
Proof. reflexivity. Qed.

Lemma app_step op w : app (step op w) = app (run op w).2.
Proof. reflexivity. Qed.

(** With no [lastSync] the effect is not armed. *)
Lemma autoBackup_not_armed a :
  lastSync (syncState a) = None → autoBackup_armed a = false.
Proof.
  intros H. unfold autoBackup_armed. rewrite H. cbn.
  rewrite !orb_true_r. reflexivity.
Qed.

(** A restore by 'merge' or 'replace' either returns [true] or leaves
    the world as it was. *)
Lemma restoreBackup_true_or_same strategy reply w :
  strategy ≠ Skip →
  (restoreBackup strategy reply w).1 = Returned true
  ∨ (restoreBackup strategy reply w).2 = w.
Proof.
  intros Hs. unfold restoreBackup, restoreBackup_from.
  destruct strategy; try congruence;
    (destruct (user (syncState (app w))); [|right; reflexivity]);
    (destruct (outcome_of _) as [[b|]|e]; [|right; reflexivity|right; reflexivity]).
  - destruct (d_transactions (data b)); [left|right]; reflexivity.
  - left. reflexivity.
Qed.

(** A backup either returns for a signed-in user or leaves the state of
    the provider as it was. *)
Lemma backupUserData_done_or_same clientTime reply w :
  (∃ u, user (syncState (app w)) = Some u
        ∧ (backupUserData clientTime reply w).1 = Returned tt)
  ∨ app (backupUserData clientTime reply w).2 = app w.
Proof.
  unfold backupUserData.
  destruct (user (syncState (app w))) as [u|] eqn:Hu; [|right; reflexivity].
  destruct (outcome_of _) as [res|e]; [|right; reflexivity].
  left. exists u. split; reflexivity.
Qed.

Lemma checkCloudBackup_lastSync reply userId w :
  lastSync (syncState (app (checkCloudBackup reply userId w)))
  = lastSync (syncState (app w))
  ∧ unsyncedChanges (syncState (app (checkCloudBackup reply userId w)))
    = unsyncedChanges (syncState (app w)).
Proof.
  rewrite checkCloudBackup_spec. destruct (remote_is_newer _ _); split; reflexivity.
Qed.

Lemma switchWallet_sync id reply w :
  lastSync (syncState (app (switchWallet id reply w))) = lastSync (syncState (app w))
  ∧ unsyncedChanges (syncState (app (switchWallet id reply w)))
    = unsyncedChanges (syncState (app w)).
Proof.
  unfold switchWallet.
  destruct id as [i|]; [|split; reflexivity].
  destruct (truthy_string (Some i)); [|split; reflexivity].
  destruct (outcome_of _) as [[d|]|e]; split; reflexivity.
Qed.

(** Apart from a backup, a restore and the factory reset, nothing writes
    [lastSync] or lowers [unsyncedChanges]. *)
Lemma run_keeps_sync_marks op w :
  (∀ clientTime reply, op ≠ OpBackupUserData clientTime reply) →
  (∀ now clientTime reply, op ≠ EvAutoBackupTick now clientTime reply) →
  (∀ strategy reply, op ≠ OpRestoreBackup strategy reply) →
  op ≠ OpResetPreferences →
  lastSync (syncState (app (run op w).2)) = lastSync (syncState (app w))
  ∧ (unsyncedChanges (syncState (app w)) = true
     → unsyncedChanges (syncState (app (run op w).2)) = true).
Proof.
  intros Hb Ht Hr Hreset.
  destruct op; cbn [run snd];
    try (exfalso; eapply Hb; reflexivity);
    try (exfalso; eapply Ht; reflexivity);
    try (exfalso; eapply Hr; reflexivity);
    try (exfalso; apply Hreset; reflexivity);
    try (split; [reflexivity | intros _; reflexivity]);
    try (split; [reflexivity | intros H; exact H]).
  - (* uninstallLanguage *)
    unfold uninstallLanguage. repeat case_bool_decide; split; try reflexivity; auto.
  - (* installCurrency *)
    unfold installCurrency. case_bool_decide; split; try reflexivity; auto.
  - (* uninstallCurrency *)
    unfold uninstallCurrency. case_bool_decide; split; try reflexivity; auto.
  - (* updateUserProfilePhoto *)
    unfold updateUserProfilePhoto, on_app, setSyncState; cbn.
    destruct (user (syncState (app w))); split; try reflexivity; auto.
  - (* createWallet *)
    unfold createWallet. destruct (user (syncState (app w))); [|split; auto].
    destruct (outcome_of _); split; try reflexivity; auto.
  - (* switchWallet *)
    destruct (switchWallet_sync id reply w) as [-> ->]. split; auto.
  - (* refreshWallets *)
    unfold refreshWallets. destruct (user (syncState (app w))); split; auto.
  - (* deleteWallet *)
    unfold deleteWallet. destruct (outcome_of _); cbn [snd]; [|split; auto].
    case_bool_decide; [|split; auto].
    match goal with |- context [switchWallet None Served ?x] =>
      destruct (switchWallet_sync None Served x) as [-> ->] end.
    split; auto.
  - (* refreshAIInsights *)
    unfold refreshAIInsights.
    destruct (negb (showAIInsightsOnDashboard _)); [split; auto|].
    destruct (negb force && _); [split; auto|].
    destruct (default (transactions (app w)) txsOverride); [split; auto|].
    destruct reply as [text| |]; [split; auto| |split; auto].
    destruct (force || _); split; auto.
  - (* the getSession effect *)
    unfold onSession. destruct session as [p|]; [|split; auto].
    match goal with |- context [checkCloudBackup ?r ?i ?x] =>
      destruct (checkCloudBackup_lastSync r i x) as [-> ->] end.
    split; auto.
  - (* onAuthStateChange *)
    unfold onAuthStateChange. destruct session as [p|]; [|split; auto].
    destruct event; try (split; [reflexivity | intros H; exact H]).
    match goal with |- context [checkCloudBackup ?r ?i ?x] =>
      destruct (checkCloudBackup_lastSync r i x) as [-> ->] end.
    split; auto.
Qed.

(** C10. While the local [lastSync] is null the auto-backup timer never
    calls backup: the periodic check is not armed, whatever the sign-in
    state, the connectivity and the configured interval, and a tick
    leaves the world as it is. [lastSync] stops being null only through a
    successful backup asked for through the context or a successful
    restore by 'replace' or 'merge', so an automatic backup can only
    come after one of those. *)
Theorem autoBackup_requires_lastSync (w : World) :
  lastSync (syncState (app w)) = None →
  (∀ now, autoBackup_calls_backup now (app w) = false)
  ∧ (∀ now clientTime reply, autoBackup_tick now clientTime reply w = w)
  ∧ (∀ op, lastSync (syncState (app (step op w))) ≠ None →
       (∃ clientTime reply,
          op = OpBackupUserData clientTime reply ∧ backup_succeeded op w)
       ∨ restore_succeeded op w).
Proof.
  intros Hnull.
  assert (Hoff : ∀ now, autoBackup_calls_backup now (app w) = false).
  { intros now. unfold autoBackup_calls_backup.
    rewrite (autoBackup_not_armed _ Hnull). reflexivity. }
  split; [exact Hoff|]. split.
  { intros now clientTime reply. unfold autoBackup_tick. rewrite Hoff. reflexivity. }
  intros op Hset. rewrite app_step in Hset.
  destruct op; try (exfalso; apply Hset; rewrite <- Hnull;
                    apply run_keeps_sync_marks; intros; discriminate).
  - (* resetPreferences *)
    exfalso. apply Hset. reflexivity.
  - (* backupUserData *)
    cbn [run] in Hset.
    destruct (backupUserData_done_or_same clientTime reply w) as [(u & Hu & Hok)|Hsame].
    + left. exists clientTime, reply. split; [reflexivity|].
      exists clientTime, reply, u. split; [left; reflexivity|]. split; assumption.
    + exfalso. apply Hset. rewrite Hsame. exact Hnull.
  - (* restoreBackup *)
    cbn [run] in Hset.
    destruct (decide (strategy = Skip)) as [->|Hs].
    + exfalso. apply Hset. cbn. exact Hnull.
    + destruct (restoreBackup_true_or_same strategy reply w Hs) as [Hok|Hsame].
      * right. exists strategy, reply. repeat split; assumption.
      * exfalso. apply Hset. cbn [snd]. rewrite Hsame. exact Hnull.
  - (* a tick of the timer *)
    exfalso. apply Hset. cbn [run snd]. unfold autoBackup_tick.
    rewrite Hoff. exact Hnull.
Qed.

(** *** The [unsyncedChanges] flag *)

Lemma backup_succeeded_clears op w :
  backup_succeeded op w →
  unsyncedChanges (syncState (app (step op w))) = false.
Proof.
  intros (clientTime & reply & u & Hop & Hu & Hok).
  destruct (backupUserData_returned _ _ _ _ Hu Hok) as (updated_at & _ & _ & Hw1).
  rewrite app_step.
  destruct Hop as [->|(now & -> & Hdue)]; cbn [run snd].
  - rewrite Hw1. reflexivity.
  - unfold autoBackup_tick. rewrite Hdue, Hw1. reflexivity.
Qed.

Lemma restore_succeeded_clears op w :
  restore_succeeded op w →
  unsyncedChanges (syncState (app (step op w))) = false.
Proof.
  intros (strategy & reply & -> & Hs & Hok).
  rewrite app_step. cbn [run]. revert Hok. unfold restoreBackup, restoreBackup_from.
  destruct strategy; try congruence;
    (destruct (user (syncState (app w))); [|discriminate]);
    (destruct (outcome_of _) as [[b|]|e]; try discriminate).
  - destruct (d_transactions (data b)); [|discriminate]. reflexivity.
  - reflexivity.
Qed.

(** A freshly mounted provider reads [lastSync] and [activeWalletId] back
    from the local store but starts with [unsyncedChanges] false, also when
    [markAsDirty] had written the key [UNSYNCED_CHANGES]. *)
Lemma mount_sync_marks s onLine c :
  let a := app (mount s onLine c) in
  lastSync (syncState a) = LAST_SYNC s
  ∧ activeWalletId (syncState a) = ACTIVE_WALLET_ID s
  ∧ unsyncedChanges (syncState a) = false
  ∧ UNSYNCED_CHANGES (localStorage (mount s onLine c)) = UNSYNCED_CHANGES s.
Proof. repeat split. Qed.

(** X31. While the provider stays mounted: every local mutation raises
    [unsyncedChanges]; among the operations and handlers of the context
    the flag is lowered by a successful backup, by a successful restore
    with 'replace' or 'merge', and by the factory reset
    ([resetPreferences]), which loads the page anew; no other operation
    or handler lowers it. (A load of the page is not among them, and
    lowers it too.) *)
Theorem unsyncedChanges_while_mounted (op : Op) (w : World) :
  let flag x := unsyncedChanges (syncState (app x)) in
  (is_local_mutation op = true → flag (step op w) = true)
  ∧ (flag w = true → flag (step op w) = false →
     backup_succeeded op w ∨ restore_succeeded op w ∨ op = OpResetPreferences)
  ∧ (backup_succeeded op w ∨ restore_succeeded op w ∨ op = OpResetPreferences →
     flag (step op w) = false).
Proof.
  intros flag. subst flag. cbv beta. split; [|split].
  - destruct op; try discriminate; intros _; reflexivity.
  - intros Hdirty Hclean. rewrite app_step in Hclean.
    destruct op;
      try (exfalso;
           match type of Hclean with
           | context [run ?o w] =>
               assert (Hkeep : unsyncedChanges (syncState (app (run o w).2)) = true)
                 by (apply run_keeps_sync_marks;
                     [intros; discriminate .. | discriminate | exact Hdirty])
           end;
           rewrite Hkeep in Hclean; discriminate).
    + right. right. reflexivity.
    + cbn [run] in Hclean.
      destruct (backupUserData_done_or_same clientTime reply w)
        as [(u & Hu & Hok)|Hsame].
      * left. exists clientTime, reply, u. split; [left; reflexivity|].
        split; assumption.
      * exfalso. rewrite Hsame, Hdirty in Hclean. discriminate.
    + cbn [run] in Hclean.
      destruct (decide (strategy = Skip)) as [->|Hs].
      * exfalso. cbn in Hclean. rewrite Hdirty in Hclean. discriminate.
      * destruct (restoreBackup_true_or_same strategy reply w Hs) as [Hok|Hsame].
        -- right. left. exists strategy, reply. repeat split; assumption.
        -- exfalso. cbn [snd] in Hclean. rewrite Hsame, Hdirty in Hclean.
           discriminate.
    + cbn [run snd] in Hclean. unfold autoBackup_tick in Hclean.
      destruct (autoBackup_calls_backup now (app w)) eqn:Hdue.
      * destruct (backupUserData_done_or_same clientTime reply w)
          as [(u & Hu & Hok)|Hsame].
        -- left. exists clientTime, reply, u.
           split; [right; exists now; split; [reflexivity|exact Hdue]|].
           split; assumption.
        -- exfalso. rewrite Hsame, Hdirty in Hclean. discriminate.
      * exfalso. rewrite Hdirty in Hclean. discriminate.
  - intros [Hb|[Hr| ->]].
    + apply backup_succeeded_clears. exact Hb.
    + apply restore_succeeded_clears. exact Hr.
    + reflexivity.
Qed.


(** C7, at the failing input. After any local mutation the flag is up
    and [markAsDirty] has written [true] under the key [UNSYNCED_CHANGES].
    A load of the page, with no backup and no restore, then mounts a
    provider whose flag is down: the initial state has the constant
    [false] and the key is never read, although it is still in the local
    store, and although [lastSync], the active wallet and the data are
    read back from the store. The remote store has not been touched. *)
Theorem unsyncedChanges_lost_on_page_load (op : Op) (w : World) :
  is_local_mutation op = true →
  let edited := occur (Mounted op) w in
  let loaded := occur PageLoad edited in
  unsyncedChanges (syncState (app edited)) = true
  ∧ UNSYNCED_CHANGES (localStorage edited) = Some true
  ∧ unsyncedChanges (syncState (app loaded)) = false
  ∧ UNSYNCED_CHANGES (localStorage loaded) = Some true
  ∧ lastSync (syncState (app loaded)) = lastSync (syncState (app edited))
  ∧ activeWalletId (syncState (app loaded)) = activeWalletId (syncState (app edited))
  ∧ transactions (app loaded) = JSON_transaction <$> transactions (app edited)
  ∧ accounts (app loaded) = accounts (app edited)
  ∧ budget (app loaded) = budget (app edited)
  ∧ cloud loaded = cloud w.
Proof.
  intros Hmut edited loaded. subst edited loaded.
  destruct op; try discriminate Hmut; repeat split.
Qed.

(** *** Switching back to the personal wallet *)

(** [switchWallet(null)] reads three keys of the local store; the budget
    and the category budgets are not among them. *)
Lemma switchWallet_null reply w :
  let w' := switchWallet None reply w in
  transactions (app w') = storage_get (TRANSACTIONS (localStorage w)) []
  ∧ accounts (app w') = storage_get (ACCOUNTS (localStorage w)) INITIAL_ACCOUNTS
  ∧ categories (app w') = storage_get (CATEGORIES (localStorage w)) INITIAL_CATEGORIES
  ∧ budget (app w') = budget (app w)
  ∧ categoryBudgets (app w') = categoryBudgets (app w)
  ∧ activeWalletId (syncState (app w')) = None.
Proof. repeat split. Qed.

(** After a render the local store holds the working set, whatever the
    active wallet: the keys that [switchWallet(null)] reads are
    overwritten by the data of a shared wallet as soon as it is shown. *)
Lemma switchWallet_null_after_render reply w :
  let w' := switchWallet None reply (commit w) in
  transactions (app w') = JSON_transaction <$> transactions (app w)
  ∧ accounts (app w') = accounts (app w)
  ∧ categories (app w') = categories (app w)
  ∧ budget (app w') = budget (app w).
Proof. repeat split. Qed.

(** C8, at a failing input. The personal state has the transaction
    "mine-1" and a budget of 500, both in the local store. Showing the
    shared wallet "w1" and switching back with [switchWallet(null)] does
    not bring them back: the persistence effects have written the
    wallet's working set over the personal keys, and the branch for
    [null] never sets the budget. *)
Theorem switchWallet_null_loses_personal :
  let back := steps [OpSwitchWallet (Some "w1") Served; OpSwitchWallet None Served]
                personal_world in
  (transactions (app personal_world) = [sample_tx "mine-1" 25]
   ∧ budget (app personal_world) = 500
   ∧ TRANSACTIONS (localStorage personal_world) = Some [sample_tx "mine-1" 25]
   ∧ BUDGET (localStorage personal_world) = Some 500)
  ∧ activeWalletId (syncState (app back)) = None
  ∧ transactions (app back) = [sample_tx "shared-1" 7]
  ∧ accounts (app back) = []
  ∧ budget (app back) = 0
  ∧ TRANSACTIONS (localStorage back) = Some [sample_tx "shared-1" 7]
  ∧ BUDGET (localStorage back) = Some 0.
Proof.
  vm_compute. repeat split.
Qed.

(** ** Further properties of the code *)

(** *** Failure and success of a backup *)

(** X1. A backup call that throws has sent no request exactly when the
    device was off line or the payload was over the ceiling, and unless the
    30 s timer fired the remote store is as it was. *)
Theorem cloud_backup_failure (online : bool) (clientTime : string)
    (reply : UpsertReply) (userId : string) (appData : BackupData) (c : Cloud)
    (e : Error) :
  let r := cloudDrive_backupUserData payload_bytes online clientTime reply userId
             appData c in
  outcome_of r = Threw e →
  (log_of r = [] ↔ online = false ∨ MAX_PAYLOAD_SIZE_BYTES < payload_bytes appData)
  ∧ (online = false → e = ErrMsg "Device is offline.")
  ∧ ((∀ written, reply ≠ UpsertTimedOut written) → cloud_of r = c).
Proof.
  intros r. subst r.
  unfold cloudDrive_backupUserData, outcome_of, cloud_of, log_of,
    bind, send, store, ret, throw.
  destruct online; cbn [negb fst snd].
  - destruct (Z.gtb_spec (payload_bytes appData) MAX_PAYLOAD_SIZE_BYTES) as [Hgt|Hle];
      cbn [fst snd].
    + intros [= <-]. split; [|split]; [|discriminate|reflexivity].
      split; [intros _; right; lia|reflexivity].
    + destruct reply as [u|err|[|]]; cbn; intros [=]; subst;
        (split; [split; [discriminate|intros [|]; [discriminate|lia]]|]);
        (split; [discriminate|]); intros Hno; try reflexivity;
        exfalso; eapply Hno; reflexivity.
  - intros [= <-]. split; [|split]; [|reflexivity|reflexivity].
    split; [intros _; left|]; reflexivity.
Qed.

(** X2. A call of the context's [backupUserData] that throws, or that is
    made while signed out, leaves the state of the provider as it was: the
    snapshot, [lastSync] and a raised [unsyncedChanges] all stay. *)
Theorem backupUserData_failure_keeps_state (clientTime : string)
    (reply : UpsertReply) (w : World) :
  (user (syncState (app w)) = None
   → backupUserData clientTime reply w = (Returned tt, w))
  ∧ (∀ e, (backupUserData clientTime reply w).1 = Threw e
          → app (backupUserData clientTime reply w).2 = app w
            ∧ localStorage (backupUserData clientTime reply w).2 = localStorage w).
Proof.
  unfold backupUserData. split.
  - intros ->. reflexivity.
  - intros e. destruct (user (syncState (app w))) as [u|]; [|discriminate].
    destruct (outcome_of _); [discriminate|]. intros _. split; reflexivity.
Qed.

(** X3. A backup call that returns has upserted one row under the user's
    id: it holds the blob sent and the count of its transactions, the rows
    of all other users and the other tables are as before, and the table
    has a row for this user and for exactly the users it had. *)
Theorem cloud_backup_upserts_one_row (online : bool) (clientTime : string)
    (reply : UpsertReply) (userId : string) (appData : BackupData) (c : Cloud)
    (res : BackupResult) :
  let r := cloudDrive_backupUserData payload_bytes online clientTime reply userId
             appData c in
  outcome_of r = Returned res →
  (∃ row, backups (cloud_of r) !! userId = Some row
          ∧ row_data row = Some appData
          ∧ (m_items_count <$> row_metadata row)
            = Some (Z.of_nat (length (default [] (d_transactions appData)))))
  ∧ (∀ other, other ≠ userId → backups (cloud_of r) !! other = backups c !! other)
  ∧ dom (backups (cloud_of r)) = {[userId]} ∪ dom (backups c)
  ∧ wallets_table (cloud_of r) = wallets_table c
  ∧ wallet_members (cloud_of r) = wallet_members c
  ∧ wallet_data (cloud_of r) = wallet_data c
  ∧ log_of r = [UpsertBackup userId].
Proof.
  intros r Hres. subst r.
  destruct (cloud_backup_returned _ _ _ _ _ _ _ Hres) as (-> & _ & u & -> & _ & Hc).
  rewrite Hc. cbn [backups wallets_table wallet_members wallet_data set_backups].
  split; [|split; [|split]].
  - exists (backup_row clientTime appData u). split; [apply lookup_insert_eq|].
    split; [reflexivity|]. cbn. destruct (d_transactions appData); reflexivity.
  - intros other Hne. apply lookup_insert_ne. congruence.
  - apply dom_insert_L.
  - repeat split.
    revert Hres.
    unfold cloudDrive_backupUserData, outcome_of, log_of, bind, send, store, ret, throw.
    cbn [negb]. destruct (_ >? _); [discriminate|]. reflexivity.
Qed.

(** *** Restore *)

(** X4. [cloudDrive.restoreBackup] only reads: it never throws and never
    changes the store; off line it returns [null] without a request; and it
    returns a backup exactly when it is on line, the select is served and
    the user's row has a blob. *)
Theorem cloud_restore_reads_only (online : bool) (reply : SelectReply)
    (userId : string) (c : Cloud) :
  let r := cloudDrive_restoreBackup online reply userId c in
  cloud_of r = c
  ∧ (∃ found, outcome_of r = Returned found)
  ∧ (online = false → outcome_of r = Returned None ∧ log_of r = [])
  ∧ ((∃ b, outcome_of r = Returned (Some b))
     ↔ online = true ∧ reply = Served
       ∧ ∃ row d, backups c !! userId = Some row ∧ row_data row = Some d).
Proof.
  intros r. subst r. split; [apply restoreBackup_cloud_unchanged|].
  split; [|split].
  - destruct (outcome_of (cloudDrive_restoreBackup online reply userId c))
      as [found|e] eqn:Ho; [eauto|].
    exfalso. exact (restoreBackup_never_throws _ _ _ _ _ Ho).
  - intros ->. split; reflexivity.
  - split.
    + intros [b Ho].
      destruct (restoreBackup_found _ _ _ _ _ Ho) as (-> & -> & row & d & Hrow & Hd & _).
      repeat split. eauto.
    + intros (-> & -> & row & d & Hrow & Hd).
      rewrite (restoreBackup_served _ _ _ _ Hrow Hd). eauto.
Qed.

(** X5. [restoreBackup('skip')] returns [true] and does nothing but lower
    [pendingRestoreAvailable], signed in or not, on line or not: no data,
    no [lastSync], no [unsyncedChanges] and nothing remote is touched. *)
Theorem restore_skip_only_dismisses (reply : SelectReply) (w : World) :
  let r := restoreBackup Skip reply w in
  r.1 = Returned true
  ∧ pendingRestoreAvailable (syncState (app r.2)) = false
  ∧ snapshot (app r.2) = snapshot (app w)
  ∧ lastSync (syncState (app r.2)) = lastSync (syncState (app w))
  ∧ unsyncedChanges (syncState (app r.2)) = unsyncedChanges (syncState (app w))
  ∧ cloud r.2 = cloud w
  ∧ localStorage r.2 = localStorage w
  ∧ (pendingRestoreAvailable (syncState (app w)) = false → r.2 = w).
Proof.
  cbn. repeat split. intros H. destruct w as [[? ? ? ? ? ? ? [] ? ? ? ? ?] ? ? ? ?].
  cbn in *. subst. reflexivity.
Qed.

(** X6. A restore by 'replace' or 'merge' returns [false] without any
    change when the user is signed out, the device is off line, the select
    fails or there is no row with a blob; and whenever it does not return
    [true] (a thrown [TypeError] of 'merge' on a blob without transactions
    included) the world is as it was. *)
Theorem restore_failure_keeps_world (strategy : Strategy) (reply : SelectReply)
    (w : World) :
  strategy ≠ Skip →
  let r := restoreBackup strategy reply w in
  (user (syncState (app w)) = None ∨ navigator_onLine w = false
   ∨ reply = SelectFailed
   ∨ (∀ u, user (syncState (app w)) = Some u →
           (backups (cloud w) !! u_id u) ≫= row_data = None)
   → r = (Returned false, w))
  ∧ (r.1 ≠ Returned true → r.2 = w).
Proof.
  intros Hs r. subst r. split.
  - unfold restoreBackup, restoreBackup_from.
    destruct (user (syncState (app w))) as [u|] eqn:Hu;
      [|destruct strategy; try congruence; reflexivity].
    intros Hcase.
    assert (Hnone : outcome_of (cloudDrive_restoreBackup (navigator_onLine w) reply
                                  (u_id u) (cloud w)) = Returned None).
    { unfold cloudDrive_restoreBackup, outcome_of, bind, send, look, ret.
      destruct Hcase as [Hc|[Hc|[Hc|Hc]]].
      - discriminate.
      - rewrite Hc. reflexivity.
      - rewrite Hc. destruct (navigator_onLine w); reflexivity.
      - specialize (Hc u eq_refl).
        destruct (navigator_onLine w), reply; cbn; try reflexivity.
        destruct (backups (cloud w) !! u_id u) as [row|]; cbn in *; [|reflexivity].
        rewrite Hc. reflexivity. }
    rewrite Hnone. destruct strategy; try congruence; reflexivity.
  - intros Hnot.
    destruct (restoreBackup_true_or_same strategy reply w Hs) as [Hok|Hsame];
      [contradiction|exact Hsame].
Qed.

(** X7. A successful restore by 'merge' touches the transactions only: it
    has fetched a record of the user that holds a list of transactions,
    and the local list stays in front, in its order, followed by exactly
    the transactions of that record whose id was unknown locally, in the
    order of the record; accounts, categories, settings, budget, category
    budgets and the wallet list are not merged. *)
Theorem restore_merge_transactions_only (reply : SelectReply) (w : World) :
  (restoreBackup Merge reply w).1 = Returned true →
  let a := app w in
  let a' := app (restoreBackup Merge reply w).2 in
  (∃ u b remoteTxs,
      user (syncState a) = Some u
      ∧ outcome_of (cloudDrive_restoreBackup (navigator_onLine w) reply (u_id u)
                      (cloud w)) = Returned (Some b)
      ∧ d_transactions (data b) = Some remoteTxs
      ∧ transactions a'
        = transactions a
          ++ filter (λ t, t_id t ∉ (t_id <$> transactions a)) remoteTxs)
  ∧ accounts a' = accounts a
  ∧ categories a' = categories a
  ∧ settings a' = settings a
  ∧ budget a' = budget a
  ∧ categoryBudgets a' = categoryBudgets a
  ∧ wallets a' = wallets a.
Proof.
  intros Hok a a'. subst a a'.
  destruct (restore_merge_returned _ _ Hok) as (u & b & remoteTxs & Hu & Hb & Htx & ->).
  split; [|repeat split].
  exists u, b, remoteTxs. do 3 (split; [assumption|]).
  rewrite <- merge_new_filter. reflexivity.
Qed.

(** X8. After a successful restore by 'merge' the id of every transaction
    of the remote record is present locally, and if neither the local list
    nor the remote one repeated an id, the merged list repeats none. *)
Theorem restore_merge_ids (reply : SelectReply) (w : World) (u : UserProfile)
    (b : Backup) (remoteTxs : list Transaction) :
  user (syncState (app w)) = Some u →
  outcome_of (cloudDrive_restoreBackup (navigator_onLine w) reply (u_id u) (cloud w))
  = Returned (Some b) →
  d_transactions (data b) = Some remoteTxs →
  let merged := transactions (app (restoreBackup Merge reply w).2) in
  (∀ t, t ∈ remoteTxs → t_id t ∈ (t_id <$> merged))
  ∧ (NoDup (t_id <$> transactions (app w)) → NoDup (t_id <$> remoteTxs)
     → NoDup (t_id <$> merged)).
Proof.
  intros Hu Hb Htx merged.
  assert (Hm : merged = transactions (app w) ++ merge_new (transactions (app w)) remoteTxs).
  { subst merged. unfold restoreBackup, restoreBackup_from. rewrite Hu, Hb, Htx. reflexivity. }
  rewrite Hm. split.
  - intros t Ht. rewrite fmap_app, elem_of_app.
    destruct (decide (t_id t ∈ t_id <$> transactions (app w))) as [Hin|Hout];
      [left; exact Hin|].
    right. apply list_elem_of_fmap_2. apply elem_of_merge_new. split; assumption.
  - intros Hlocal Hremote. rewrite fmap_app. apply NoDup_app.
    split; [exact Hlocal|]. split.
    + intros x Hx Hx'. apply list_elem_of_fmap in Hx' as (t & -> & Ht).
      apply elem_of_merge_new in Ht. tauto.
    + eapply sublist_NoDup; [exact Hremote|].
      apply fmap_sublist. unfold merge_new. apply sublist_filter.
Qed.

(** *** Shared wallets in the row store *)

Lemma roleMap_snoc members r :
  roleMap (members ++ [r]) = <[mr_wallet_id r := mr_role r]> (roleMap members).
Proof. unfold roleMap. rewrite fold_left_app. reflexivity. Qed.

(** A role found in the map is the role of one of the rows. *)
Lemma roleMap_lookup_Some members id role :
  roleMap members !! id = Some role →
  ∃ r, r ∈ members ∧ mr_wallet_id r = id ∧ mr_role r = role.
Proof.
  induction members as [|r members IH] using rev_ind.
  - unfold roleMap; cbn. rewrite lookup_empty. discriminate.
  - rewrite roleMap_snoc. rewrite lookup_insert.
    destruct (decide (mr_wallet_id r = id)) as [Heq|Hne].
    + intros [= <-]. exists r. rewrite elem_of_app, list_elem_of_singleton. auto.
    + intros H. destruct (IH H) as (r' & Hin & Hid & Hrole).
      exists r'. rewrite elem_of_app. auto.
Qed.

(** Every wallet id of the rows has a role in the map. *)
Lemma roleMap_lookup_is_Some members r :
  r ∈ members → is_Some (roleMap members !! mr_wallet_id r).
Proof.
  induction members as [|r' members IH] using rev_ind.
  - intros H. inversion H.
  - rewrite roleMap_snoc, elem_of_app, list_elem_of_singleton, lookup_insert.
    intros [Hin| ->].
    + destruct (decide (mr_wallet_id r' = mr_wallet_id r)); [eauto|apply IH, Hin].
    + rewrite decide_True by reflexivity. eauto.
Qed.

(** What [getMyWallets] returns when both selects are served. *)
Lemma elem_of_getMyWallets userId c x :
  x ∈ cloudDrive_getMyWallets true Served Served userId c ↔
  ∃ row, wallets_table c !! w_id x = Some row
         ∧ w_id x ∈ (mr_wallet_id <$> filter (λ m, mr_user_id m = userId)
                                          (wallet_members c))
         ∧ x = mkWallet (w_id x) (wr_name row) (wr_currency row)
                 (default viewer
                    (roleMap (filter (λ m, mr_user_id m = userId) (wallet_members c))
                     !! w_id x))
                 (wr_created_at row) true.
Proof.
  unfold cloudDrive_getMyWallets. cbn [negb].
  destruct (filter (λ m, mr_user_id m = userId) (wallet_members c))
    as [|m0 ms] eqn:Hms.
  - split; [intros H; inversion H|].
    intros (row & _ & Hin & _). cbn in Hin. inversion Hin.
  - rewrite list_elem_of_fmap. split.
    + intros ([id row] & -> & Hin). cbn [w_id fst snd].
      apply elem_of_map_to_list, map_lookup_filter_Some in Hin as [Hrow Hid].
      exists row. repeat split; assumption.
    + intros (row & Hrow & Hid & Hx). exists (w_id x, row). split; [exact Hx|].
      apply elem_of_map_to_list, map_lookup_filter_Some. split; assumption.
Qed.

(** X9. When both inserts are accepted, [createWallet] returns the wallet
    with the role of owner, has stored the wallet row and the owner's
    membership, has sent no delete, and a following [getMyWallets] of the
    same user lists the new wallet as owned and shared. *)
Theorem createWallet_success (userId name currency id : string)
    (created_at : option string) (rollbackReply : DeleteReply) (c : Cloud) :
  let r := cloudDrive_createWallet true (WalletInserted id created_at) MemberInserted
             rollbackReply userId name currency c in
  let created := mkWallet id name currency owner created_at true in
  outcome_of r = Returned created
  ∧ log_of r = [InsertWallet; InsertMember id]
  ∧ wallets_table (cloud_of r) !! id = Some (mkWalletRow name currency userId created_at)
  ∧ wallet_members (cloud_of r) = wallet_members c ++ [mkMemberRow id userId owner]
  ∧ created ∈ cloudDrive_getMyWallets true Served Served userId (cloud_of r).
Proof.
  intros r created.
  assert (Hc : cloud_of r
               = set_wallet_members (λ ms, ms ++ [mkMemberRow id userId owner])
                   (set_wallets_table
                      (insert id (mkWalletRow name currency userId created_at)) c))
    by reflexivity.
  split; [reflexivity|]. split; [reflexivity|].
  assert (Hrow : wallets_table (cloud_of r) !! id
                 = Some (mkWalletRow name currency userId created_at))
    by (rewrite Hc; apply lookup_insert_eq).
  assert (Hmem : wallet_members (cloud_of r)
                 = wallet_members c ++ [mkMemberRow id userId owner])
    by (rewrite Hc; reflexivity).
  split; [exact Hrow|]. split; [exact Hmem|].
  apply elem_of_getMyWallets. subst created. cbn [w_id].
  exists (mkWalletRow name currency userId created_at). split; [exact Hrow|].
  rewrite Hmem, filter_app.
  assert (Hlast : filter (λ m, mr_user_id m = userId) [mkMemberRow id userId owner]
                  = [mkMemberRow id userId owner]).
  { rewrite filter_cons. cbn. rewrite decide_True by reflexivity. reflexivity. }
  rewrite Hlast. split.
  - rewrite fmap_app, elem_of_app. right. cbn. left.
  - rewrite roleMap_snoc. cbn [mr_wallet_id mr_role].
    rewrite lookup_insert_eq. reflexivity.
Qed.

(** X10. Off line, or when the insert of the wallet row is rejected,
    [createWallet] throws with the store as it was; the membership insert
    and the delete are never sent, and off line nothing is sent at all. A
    rejection that speaks of recursion or carries code 42P17 is reported
    with the set-up hint, any other with the store's own message. *)
Theorem createWallet_not_started (online : bool) (walletError : PgError)
    (memberReply : InsertMemberReply) (rollbackReply : DeleteReply)
    (userId name currency : string) (c : Cloud) :
  let r := cloudDrive_createWallet online (WalletRejected walletError) memberReply
             rollbackReply userId name currency c in
  cloud_of r = c
  ∧ log_of r = (if online then [InsertWallet] else [])
  ∧ outcome_of r
    = Threw (ErrMsg (if negb online then "Offline"
                     else if includes (pg_message walletError) "recursion"
                             || bool_decide (pg_code walletError = "42P17")
                          then recursion_hint
                          else pg_message walletError)).
Proof.
  intros r. subst r.
  unfold cloudDrive_createWallet, outcome_of, cloud_of, log_of, bind, send, throw,
    is_recursion.
  destruct online; cbn [negb]; [|repeat split].
  destruct (includes (pg_message walletError) "recursion"
            || bool_decide (pg_code walletError = "42P17")); repeat split.
Qed.

(** X11. On line, the service's [deleteWallet] always sends its three
    deletes in the order members, data, wallet, and returns exactly when
    the last one is carried out, whatever became of the first two. When
    the last one fails it throws with the prefixed message and the wallet
    row stays, although its members and data may be gone already. Backups
    and the rows of other wallets are never touched. *)
Theorem cloud_deleteWallet_cascade (membersReply dataReply walletReply : DeleteReply)
    (walletId : string) (c : Cloud) :
  let r := cloudDrive_deleteWallet true membersReply dataReply walletReply walletId c in
  log_of r = [DeleteMembers walletId; DeleteWalletData walletId; DeleteWallet walletId]
  ∧ (returned (outcome_of r) = deleted walletReply)
  ∧ (walletReply = Deleted → wallets_table (cloud_of r) !! walletId = None)
  ∧ (∀ e, walletReply = DeleteFailed e →
          outcome_of r = Threw (ErrMsg ("Failed to delete wallet: " +:+ pg_message e))
          ∧ wallets_table (cloud_of r) = wallets_table c)
  ∧ (membersReply = Deleted →
     ∀ m, m ∈ wallet_members (cloud_of r) → mr_wallet_id m ≠ walletId)
  ∧ (dataReply = Deleted → wallet_data (cloud_of r) !! walletId = None)
  ∧ (∀ other, other ≠ walletId →
       wallets_table (cloud_of r) !! other = wallets_table c !! other
       ∧ wallet_data (cloud_of r) !! other = wallet_data c !! other
       ∧ ∀ m, mr_wallet_id m = other →
              (m ∈ wallet_members (cloud_of r) ↔ m ∈ wallet_members c))
  ∧ backups (cloud_of r) = backups c.
Proof.
  intros r. subst r.
  unfold cloudDrive_deleteWallet, outcome_of, cloud_of, log_of, bind, send, store,
    ret, throw.
  cbn [negb].
  destruct membersReply as [|e1], dataReply as [|e2], walletReply as [|e3];
    cbn [deleted returned fst snd app backups wallets_table wallet_members
         wallet_data set_wallets_table set_wallet_members set_wallet_data];
    (split; [reflexivity|]); (split; [reflexivity|]);
    (split; [intros H; try discriminate; try apply lookup_delete_eq|]);
    (split; [intros e [=]; subst; split; reflexivity|]);
    (split; [intros H; try discriminate;
             intros m Hm; apply list_elem_of_filter in Hm; tauto|]);
    (split; [intros H; try discriminate; try apply lookup_delete_eq|]);
    (split; [|reflexivity]);
    intros other Hne;
    (split; [try (rewrite lookup_delete_ne by congruence); reflexivity|]);
    (split; [try (rewrite lookup_delete_ne by congruence); reflexivity|]);
    intros m Hm; try rewrite list_elem_of_filter; try tauto;
    split; try tauto; intros Hin; split; congruence.
Qed.

(** X12. [getMyWallets] lists a wallet only if its row exists and the user
    has a membership row for it; each wallet listed is flagged shared and
    carries the role of one of those membership rows; no wallet is listed
    twice, even when membership rows repeat; and a user with a membership
    in an existing wallet finds it listed. Off line or when a select fails,
    the list is empty. *)
Theorem getMyWallets_lists_memberships (online : bool)
    (membersReply walletsReply : SelectReply) (userId : string) (c : Cloud) :
  let listed := cloudDrive_getMyWallets online membersReply walletsReply userId c in
  (∀ x, x ∈ listed →
     w_is_shared x = true
     ∧ (∃ row, wallets_table c !! w_id x = Some row
               ∧ w_name x = wr_name row ∧ w_currency x = wr_currency row)
     ∧ (∃ m, m ∈ wallet_members c ∧ mr_user_id m = userId
             ∧ mr_wallet_id m = w_id x ∧ mr_role m = w_role x))
  ∧ NoDup (w_id <$> listed)
  ∧ (online = true → membersReply = Served → walletsReply = Served →
     ∀ m, m ∈ wallet_members c → mr_user_id m = userId →
          is_Some (wallets_table c !! mr_wallet_id m) →
          mr_wallet_id m ∈ (w_id <$> listed))
  ∧ (online = false ∨ membersReply = SelectFailed ∨ walletsReply = SelectFailed
     → listed = []).
Proof.
  intros listed. subst listed. split; [|split; [|split]].
  - intros x Hx.
    assert (online = true ∧ membersReply = Served ∧ walletsReply = Served)
      as (-> & -> & ->).
    { unfold cloudDrive_getMyWallets in Hx.
      destruct online, membersReply, walletsReply; cbn in Hx;
        try (destruct (filter _ _) in Hx); try (inversion Hx; fail); auto. }
    apply elem_of_getMyWallets in Hx as (row & Hrow & Hid & Hx).
    split; [rewrite Hx; reflexivity|]. split.
    { exists row. split; [exact Hrow|]. rewrite Hx. split; reflexivity. }
    apply list_elem_of_fmap in Hid as (m & Hmid & Hm).
    destruct (roleMap_lookup_is_Some _ _ Hm) as [role Hrole].
    destruct (roleMap_lookup_Some _ _ _ Hrole) as (m' & Hm' & Hid' & Hrole').
    apply list_elem_of_filter in Hm' as [Huser Hin].
    exists m'. repeat split; try assumption; [congruence|].
    rewrite Hx. cbn [w_role]. rewrite Hmid, Hrole. cbn. exact Hrole'.
  - unfold cloudDrive_getMyWallets.
    destruct online, membersReply; cbn [negb]; try constructor.
    destruct (filter _ (wallet_members c)); [constructor|].
    destruct walletsReply; [|constructor].
    rewrite <- list_fmap_compose.
    apply (NoDup_fst_map_to_list (filter (λ kv, kv.1 ∈ _) (wallets_table c))).
  - intros -> -> -> m Hin Huser [row Hrow].
    apply list_elem_of_fmap.
    exists (mkWallet (mr_wallet_id m) (wr_name row) (wr_currency row)
              (default viewer
                 (roleMap (filter (λ m, mr_user_id m = userId) (wallet_members c))
                  !! mr_wallet_id m))
              (wr_created_at row) true).
    split; [reflexivity|]. apply elem_of_getMyWallets. exists row. cbn [w_id].
    split; [exact Hrow|]. split; [|reflexivity].
    apply list_elem_of_fmap_2, list_elem_of_filter. split; assumption.
  - unfold cloudDrive_getMyWallets.
    intros [-> | [-> | ->]]; [reflexivity| |].
    + destruct online; reflexivity.
    + destruct online, membersReply; cbn [negb]; try reflexivity.
      destruct (filter _ _); reflexivity.
Qed.

(** *** Wallets in the context *)

(** X13. The context's [deleteWallet]: when the service throws, the state
    of the provider is as it was; when it returns, the wallet list has
    lost exactly the wallets with that id, and if the deleted wallet was
    the active one the context switches to the personal wallet
    ([activeWalletId] null, transactions read from the local store),
    otherwise the active wallet and the transactions stay. *)
Theorem deleteWallet_updates_list (id : string)
    (membersReply dataReply walletReply : DeleteReply) (w : World) :
  let res := deleteWallet id membersReply dataReply walletReply w in
  (∀ e, res.1 = Threw e → app res.2 = app w)
  ∧ (res.1 = Returned tt →
     (∀ x, x ∈ wallets (app res.2) ↔ x ∈ wallets (app w) ∧ w_id x ≠ id)
     ∧ (activeWalletId (syncState (app w)) = Some id →
        activeWalletId (syncState (app res.2)) = None
        ∧ transactions (app res.2) = storage_get (TRANSACTIONS (localStorage w)) [])
     ∧ (activeWalletId (syncState (app w)) ≠ Some id →
        activeWalletId (syncState (app res.2)) = activeWalletId (syncState (app w))
        ∧ transactions (app res.2) = transactions (app w))).
Proof.
  intros res. subst res. unfold deleteWallet.
  destruct (outcome_of _) as [[]|e]; cbn [fst snd].
  - split; [discriminate|]. intros _.
    case_bool_decide as Hactive; cbn; (split; [|split]).
    + intros x. rewrite list_elem_of_filter. tauto.
    + intros _. split; reflexivity.
    + intros Hne. contradiction.
    + intros x. rewrite list_elem_of_filter. tauto.
    + intros Heq. contradiction.
    + intros _. split; reflexivity.
  - split; [intros e' _; reflexivity|discriminate].
Qed.

(** X14. Switching to a wallet whose data cannot be had (the device is off
    line, the select fails, or the wallet has no data row) records the
    wallet as active and leaves the working set exactly as it was before
    the call. In every case [switchWallet] leaves settings, category
    budgets, the wallet list, the sign-in state, the sync marks and the
    remote store alone, and after the render that follows the call the
    persistence effects have written the id it was given under
    [ACTIVE_WALLET_ID] (removing the key for [null]) and the working set
    it ended with under the data keys. *)
Theorem switchWallet_without_data (id : option string) (reply : SelectReply)
    (w : World) :
  let w' := switchWallet id reply w in
  (∀ i, id = Some i → i ≠ EmptyString →
        navigator_onLine w = false ∨ reply = SelectFailed
        ∨ wallet_data (cloud w) !! i = None →
        activeWalletId (syncState (app w')) = Some i
        ∧ transactions (app w') = transactions (app w)
        ∧ accounts (app w') = accounts (app w)
        ∧ categories (app w') = categories (app w)
        ∧ budget (app w') = budget (app w))
  ∧ settings (app w') = settings (app w)
  ∧ categoryBudgets (app w') = categoryBudgets (app w)
  ∧ wallets (app w') = wallets (app w)
  ∧ user (syncState (app w')) = user (syncState (app w))
  ∧ lastSync (syncState (app w')) = lastSync (syncState (app w))
  ∧ unsyncedChanges (syncState (app w')) = unsyncedChanges (syncState (app w))
  ∧ cloud w' = cloud w
  ∧ ACTIVE_WALLET_ID (localStorage (commit w')) = id
  ∧ TRANSACTIONS (localStorage (commit w'))
    = Some (JSON_transaction <$> transactions (app w'))
  ∧ ACCOUNTS (localStorage (commit w')) = Some (accounts (app w'))
  ∧ CATEGORIES (localStorage (commit w')) = Some (categories (app w'))
  ∧ BUDGET (localStorage (commit w')) = Some (budget (app w')).
Proof.
  intros w'. subst w'. split.
  - intros i -> Hne Hcase. unfold switchWallet.
    cbn [truthy_string]. rewrite bool_decide_eq_false_2 by exact Hne. cbn [negb].
    assert (Hnone : outcome_of (cloudDrive_getWalletData (navigator_onLine w) reply i
                                  (cloud w)) = Returned None).
    { unfold cloudDrive_getWalletData, outcome_of, bind, send, look, ret.
      destruct Hcase as [-> | [-> | Hrow]]; [reflexivity| |].
      - destruct (navigator_onLine w); reflexivity.
      - destruct (navigator_onLine w), reply; cbn; try reflexivity. rewrite Hrow.
        reflexivity. }
    rewrite Hnone. repeat split.
  - unfold switchWallet.
    destruct id as [i|]; [|repeat split].
    destruct (truthy_string (Some i)); [|repeat split].
    destruct (outcome_of _) as [[d|]|e]; repeat split.
Qed.

(** *** Edits of transactions *)

Lemma filter_all {A} (P : A → Prop) `{∀ x, Decision (P x)} (l : list A) :
  (∀ x, x ∈ l → P x) → filter P l = l.
Proof.
  induction l as [|x l IH]; intros Hall; [reflexivity|].
  rewrite filter_cons, decide_True by (apply Hall; left).
  f_equal. apply IH. intros y Hy. apply Hall. right. exact Hy.
Qed.

(** X15. [deleteTransaction(id)] returns [true] and keeps, in their order,
    exactly the transactions with another id; when no transaction has the
    id the list is unchanged, and [unsyncedChanges] is raised all the same. *)
Theorem deleteTransaction_removes_id (id : string) (w : World) :
  let r := deleteTransaction id w in
  let txs := transactions (app w) in
  let txs' := transactions (app r.2) in
  r.1 = Returned true
  ∧ (∀ t, t ∈ txs' ↔ t ∈ txs ∧ t_id t ≠ id)
  ∧ txs' `sublist_of` txs
  ∧ (id ∉ (t_id <$> txs) → txs' = txs)
  ∧ unsyncedChanges (syncState (app r.2)) = true.
Proof.
  cbn. split; [reflexivity|]. split; [|split; [|split; [|reflexivity]]].
  - intros t. rewrite list_elem_of_filter. tauto.
  - apply sublist_filter.
  - intros Hnot. apply filter_all. intros t Ht Heq. apply Hnot. rewrite <- Heq.
    apply list_elem_of_fmap_2. exact Ht.
Qed.

Lemma updateTransaction_list d w :
  transactions (app (updateTransaction d w))
  = map (λ t, if bool_decide (t_id t = t_id d) then tx_pending d (t_id d) else t)
      (transactions (app w)).
Proof. reflexivity. Qed.

Lemma updateTransaction_ids d w :
  t_id <$> transactions (app (updateTransaction d w)) = t_id <$> transactions (app w).
Proof.
  rewrite updateTransaction_list. generalize (transactions (app w)). intros txs.
  induction txs as [|t txs IH]; [reflexivity|]. cbn. rewrite IH. f_equal.
  case_bool_decide; [symmetry; assumption|reflexivity].
Qed.

(** X16. [updateTransaction(data)] keeps the length of the list and the id
    at every position; every transaction with the id of [data] becomes
    [data] marked as pending sync, the others stay; when no transaction has
    that id the list is unchanged. *)
Theorem updateTransaction_replaces_by_id (d : Transaction) (w : World) :
  let txs := transactions (app w) in
  let txs' := transactions (app (updateTransaction d w)) in
  t_id <$> txs' = t_id <$> txs
  ∧ (∀ i t, txs !! i = Some t →
       txs' !! i = Some (if bool_decide (t_id t = t_id d)
                         then tx_pending d (t_id d) else t))
  ∧ (∀ t, t ∈ txs' → t_id t = t_id d →
       t = tx_pending d (t_id d) ∧ t_isPendingSync t = Some true)
  ∧ (t_id d ∉ (t_id <$> txs) → txs' = txs).
Proof.
  intros txs txs'. split; [apply updateTransaction_ids|].
  subst txs'. rewrite updateTransaction_list. fold txs.
  generalize txs. clear txs. intros txs. split; [|split].
  - induction txs as [|t0 txs IH]; intros i t Hi; [inversion Hi|].
    destruct i as [|i]; cbn in *.
    + injection Hi as ->. reflexivity.
    + apply IH. exact Hi.
  - induction txs as [|t0 txs IH]; intros t Ht Hid; [inversion Ht|].
    cbn in Ht. apply elem_of_cons in Ht as [->|Ht]; [|apply IH; assumption].
    case_bool_decide as H0; [split; reflexivity|]. contradiction.
  - induction txs as [|t0 txs IH]; intros Hnot; [reflexivity|].
    cbn. cbn in Hnot. apply not_elem_of_cons in Hnot as [Hne Hnot].
    rewrite bool_decide_eq_false_2 by congruence. f_equal. apply IH. exact Hnot.
Qed.

(** X17. Ids stay unique under the edits of single transactions: adding
    with an id not yet in use, updating, and deleting each keep a list
    without repeated ids free of them; the added transaction is at the
    head, carries the generated id and is marked as pending sync. *)
Theorem transaction_ids_stay_unique (tData d : Transaction) (uuid id : string)
    (w : World) :
  let ids x := t_id <$> transactions (app x) in
  (transactions (app (addTransaction tData uuid w))
   = tx_pending tData uuid :: transactions (app w))
  ∧ (NoDup (ids w) →
     (uuid ∉ ids w → NoDup (ids (addTransaction tData uuid w)))
     ∧ NoDup (ids (updateTransaction d w))
     ∧ NoDup (ids (deleteTransaction id w).2)).
Proof.
  intros ids. subst ids. cbv beta. split; [reflexivity|].
  intros Hnd. split; [|split].
  - intros Hfresh. cbn. constructor; assumption.
  - rewrite updateTransaction_ids. exact Hnd.
  - eapply sublist_NoDup; [exact Hnd|].
    apply fmap_sublist. cbn. apply sublist_filter.
Qed.

(** *** Categories and category budgets *)

Lemma balance_step_uncategorized id acc t :
  balance_step id acc (tx_uncategorized t) = balance_step id acc t.
Proof. reflexivity. Qed.

(** X18. After [deleteCategory(id)] no transaction refers to the category
    any more and the category is gone from the list; the transactions are
    the same by id and in number, and no account balance changes. The
    category budgets are not touched: a budget of the deleted category
    stays in the list. *)
Theorem deleteCategory_uncategorizes (id : string) (w : World) :
  let a := app w in
  let a' := app (deleteCategory id w) in
  (∀ t, t ∈ transactions a' → t_categoryId t ≠ Some id)
  ∧ t_id <$> transactions a' = t_id <$> transactions a
  ∧ (∀ acc, getAccountBalance acc a' = getAccountBalance acc a)
  ∧ (∀ c, c ∈ categories a' ↔ c ∈ categories a ∧ c_id c ≠ id)
  ∧ categoryBudgets a' = categoryBudgets a
  ∧ accounts a' = accounts a.
Proof.
  intros a a'.
  assert (Htx : transactions a'
                = map (λ t, if bool_decide (t_categoryId t = Some id)
                            then tx_uncategorized t else t) (transactions a))
    by reflexivity.
  assert (Hcat : categories a' = filter (λ c, c_id c ≠ id) (categories a))
    by reflexivity.
  split; [|split; [|split; [|split; [|split; reflexivity]]]].
  - rewrite Htx. generalize (transactions a). intros txs.
    induction txs as [|t0 txs IH]; intros t Ht; [inversion Ht|].
    cbn in Ht. apply elem_of_cons in Ht as [->|Ht]; [|apply IH; exact Ht].
    case_bool_decide as H0; [discriminate|exact H0].
  - rewrite Htx. generalize (transactions a). intros txs.
    induction txs as [|t0 txs IH]; [reflexivity|]. cbn. rewrite IH. f_equal.
    case_bool_decide; reflexivity.
  - intros acc. unfold getAccountBalance. rewrite Htx.
    generalize 0%float. generalize (transactions a). intros txs.
    induction txs as [|t0 txs IH]; intros z; [reflexivity|].
    cbn [map fold_left]. rewrite IH. f_equal.
    case_bool_decide; [apply balance_step_uncategorized|reflexivity].
  - intros c. rewrite Hcat, list_elem_of_filter. tauto.
Qed.

Lemma find_budget_None catId (l : list CategoryBudget) :
  find (λ b, bool_decide (cb_categoryId b = catId)) l = None ↔
  catId ∉ (cb_categoryId <$> l).
Proof.
  induction l as [|b l IH]; cbn.
  - split; [intros _ H; inversion H|reflexivity].
  - rewrite not_elem_of_cons. case_bool_decide as Hb.
    + split; [discriminate|]. intros [Hne _]. congruence.
    + rewrite IH. split; [intros H; split; [congruence|exact H]|tauto].
Qed.

(** X19. [updateCategoryBudget(catId, amount)] upserts: afterwards there is
    an entry for the category and every entry for it has the amount; the
    entries of other categories are as before; the list grows by one
    exactly when the category had no entry; and a list with one entry per
    category stays so. *)
Theorem updateCategoryBudget_upserts (catId : string) (amount : Z) (w : World) :
  let l := categoryBudgets (app w) in
  let l' := categoryBudgets (app (updateCategoryBudget catId amount w)) in
  catId ∈ (cb_categoryId <$> l')
  ∧ (∀ b, b ∈ l' → cb_categoryId b = catId → cb_amount b = amount)
  ∧ (∀ b, cb_categoryId b ≠ catId → (b ∈ l' ↔ b ∈ l))
  ∧ length l' = (if decide (catId ∈ (cb_categoryId <$> l))
                 then length l else S (length l))
  ∧ (NoDup (cb_categoryId <$> l) → NoDup (cb_categoryId <$> l')).
Proof.
  intros l l'.
  assert (Hl' : l' = match find (λ b, bool_decide (cb_categoryId b = catId)) l with
                     | Some _ =>
                         map (λ b, if bool_decide (cb_categoryId b = catId)
                                   then mkCategoryBudget (cb_categoryId b) amount
                                   else b) l
                     | None => l ++ [mkCategoryBudget catId amount]
                     end) by reflexivity.
  clearbody l'. subst l'. generalize l. clear l. intros l.
  destruct (find _ l) as [b0|] eqn:Hfind.
  - assert (Hin : catId ∈ (cb_categoryId <$> l)).
    { destruct (decide (catId ∈ (cb_categoryId <$> l))) as [H|H]; [exact H|].
      apply find_budget_None in H. congruence. }
    assert (Hids : cb_categoryId <$>
                     map (λ b, if bool_decide (cb_categoryId b = catId)
                               then mkCategoryBudget (cb_categoryId b) amount else b) l
                   = cb_categoryId <$> l).
    { clear. induction l as [|b l IH]; [reflexivity|]. cbn. rewrite IH. f_equal.
      case_bool_decide; reflexivity. }
    split; [rewrite Hids; exact Hin|]. split; [|split; [|split]].
    + clear. induction l as [|b0 l IH]; intros b Hb Hid; [inversion Hb|].
      cbn in Hb. apply elem_of_cons in Hb as [->|Hb]; [|apply IH; assumption].
      case_bool_decide as H0; [reflexivity|contradiction].
    + clear. intros b Hne. induction l as [|b0 l IH]; [reflexivity|].
      cbn. rewrite !elem_of_cons, IH.
      case_bool_decide as H0; [|reflexivity].
      split; (intros [->|H]; [|right; exact H]); cbn in *; congruence.
    + rewrite decide_True by exact Hin. apply length_map.
    + rewrite Hids. auto.
  - apply find_budget_None in Hfind.
    split; [|split; [|split; [|split]]].
    + rewrite fmap_app, elem_of_app. right. left.
    + intros b Hb Hid. apply elem_of_app in Hb as [Hb|Hb].
      * exfalso. apply Hfind. rewrite <- Hid. apply list_elem_of_fmap_2. exact Hb.
      * apply list_elem_of_singleton in Hb as ->. reflexivity.
    + intros b Hne. rewrite elem_of_app, list_elem_of_singleton.
      split; [intros [H| ->]; [exact H|contradiction]|auto].
    + rewrite decide_False by exact Hfind. rewrite length_app. cbn. lia.
    + intros Hnd. rewrite fmap_app. apply NoDup_app. split; [exact Hnd|].
      split; [|apply NoDup_singleton].
      intros x Hx Hx'. apply list_elem_of_singleton in Hx'. cbn in Hx'. subst x.
      contradiction.
Qed.

(** *** Currencies and languages *)

(** X20. The currency list under [installCurrency] and
    [uninstallCurrency]: installing adds the code once (a code already
    installed changes nothing at all), uninstalling removes it, and "USD"
    cannot be uninstalled; a list without repetitions stays without; and
    as long as "USD" is installed the active currency stays an installed
    one (it falls back to "USD" when it is the one uninstalled). *)
Theorem currency_list_invariants (code : string) (w : World) :
  let cur x := currencies (settings (app x)) in
  let active x := currency (settings (app x)) in
  code ∈ cur (installCurrency code w)
  ∧ (code ∈ cur w → installCurrency code w = w)
  ∧ uninstallCurrency "USD" w = w
  ∧ (code ≠ "USD" → code ∉ cur (uninstallCurrency code w))
  ∧ (NoDup (cur w) →
     NoDup (cur (installCurrency code w)) ∧ NoDup (cur (uninstallCurrency code w)))
  ∧ ("USD" ∈ cur w → active w ∈ cur w →
     ("USD" ∈ cur (installCurrency code w)
      ∧ active (installCurrency code w) ∈ cur (installCurrency code w))
     ∧ ("USD" ∈ cur (uninstallCurrency code w)
        ∧ active (uninstallCurrency code w) ∈ cur (uninstallCurrency code w))).
Proof.
  intros cur active. subst cur active. cbv beta.
  unfold installCurrency, uninstallCurrency.
  split; [|split; [|split; [|split; [|split]]]].
  - case_bool_decide as Hin; [exact Hin|]. cbn. rewrite elem_of_app. right. left.
  - intros Hin. rewrite bool_decide_eq_true_2 by exact Hin. reflexivity.
  - reflexivity.
  - intros Hne. rewrite bool_decide_eq_false_2 by exact Hne. cbn.
    rewrite list_elem_of_filter. tauto.
  - intros Hnd. split.
    + case_bool_decide as Hin; [exact Hnd|]. cbn. apply NoDup_app.
      split; [exact Hnd|]. split; [|apply NoDup_singleton].
      intros x Hx Hx'. apply list_elem_of_singleton in Hx'. congruence.
    + case_bool_decide; [exact Hnd|]. cbn.
      eapply sublist_NoDup; [exact Hnd|apply sublist_filter].
  - intros Husd Hact. split.
    + case_bool_decide as Hin; [split; assumption|]. cbn.
      rewrite !elem_of_app. auto.
    + case_bool_decide as Hcode; [split; assumption|]. cbn.
      rewrite !list_elem_of_filter.
      split; [split; [congruence|exact Husd]|].
      case_bool_decide as Hcur; [split; [congruence|exact Husd]|].
      split; assumption.
Qed.

(** X21. Languages: "en" cannot be uninstalled; installing a language
    makes it the active one, with its dictionary in the table, and
    uninstalling the active one falls back to "en". These two operations
    preserve the presence of dictionaries: from a state in which "en" and
    the active language have a dictionary, an install leads to a state in
    which the active language has one, and an uninstall to a state in
    which "en" and the active language have one. (Other operations do not:
    [updateSettings] and a restore by 'replace' can set a language without
    a dictionary.) Installing a code that was not there and uninstalling
    it again restores the dictionary table and the stored custom
    translations, but leaves "en" active, not the language that was
    active before. *)
Theorem language_table_invariants (code : string) (dict : gmap string string)
    (w : World) :
  let lang x := language (settings (app x)) in
  uninstallLanguage "en" w = w
  ∧ lang (installLanguage code dict w) = code
  ∧ translations (installLanguage code dict w) !! code = Some dict
  ∧ ("en" ∈ dom (translations w) → lang w ∈ dom (translations w) →
     lang (installLanguage code dict w) ∈ dom (translations (installLanguage code dict w))
     ∧ "en" ∈ dom (translations (uninstallLanguage code w))
     ∧ lang (uninstallLanguage code w) ∈ dom (translations (uninstallLanguage code w)))
  ∧ (code ≠ "en" → translations w !! code = None →
     storage_get (CUSTOM_TRANSLATIONS (localStorage w)) ∅ !! code = None →
     let back := uninstallLanguage code (installLanguage code dict w) in
     translations back = translations w
     ∧ storage_get (CUSTOM_TRANSLATIONS (localStorage back)) ∅
       = storage_get (CUSTOM_TRANSLATIONS (localStorage w)) ∅
     ∧ lang back = "en").
Proof.
  intros lang. subst lang. cbv beta.
  split; [reflexivity|]. split; [reflexivity|].
  split; [apply lookup_insert_eq|]. split.
  - intros Hen Hlang. split; [|split].
    + cbn. apply elem_of_dom. rewrite lookup_insert_eq. eauto.
    + unfold uninstallLanguage. case_bool_decide as Hcode; [exact Hen|].
      case_bool_decide; cbn; apply elem_of_dom; rewrite lookup_delete_ne by congruence;
        apply elem_of_dom; exact Hen.
    + unfold uninstallLanguage. case_bool_decide as Hcode; [exact Hlang|].
      case_bool_decide as Hact; cbn; apply elem_of_dom.
      * rewrite lookup_delete_ne by congruence. apply elem_of_dom. exact Hen.
      * rewrite lookup_delete_ne by congruence. apply elem_of_dom. exact Hlang.
  - intros Hne Hfresh Hstored back. subst back. unfold uninstallLanguage.
    rewrite bool_decide_eq_false_2 by exact Hne.
    change (language (settings (app (installLanguage code dict w)))) with code.
    rewrite bool_decide_eq_true_2 by reflexivity. cbn.
    rewrite !delete_insert_id by assumption. repeat split.
Qed.

(** *** The auto-backup interval *)

(** X22. A run of the periodic check calls backup only when the user is
    signed in, the device is on line, auto-backup is not off and
    [lastSync] is set; then, with [lastSync] reading as [last], it calls
    backup exactly when more than 24 hours (daily) or 168 hours (weekly)
    have passed, not yet at exactly that age, and never when [lastSync]
    cannot be read as a date. A tick whose backup throws leaves the state
    of the provider as it was. *)
Theorem autoBackup_interval (now : Z) (a : AppState) :
  (autoBackup_calls_backup now a = true →
   isLoggedIn (syncState a) = true ∧ isOnline (syncState a) = true
   ∧ autoBackup (settings a) ≠ off ∧ truthy_string (lastSync (syncState a)) = true)
  ∧ (autoBackup_armed a = true →
     ∀ l, lastSync (syncState a) = Some l →
       (Date_getTime l = None → autoBackup_calls_backup now a = false)
       ∧ (∀ last, Date_getTime l = Some last →
            (autoBackup (settings a) = daily →
             (autoBackup_calls_backup now a = true ↔ 24 * 3600000 < now - last))
            ∧ (autoBackup (settings a) = weekly →
               (autoBackup_calls_backup now a = true ↔ 168 * 3600000 < now - last))))
  ∧ (∀ clientTime reply w e,
       a = app w → (backupUserData clientTime reply w).1 = Threw e →
       app (autoBackup_tick now clientTime reply w) = app w).
Proof.
  split; [|split].
  - unfold autoBackup_calls_backup, autoBackup_armed.
    destruct (isLoggedIn (syncState a)), (isOnline (syncState a)); cbn; try discriminate.
    case_bool_decide as Hoff; cbn; [discriminate|].
    destruct (truthy_string (lastSync (syncState a))); cbn; [|discriminate].
    auto.
  - intros Harmed l Hl. unfold autoBackup_calls_backup, autoBackup_due.
    rewrite Harmed, Hl. cbn [andb from_option]. split.
    + intros ->. reflexivity.
    + intros last ->. cbn [option_map js_gt]. split; intros ->.
      * rewrite bool_decide_eq_true_2 by reflexivity.
        rewrite Z.gtb_ltb, Z.ltb_lt. lia.
      * rewrite bool_decide_eq_false_2 by discriminate.
        rewrite Z.gtb_ltb, Z.ltb_lt. lia.
  - intros clientTime reply w e -> Hthrow. unfold autoBackup_tick.
    destruct (autoBackup_calls_backup now (app w)); [|reflexivity].
    destruct (backupUserData_done_or_same clientTime reply w) as [(u & _ & Hok)|Hsame];
      [congruence|exact Hsame].
Qed.

(** *** Persistence across a page load *)

(** X23. What a page load brings back. A provider mounted on the local
    store that the persistence effects wrote has the accounts, categories,
    settings, budget figures, wallet list, [lastSync] and active wallet of
    the state that was persisted, and its transactions as JSON carries
    them (a [NaN] or infinite amount is read back as [null]); where every
    amount is a number that JSON carries, all six snapshot fields are
    those of the persisted state. The provider starts signed out, with no
    pending restore and with [unsyncedChanges] false whatever it was, and
    its own effects leave the local store as they found it. *)
Theorem reload_restores_persisted_state (w : World) (onLine : bool) :
  let w' := mount (localStorage (commit w)) onLine (cloud w) in
  transactions (app w') = JSON_transaction <$> transactions (app w)
  ∧ (amounts_survive_JSON (transactions (app w))
     → snapshot (app w') = snapshot (app w))
  ∧ accounts (app w') = accounts (app w)
  ∧ categories (app w') = categories (app w)
  ∧ settings (app w') = settings (app w)
  ∧ budget (app w') = budget (app w)
  ∧ categoryBudgets (app w') = categoryBudgets (app w)
  ∧ wallets (app w') = wallets (app w)
  ∧ lastSync (syncState (app w')) = lastSync (syncState (app w))
  ∧ activeWalletId (syncState (app w')) = activeWalletId (syncState (app w))
  ∧ localStorage w' = localStorage (commit w)
  ∧ isLoggedIn (syncState (app w')) = false
  ∧ user (syncState (app w')) = None
  ∧ pendingRestoreAvailable (syncState (app w')) = false
  ∧ unsyncedChanges (syncState (app w')) = false.
Proof.
  intros w'. split; [reflexivity|]. split.
  { intros Hsafe. subst w'. unfold snapshot, mount, commit, persist. cbn.
    rewrite (JSON_transactions_safe _ Hsafe). reflexivity. }
  do 8 (split; [reflexivity|]). split; [|repeat split].
  subst w'. unfold mount, commit, persist, on_storage. cbn.
  rewrite JSON_transactions_idemp. reflexivity.
Qed.

(** *** The dashboard's remaining amount *)


(** *** storage.ts *)

Lemma removeAll_lookup keys (ls : gmap string string) k :
  storage.removeAll keys ls !! k = if decide (k ∈ keys) then None else ls !! k.
Proof.
  unfold storage.removeAll. revert ls.
  induction keys as [|x keys IH]; intros ls; cbn [fold_left].
  - rewrite decide_False; [reflexivity|]. intros H. inversion H.
  - rewrite IH. destruct (decide (k ∈ keys)) as [Hin|Hout].
    + rewrite decide_True by (right; exact Hin). reflexivity.
    + destruct (decide (k = x)) as [->|Hne].
      * rewrite decide_True by left. apply lookup_delete_eq.
      * rewrite decide_False by (rewrite elem_of_cons; tauto).
        apply lookup_delete_ne. congruence.
Qed.

(** X27. After [storage.clearAll()] a key is gone when it is one of
    [STORAGE_KEYS], one of the four dynamic keys, or begins with "sb_" or
    "sb-" or contains "supabase.auth.token"; every other key keeps its
    item. In particular no remaining key begins with "sb_" or "sb-". *)
Theorem clearAll_sweeps_app_keys (STORAGE_KEYS : list string)
    (ls : gmap string string) (k : string) :
  let cleared := storage.clearAll STORAGE_KEYS ls in
  (k ∈ STORAGE_KEYS ∨ k ∈ storage.dynamicKeys ∨ storage.swept k = true
   → cleared !! k = None)
  ∧ (k ∉ STORAGE_KEYS → k ∉ storage.dynamicKeys → storage.swept k = false
     → cleared !! k = ls !! k)
  ∧ (is_Some (cleared !! k) →
     String.prefix "sb_" k = false ∧ String.prefix "sb-" k = false
     ∧ includes k "supabase.auth.token" = false).
Proof.
  intros cleared.
  assert (Hspec : cleared !! k
                  = if decide (k ∈ STORAGE_KEYS) then None
                    else if decide (k ∈ storage.dynamicKeys) then None
                    else if storage.swept k then None else ls !! k).
  { subst cleared. unfold storage.clearAll. rewrite removeAll_lookup.
    set (ls2 := storage.removeAll storage.dynamicKeys
                  (storage.removeAll STORAGE_KEYS ls)).
    assert (Hls2 : ls2 !! k = if decide (k ∈ STORAGE_KEYS) then None
                              else if decide (k ∈ storage.dynamicKeys) then None
                              else ls !! k).
    { subst ls2. rewrite !removeAll_lookup.
      destruct (decide (k ∈ storage.dynamicKeys)), (decide (k ∈ STORAGE_KEYS));
        reflexivity. }
    destruct (decide (k ∈ filter (λ k0, storage.swept k0 = true) (map_to_list ls2).*1))
      as [Hin|Hout].
    - apply list_elem_of_filter in Hin as [Hsw _]. rewrite Hsw.
      repeat case_decide; reflexivity.
    - rewrite Hls2. repeat case_decide; try reflexivity.
      destruct (storage.swept k) eqn:Hsw; [|reflexivity].
      destruct (ls !! k) as [item|] eqn:Hk; [|reflexivity].
      exfalso. apply Hout. apply list_elem_of_filter. split; [exact Hsw|].
      apply list_elem_of_fmap. exists (k, item). split; [reflexivity|].
      apply elem_of_map_to_list. exact Hls2. }
  split; [|split].
  - intros [Hin|[Hin|Hsw]]; rewrite Hspec.
    + rewrite decide_True by exact Hin. reflexivity.
    + case_decide; [reflexivity|]. rewrite decide_True by exact Hin. reflexivity.
    + repeat case_decide; try reflexivity. rewrite Hsw. reflexivity.
  - intros H1 H2 Hsw. rewrite Hspec, !decide_False, Hsw by assumption. reflexivity.
  - rewrite Hspec. repeat case_decide; try (intros [? [=]]; fail).
    destruct (storage.swept k) eqn:Hsw; [intros [? [=]]|]. intros _.
    unfold storage.swept in Hsw.
    destruct (decide (k = EmptyString)) as [->|Hne]; [repeat split|].
    rewrite bool_decide_eq_false_2 in Hsw by exact Hne. cbn [negb andb] in Hsw.
    apply orb_false_iff in Hsw as [Hsw H3]. apply orb_false_iff in Hsw as [H1 H2].
    repeat split; assumption.
Qed.

(** X28. [storage.set] then [storage.get]: a value whose JSON text parses
    back to it and is not the text "null" or "undefined" is read back as
    written; writing [null] or [undefined], or removing the key, makes a
    later read give the fallback; and a write under one key does not change
    what is read under another. *)
Theorem storage_set_then_get {A} (JSON_parse : string → option A)
    (JSON_stringify : A → string) (key other : string) (v fallback : A)
    (ls : gmap string string) :
  JSON_parse (JSON_stringify v) = Some v →
  JSON_stringify v ≠ "null" →
  JSON_stringify v ≠ "undefined" →
  storage.get JSON_parse (storage.set JSON_stringify key (Some v) ls) key fallback = v
  ∧ storage.get JSON_parse (storage.set JSON_stringify key None ls) key fallback
    = fallback
  ∧ storage.get JSON_parse (storage.remove key ls) key fallback = fallback
  ∧ (other ≠ key → ∀ value,
       storage.get JSON_parse (storage.set JSON_stringify key value ls) other fallback
       = storage.get JSON_parse ls other fallback).
Proof.
  intros Hparse Hnull Hundef. unfold storage.get, storage.set, storage.remove.
  split; [|split; [|split]].
  - rewrite lookup_insert_eq, !bool_decide_eq_false_2 by assumption. cbn.
    rewrite Hparse. reflexivity.
  - rewrite lookup_delete_eq. reflexivity.
  - rewrite lookup_delete_eq. reflexivity.
  - intros Hne [x|].
    + rewrite lookup_insert_ne by congruence. reflexivity.
    + rewrite lookup_delete_ne by congruence. reflexivity.
Qed.

(** *** The profile of a signed-in user *)

Lemma or_else_not_empty a b :
  b ≠ Some EmptyString → or_else a b ≠ Some EmptyString.
Proof.
  intros Hb. unfold or_else. destruct a as [s|]; cbn; [|exact Hb].
  case_bool_decide as Hs; cbn; [exact Hb|]. congruence.
Qed.

(** X29. The profile built by [ensureUserProfile] never carries an empty
    name, e-mail or photo address: the name falls back from [full_name] to
    [name] to "User", an empty e-mail or photo address becomes missing.
    The e-mail counts as verified exactly when a non-empty confirmation
    time is there. *)
Theorem ensureUserProfile_normalises (user : AuthUser) :
  let p := ensureUserProfile user in
  u_id p = au_id user
  ∧ u_name p ≠ EmptyString
  ∧ u_email p ≠ Some EmptyString
  ∧ u_photoURL p ≠ Some EmptyString
  ∧ (au_user_metadata user = None → u_name p = "User" ∧ u_photoURL p = None)
  ∧ (u_emailVerified p = true
     ↔ ∃ s, au_email_confirmed_at user = Some s ∧ s ≠ EmptyString).
Proof.
  intros p. subst p. unfold ensureUserProfile. cbn [u_id u_name u_email u_photoURL
    u_emailVerified].
  split; [reflexivity|]. split; [|split; [|split; [|split]]].
  - generalize (default (mkUserMetadata None None None None None)
                  (au_user_metadata user)). intros meta.
    unfold or_string, or_else.
    destruct (um_full_name meta) as [s|]; cbn.
    + case_bool_decide as Hs; cbn.
      * destruct (um_name meta) as [s'|]; cbn; [|discriminate].
        case_bool_decide; cbn; [discriminate|assumption].
      * rewrite bool_decide_eq_false_2 by exact Hs. cbn. exact Hs.
    + destruct (um_name meta) as [s'|]; cbn; [|discriminate].
      case_bool_decide; cbn; [discriminate|assumption].
  - apply or_else_not_empty. discriminate.
  - apply or_else_not_empty. discriminate.
  - intros ->. split; reflexivity.
  - destruct (au_email_confirmed_at user) as [s|]; cbn.
    + case_bool_decide as Hs; cbn.
      * split; [discriminate|]. intros (s' & [= <-] & Hne). contradiction.
      * split; [eauto|reflexivity].
    + split; [discriminate|]. intros (s' & [=] & _).
Qed.

(** *** AI insights *)

(** X30. [refreshAIInsights] does nothing when insights are switched off,
    and nothing when it is not forced and an insight is already shown.
    When it runs, the analysing flag is off at the end whatever the
    service answered; with no transactions the insight is the invitation
    to add some, without regard to the service; and an error never removes
    the insight shown: a quota error replaces it only when the refresh is
    forced or no insight is shown, any other error leaves it. Nothing but
    the insight and the analysing flag is ever changed. *)
Theorem refreshAIInsights_throttled (force : bool)
    (txsOverride : option (list Transaction)) (reply : AiReply) (w : World) :
  let w' := refreshAIInsights force txsOverride reply w in
  let shown x := aiInsight (app x) in
  (showAIInsightsOnDashboard (settings (app w)) = false → w' = w)
  ∧ (force = false → truthy_string (shown w) = true → w' = w)
  ∧ (showAIInsightsOnDashboard (settings (app w)) = true →
     force = true ∨ truthy_string (shown w) = false →
     isAIAnalysing (app w') = false
     ∧ (default (transactions (app w)) txsOverride = [] →
        shown w' = Some "Start adding transactions to get AI insights.")
     ∧ (default (transactions (app w)) txsOverride ≠ [] →
        (reply = AiOtherError → shown w' = shown w)
        ∧ (reply = AiQuotaError →
           shown w' = Some "Daily AI limit reached. Try again later.")
        ∧ (∀ text, reply = AiText text → truthy_string (shown w') = true)))
  ∧ snapshot (app w') = snapshot (app w)
  ∧ syncState (app w') = syncState (app w)
  ∧ localStorage w' = localStorage w
  ∧ cloud w' = cloud w.
Proof.
  intros w' shown. subst w' shown. cbv beta. unfold refreshAIInsights.
  split; [|split; [|split]].
  - intros ->. reflexivity.
  - intros -> ->. destruct (negb _); reflexivity.
  - intros -> Hrun. cbn [negb].
    assert (Hgo : negb force && truthy_string (aiInsight (app w)) = false)
      by (destruct Hrun as [-> | ->]; [reflexivity|apply andb_false_r]).
    rewrite Hgo. split; [reflexivity|]. split.
    + intros ->. reflexivity.
    + intros Hne.
      destruct (default (transactions (app w)) txsOverride) as [|t0 txs];
        [contradiction|].
      split; [intros ->; reflexivity|]. split.
      * intros ->.
        assert (Hq : force || negb (truthy_string (aiInsight (app w))) = true)
          by (destruct Hrun as [-> | ->]; [reflexivity|apply orb_true_r]).
        rewrite Hq. reflexivity.
      * intros text ->. cbn. unfold or_string.
        destruct text as [s|]; [|reflexivity].
        destruct (truthy_string (Some s)) eqn:Hs; [exact Hs|reflexivity].
  - destruct (negb (showAIInsightsOnDashboard _)); [repeat split|].
    destruct (negb force && _); [repeat split|].
    destruct (default (transactions (app w)) txsOverride); [repeat split|].
    destruct reply; [repeat split| |repeat split].
    destruct (force || _); repeat split.
Qed.

End Provider.

(** ** The statements at concrete inputs *)

(** A signed-in user with one transaction and a budget of 500 backs up;
    the same user restores by 'replace' on a device that holds another
    transaction and a budget of 120. *)
Lemma backup_then_replace_restores_witness :
  let w := sample_world
             (sample_app [sample_tx "t1" 25] 500 (Some sample_user) None true)
             empty_cloud in
  let w1 := (backupUserData sample_bytes "2024-01-02T00:00:00.000Z"
               (UpsertOk (Some "2024-01-02T00:00:00.000Z")) w).2 in
  let other := with_cloud (cloud w1)
                 (sample_world
                    (sample_app [sample_tx "x9" 3] 120 (Some sample_user) None false)
                    empty_cloud) in
  let r := restoreBackup Replace Served other in
  r.1 = Returned true
  ∧ transactions (app r.2) = [sample_tx "t1" 25]
  ∧ budget (app r.2) = 500.
Proof.
  intros w w1 other r.
  destruct (backup_then_replace_restores sample_bytes "2024-01-02T00:00:00.000Z"
              (UpsertOk (Some "2024-01-02T00:00:00.000Z")) w sample_user)
    as [_ Hall].
  - reflexivity.
  - vm_compute. reflexivity.
  - repeat constructor.
  - pose proof (Hall other sample_user eq_refl eq_refl eq_refl eq_refl) as H.
    cbv zeta in H. destruct H as (Hret & _ & Ht & _ & _ & _ & _ & Hb).
    split; [exact Hret|]. split; [exact Ht|exact Hb].
Defined.

(** C1, the claim as written fails: a sheet row whose amount reads
    [Infinity] passes the import ([t.amount > 0]) and is in the snapshot
    that is backed up; JSON writes the amount as [null], and the restore
    by 'replace' that follows, with no local edit in between, leaves a
    transaction list that is not the one of the snapshot. *)
Lemma backup_then_replace_infinite_amount :
  let t := mkTransaction "x1" expense (Some infinity) "2024-01-01T10:00:00.000Z"
             "sheet row" (Some "acc_cash") None None None None None None None None
             None in
  let w0 := sample_world (sample_app [] 500 (Some sample_user) None false)
              empty_cloud in
  let w := commit (importTransactions [t] 1704067200000 w0) in
  let S := snapshot (app w) in
  let saved := backupUserData sample_bytes "2024-01-02T00:00:00.000Z"
                 (UpsertOk (Some "2024-01-02T00:00:00.000Z")) w in
  let r := restoreBackup Replace Served saved.2 in
  saved.1 = Returned tt
  ∧ r.1 = Returned true
  ∧ d_transactions S = Some [t]
  ∧ truthy_object (d_transactions S) = true
  ∧ transactions (app r.2) = [JSON_transaction t]
  ∧ t_amount (JSON_transaction t) = None
  ∧ d_transactions S ≠ Some (transactions (app r.2))
  ∧ ¬ agrees_where_truthy S (app r.2).
Proof.
  intros t w0 w S saved r.
  assert (Ht : transactions (app r.2) = [JSON_transaction t])
    by (vm_compute; reflexivity).
  assert (Hne : d_transactions S ≠ Some (transactions (app r.2))).
  { rewrite Ht. intros H. vm_compute in H. discriminate H. }
  split; [vm_compute; reflexivity|]. split; [vm_compute; reflexivity|].
  split; [reflexivity|]. split; [reflexivity|]. split; [exact Ht|].
  split; [reflexivity|]. split; [exact Hne|].
  intros [H _]. apply Hne. apply H. reflexivity.
Defined.

(** A remote record without [accounts] and with a budget of 0. *)
Lemma restore_replace_fieldwise_witness :
  let blob := mkBackupData (Some [sample_tx "r1" 40]) None (Some []) None (Some 0) None in
  let c := mkCloud {[ "u1" := mkBackupRow (Some blob) None
                                 (Some "2024-01-02T00:00:00.000Z") ]} ∅ [] ∅ in
  let w := sample_world
             (sample_app [sample_tx "t1" 25] 500 (Some sample_user) None true) c in
  let a' := app (restoreBackup Replace Served w).2 in
  accounts a' = [sample_account]
  ∧ transactions a' = [sample_tx "r1" 40]
  ∧ budget a' = 500.
Proof.
  intros blob c w a'.
  destruct (restore_replace_fieldwise Served w sample_user
              (mkBackup blob None (Some "2024-01-02T00:00:00.000Z")))
    as (_ & Hacc & [Htx _] & _ & _ & _ & [_ Hbudget] & _).
  - reflexivity.
  - vm_compute. reflexivity.
  - split; [exact (Hacc eq_refl)|]. split.
    + symmetry. exact (f_equal (default []) (Htx eq_refl)).
    + exact (Hbudget eq_refl).
Defined.


(** C4, the claim as written fails: the store accepts the upsert and its
    answer carries no [updated_at]; the backup succeeds and [lastSync] is
    the client's clock reading, not the value of the answer. *)
Lemma backup_lastSync_client_clock :
  let w := sample_world
             (sample_app [sample_tx "t1" 25] 500 (Some sample_user) None true)
             empty_cloud in
  let clientTime := "2024-01-02T00:00:00.000Z" in
  let answer_updated_at : option string := None in
  let r := backupUserData sample_bytes clientTime (UpsertOk answer_updated_at) w in
  user (syncState (app w)) = Some sample_user
  ∧ r.1 = Returned tt
  ∧ lastSync (syncState (app r.2)) = Some clientTime
  ∧ lastSync (syncState (app r.2)) ≠ answer_updated_at.
Proof. vm_compute. repeat split. discriminate. Defined.

Lemma backup_sets_lastSync_witness :
  let w := sample_world
             (sample_app [sample_tx "t1" 25] 500 (Some sample_user) None true)
             empty_cloud in
  let r := backupUserData sample_bytes "2024-01-02T00:00:00.000Z"
             (UpsertOk (Some "2024-01-02T00:00:01.500Z")) w in
  lastSync (syncState (app r.2)) = Some "2024-01-02T00:00:01.500Z".
Proof.
  intros w r.
  destruct (backup_sets_lastSync sample_bytes "2024-01-02T00:00:00.000Z"
              (UpsertOk (Some "2024-01-02T00:00:01.500Z")) w sample_user)
    as (updated_at & Hreply & Hserver & _).
  - reflexivity.
  - vm_compute. reflexivity.
  - injection Hreply as <-. apply Hserver. reflexivity.
Defined.

(** C5, the claim as written fails: with no local marker, a stored record
    whose [updated_at] is missing, and one whose [updated_at] is the
    epoch, do not raise the flag. *)
Lemma checkCloudBackup_flag_not_raised :
  let blob := mkBackupData (Some [sample_tx "r1" 40]) None None None None None in
  let c := mkCloud {[ "u1" := mkBackupRow (Some blob) None None;
                      "u2" := mkBackupRow (Some blob) None
                                (Some "1970-01-01T00:00:00.000Z") ]} ∅ [] ∅ in
  let w := sample_world (sample_app [] 0 (Some sample_user) None false) c in
  lastSync (syncState (app w)) = None
  ∧ LAST_SYNC (localStorage w) = None
  ∧ is_Some (backups (cloud w) !! "u1")
  ∧ is_Some (backups (cloud w) !! "u2")
  ∧ pendingRestoreAvailable
      (syncState (app (checkCloudBackup sample_clock Served "u1" w))) = false
  ∧ pendingRestoreAvailable
      (syncState (app (checkCloudBackup sample_clock Served "u2" w))) = false.
Proof.
  vm_compute. repeat split; eexists; reflexivity.
Defined.

Lemma checkCloudBackup_flag_witness :
  let blob := mkBackupData (Some [sample_tx "r1" 40]) None None None None None in
  let c := mkCloud {[ "u1" := mkBackupRow (Some blob) None
                                (Some "2024-01-02T00:00:00.000Z") ]} ∅ [] ∅ in
  let w := sample_world (sample_app [] 0 (Some sample_user) None false) c in
  pendingRestoreAvailable
    (syncState (app (checkCloudBackup sample_clock Served "u1" w))) = true.
Proof.
  intros blob c w.
  destruct (checkCloudBackup_flag sample_clock Served "u1" w)
    as (_ & _ & _ & Hnull & _).
  apply (Hnull (mkBackupRow (Some blob) None (Some "2024-01-02T00:00:00.000Z"))
           blob "2024-01-02T00:00:00.000Z" 1704153600000);
    first [reflexivity | discriminate | vm_compute; reflexivity].
Defined.

(** A size measure that puts one payload on the ceiling and another one
    byte above it. *)
Lemma backup_size_ceiling_witness :
  let bytes (d : BackupData) := 6291456 + default 0 (d_budget d) in
  let exact := mkBackupData (Some []) (Some []) (Some []) None (Some 0) (Some []) in
  let over := mkBackupData (Some []) (Some []) (Some []) None (Some 1) (Some []) in
  let reply := UpsertOk (Some "2024-01-02T00:00:00.000Z") in
  let call d := cloudDrive_backupUserData bytes true "2024-01-02T00:00:00.000Z" reply
                  "u1" d empty_cloud in
  (log_of (call exact) = [UpsertBackup "u1"]
   ∧ outcome_of (call exact)
     = Returned (mkBackupResult "2024-01-02T00:00:00.000Z" false))
  ∧ (outcome_of (call over) = Threw (ErrTooLarge 6291457)
     ∧ log_of (call over) = []
     ∧ cloud_of (call over) = empty_cloud).
Proof.
  intros bytes exact over reply call.
  destruct (backup_size_ceiling bytes "2024-01-02T00:00:00.000Z" reply "u1"
              exact over empty_cloud)
    as [[Hlog Hret] Hover].
  - reflexivity.
  - reflexivity.
  - split; [split; [exact Hlog|]|exact Hover].
    exact (Hret (Some "2024-01-02T00:00:00.000Z") eq_refl).
Defined.

(** The budget is changed and the page is loaded again: the flag is down,
    the new budget and [lastSync] are back. *)
Lemma unsyncedChanges_lost_on_page_load_witness :
  let w := sample_world
             (sample_app [sample_tx "t1" 25] 500 (Some sample_user)
                (Some "2024-01-01T00:00:00.000Z") false)
             empty_cloud in
  let next := occur sample_clock sample_bytes [sample_account] [sample_category]
                sample_settings ∅ in
  let edited := next (Mounted (OpUpdateBudget 650)) w in
  let loaded := next PageLoad edited in
  unsyncedChanges (syncState (app edited)) = true
  ∧ unsyncedChanges (syncState (app loaded)) = false
  ∧ UNSYNCED_CHANGES (localStorage loaded) = Some true
  ∧ budget (app loaded) = 650
  ∧ lastSync (syncState (app loaded)) = Some "2024-01-01T00:00:00.000Z".
Proof.
  intros w next edited loaded.
  destruct (unsyncedChanges_lost_on_page_load sample_clock sample_bytes
              [sample_account] [sample_category] sample_settings ∅
              (OpUpdateBudget 650) w)
    as (Hup & _ & Hdown & Hkey & Hlast & _ & _ & _ & Hbudget & _).
  - reflexivity.
  - split; [exact Hup|]. split; [exact Hdown|]. split; [exact Hkey|].
    split; [exact Hbudget|exact Hlast].
Defined.

(** C9, the claim as written fails: the membership insert is rejected and
    so is the compensating delete; [createWallet] throws and the wallet
    row stays in the table. *)
Lemma createWallet_rollback_can_fail :
  let denied := mkPgError "new row violates row-level security policy" "42501" in
  let r := cloudDrive_createWallet true (WalletInserted "w9" None)
             (MemberRejected denied) (DeleteFailed denied)
             "u1" "Trip" "USD" empty_cloud in
  wallets_table empty_cloud !! "w9" = None
  ∧ outcome_of r
    = Threw (ErrMsg "Failed to assign owner: new row violates row-level security policy")
  ∧ log_of r = [InsertWallet; InsertMember "w9"; DeleteWallet "w9"]
  ∧ wallets_table (cloud_of r) !! "w9" = Some (mkWalletRow "Trip" "USD" "u1" None).
Proof. vm_compute. repeat split. Defined.

(** The same failure with the delete carried out: no row is left. *)
Lemma createWallet_member_failure_witness :
  let denied := mkPgError "new row violates row-level security policy" "42501" in
  let r := cloudDrive_createWallet true (WalletInserted "w9" None)
             (MemberRejected denied) Deleted "u1" "Trip" "USD" empty_cloud in
  outcome_of r
  = Threw (ErrMsg "Failed to assign owner: new row violates row-level security policy")
  ∧ wallets_table (cloud_of r) !! "w9" = None
  ∧ wallets_table (cloud_of r) !! "w1" = wallets_table empty_cloud !! "w1".
Proof.
  intros denied r.
  destruct (createWallet_member_failure denied Deleted "u1" "Trip" "USD" "w9" None
              empty_cloud) as (Hthrow & _ & Hgone & Hothers & _).
  split; [exact Hthrow|]. split; [exact Hgone|].
  apply Hothers. discriminate.
Defined.

(** A signed-in user, on line, with daily auto-backup and no [lastSync]:
    no tick of the timer calls backup, however late it is. *)
Lemma autoBackup_requires_lastSync_witness :
  let w := sample_world
             (sample_app [sample_tx "t1" 25] 500 (Some sample_user) None true)
             empty_cloud in
  isLoggedIn (syncState (app w)) = true
  ∧ isOnline (syncState (app w)) = true
  ∧ autoBackup (settings (app w)) = daily
  ∧ autoBackup_calls_backup sample_clock 1893456000000 (app w) = false
  ∧ autoBackup_tick sample_clock sample_bytes 1893456000000
      "2030-01-01T00:00:00.000Z" (UpsertOk None) w = w.
Proof.
  intros w.
  destruct (autoBackup_requires_lastSync sample_clock sample_bytes [sample_account]
              [sample_category] sample_settings ∅ w) as (Hnever & Htick & _).
  - reflexivity.
  - do 3 (split; [reflexivity|]). split; [apply Hnever | apply Htick].
Defined.

(** ** The further properties at concrete inputs *)

(** A backup rejected by the store: one request, the store as it was. *)
Lemma cloud_backup_failure_witness :
  let denied := mkPgError "new row violates row-level security policy" "42501" in
  let r := cloudDrive_backupUserData sample_bytes true "2024-01-02T00:00:00.000Z"
             (UpsertRejected denied) "u1"
             (snapshot (sample_app [sample_tx "t1" 25] 500 (Some sample_user) None true))
             empty_cloud in
  cloud_of r = empty_cloud.
Proof.
  intros denied r.
  apply (cloud_backup_failure sample_bytes true "2024-01-02T00:00:00.000Z"
           (UpsertRejected denied) "u1" _ empty_cloud
           (ErrMsg "new row violates row-level security policy")).
  - reflexivity.
  - discriminate.
Defined.

(** A backup of two transactions by "u1" next to a row of "u2". *)
Lemma cloud_backup_upserts_one_row_witness :
  let other := mkBackupRow None None None in
  let c := mkCloud {[ "u2" := other ]} ∅ [] ∅ in
  let blob := snapshot (sample_app [sample_tx "t1" 25; sample_tx "t2" 40] 500
                          (Some sample_user) None true) in
  let r := cloudDrive_backupUserData sample_bytes true "2024-01-02T00:00:00.000Z"
             (UpsertOk (Some "2024-01-02T00:00:00.000Z")) "u1" blob c in
  backups (cloud_of r) !! "u2" = backups c !! "u2"
  ∧ dom (backups (cloud_of r)) = {[ "u1" ]} ∪ dom (backups c).
Proof.
  intros other c blob r.
  destruct (cloud_backup_upserts_one_row sample_bytes true "2024-01-02T00:00:00.000Z"
              (UpsertOk (Some "2024-01-02T00:00:00.000Z")) "u1" blob c
              (mkBackupResult "2024-01-02T00:00:00.000Z" false))
    as (_ & Hother & Hdom & _).
  - reflexivity.
  - split; [apply Hother; discriminate|exact Hdom].
Defined.

(** A restore by 'replace' while off line. *)
Lemma restore_failure_keeps_world_witness :
  let w := with_onLine false
             (sample_world
                (sample_app [sample_tx "t1" 25] 500 (Some sample_user) None true)
                empty_cloud) in
  restoreBackup Replace Served w = (Returned false, w).
Proof.
  intros w.
  apply (restore_failure_keeps_world Replace Served w); [discriminate|].
  right. left. reflexivity.
Defined.

(** Local "t1" merged with remote "t1" and "r1": "r1" is appended, the
    accounts and the budget stay. *)
Lemma restore_merge_transactions_only_witness :
  let blob := mkBackupData (Some [sample_tx "t1" 25; sample_tx "r1" 40])
                (Some []) None None (Some 9) None in
  let c := mkCloud {[ "u1" := mkBackupRow (Some blob) None
                                 (Some "2024-01-02T00:00:00.000Z") ]} ∅ [] ∅ in
  let w := sample_world
             (sample_app [sample_tx "t1" 25] 500 (Some sample_user) None true) c in
  let a' := app (restoreBackup Merge Served w).2 in
  (∃ remoteTxs,
      transactions a'
      = [sample_tx "t1" 25]
        ++ filter (λ t, t_id t ∉ (t_id <$> [sample_tx "t1" 25])) remoteTxs)
  ∧ accounts a' = [sample_account] ∧ budget a' = 500.
Proof.
  intros blob c w a'.
  destruct (restore_merge_transactions_only Served w)
    as ((_ & _ & remoteTxs & _ & _ & _ & Htx) & Hacc & _ & _ & Hb & _).
  - vm_compute. reflexivity.
  - split; [exists remoteTxs; exact Htx|]. split; [exact Hacc|exact Hb].
Defined.

Lemma restore_merge_ids_witness :
  let remote := [sample_tx "t1" 25; sample_tx "r1" 40] in
  let blob := mkBackupData (Some remote) None None None None None in
  let c := mkCloud {[ "u1" := mkBackupRow (Some blob) None
                                 (Some "2024-01-02T00:00:00.000Z") ]} ∅ [] ∅ in
  let w := sample_world
             (sample_app [sample_tx "t1" 25] 500 (Some sample_user) None true) c in
  NoDup (t_id <$> transactions (app (restoreBackup Merge Served w).2)).
Proof.
  intros remote blob c w.
  destruct (restore_merge_ids Served w sample_user
              (mkBackup blob None (Some "2024-01-02T00:00:00.000Z")) remote)
    as [_ Hnd].
  - reflexivity.
  - vm_compute. reflexivity.
  - reflexivity.
  - apply Hnd.
    + apply NoDup_singleton.
    + apply NoDup_cons. split; [|apply NoDup_singleton].
      intros H. apply list_elem_of_singleton in H. discriminate.
Defined.

(** A budget stored as its decimal text. *)
Lemma storage_set_then_get_witness :
  let parse (s : string) : option Z :=
    if bool_decide (s = "500") then Some 500 else None in
  let print (n : Z) : string := if bool_decide (n = 500) then "500" else "0" in
  storage.get parse (storage.set print "sb_budget" (Some 500) ∅) "sb_budget" 0 = 500.
Proof.
  intros parse print.
  apply (storage_set_then_get parse print "sb_budget" "sb_theme" 500 0 ∅);
    [reflexivity|discriminate|discriminate].
Defined.
